(** * wallet-chain-account: the chain dispatcher and its ethereum adaptor

    A shallow embedding of [chaindispatcher/dispatcher.go], of the two
    versions of the ethereum chain adaptor and of the start-up fragment of
    [main.go], followed by the properties of the dispatch layer.

    Go code that can log, panic or end the process is embedded in a small
    state-and-outcome monad.  The registry is a finite map from chain names
    to adaptors.  Byte strings are [list byte]; Go strings are [string]. *)

From Stdlib Require Import NArith ZArith List.
From Stdlib Require Import Strings.String Strings.Ascii Strings.Byte Strings.HexString.
From stdpp Require Import gmap strings list pretty.

Local Open Scope string_scope.
Local Open Scope list_scope.

(** ** The Go runtime: errors, panics, outcomes *)

(** gRPC status codes ([google.golang.org/grpc/codes]); only [Internal] is
    produced by this repository. *)
Module codes.
Inductive Code := OK | Unknown | Internal.
End codes.

(** A Go [error] value: a plain error with its message, or a gRPC status
    built by [status.Errorf]. *)
Inductive error :=
| errorString (msg : string)
| statusError (c : codes.Code) (desc : string).

(** The value carried by a panic: [panic("...")] carries a string, a failed
    run-time check carries a [runtime.Error], a failed type assertion to an
    interface carries a [*runtime.TypeAssertionError] (the dynamic type of
    the value, the interface asserted and the method that is missing),
    [panic(err)] an error. *)
Inductive PanicValue :=
| PanicString (s : string)
| PanicRuntime (what : string)
| PanicTypeAssertion (concrete asserted missingMethod : string)
| PanicError (e : error).

Definition code_name (c : codes.Code) : string :=
  match c with
  | codes.OK => "OK"
  | codes.Unknown => "Unknown"
  | codes.Internal => "Internal"
  end.

Definition error_Error (e : error) : string :=
  match e with
  | errorString m => m
  | statusError c d => "rpc error: code = " +:+ code_name c +:+ " desc = " +:+ d
  end.

(** [fmt]'s [%v] applied to a recovered panic value: a string is printed as
    it is, an error through its [Error] method.  The text of a
    [*runtime.TypeAssertionError] names the dynamic type and has no
    [runtime error: ] in front. *)
Definition fmt_v (v : PanicValue) : string :=
  match v with
  | PanicString s => s
  | PanicRuntime w => "runtime error: " +:+ w
  | PanicTypeAssertion concrete asserted missingMethod =>
      "interface conversion: " +:+ concrete +:+ " is not " +:+ asserted
      +:+ ": missing method " +:+ missingMethod
  | PanicError e => error_Error e
  end.

Definition nil_dereference : PanicValue :=
  PanicRuntime "invalid memory address or nil pointer dereference".

(** The name of a Go type, as the runtime prints the dynamic type of a value
    of the empty interface. *)
Class GoType (T : Type) := type_name : string.
Arguments type_name T {_}.

(** How a Go call ends: it returns, it panics (and unwinds to the nearest
    deferred [recover]), or the process is ended by [os.Exit]. *)
Inductive outcome (A : Type) :=
| Ret (a : A)
| Panicked (v : PanicValue)
| Exited (status : Z).
Arguments Ret {A} a.
Arguments Panicked {A} v.
Arguments Exited {A} status.

(** Computations over a state [S]. *)
Definition M (S A : Type) : Type := S -> outcome A * S.

Definition ret {S A} (a : A) : M S A := fun s => (Ret a, s).

Definition bind {S A B} (m : M S A) (k : A -> M S B) : M S B :=
  fun s =>
    match m s with
    | (Ret a, s') => k a s'
    | (Panicked v, s') => (Panicked v, s')
    | (Exited n, s') => (Exited n, s')
    end.

Definition panic {S A} (v : PanicValue) : M S A := fun s => (Panicked v, s).

(** [defer func() { if e := recover(); e != nil { ... } }()] around [body]:
    when [body] panics with [e], the deferred function runs [handler e] and
    its result becomes the function's result.  An [os.Exit] is not a panic
    and is not recovered. *)
Definition defer_recover {S A} (body : M S A) (handler : PanicValue -> M S A) : M S A :=
  fun s =>
    match body s with
    | (Panicked e, s') => handler e s'
    | r => r
    end.

Notation "'let*' x ':=' m 'in' k" := (bind m (fun x => k))
  (at level 10, x pattern, m at level 100, k at level 200).

(** A Go result pair, a pointer to [T] and an [error]: either component
    may be nil. *)
Definition Reply (T : Type) : Type := (option T * option error)%type.

(** ** Logging ([github.com/ethereum/go-ethereum/log]) *)

Module log.
Inductive Level := LvlDebug | LvlInfo | LvlError | LvlCrit.

(** A context value handed to the logger. *)
Inductive Value :=
| VStr (s : string)
| VStrs (l : list string)
| VErr (e : option error)
| VPanic (v : PanicValue)
| VDyn (T : Type) (x : T).

(** The message of a record: a literal, or the text of [debug.Stack()],
    whose content is decided by the Go runtime. *)
Inductive Message :=
| Text (s : string)
| StackTrace.

Record Record_ := { level : Level; message : Message; ctx : list Value }.

Definition Log := list Record_.

Definition write (l : Level) (m : Message) (c : list Value) : M Log unit :=
  fun lg => (Ret tt, lg ++ [{| level := l; message := m; ctx := c |}]).

Definition Debug (m : Message) (c : list Value) : M Log unit := write LvlDebug m c.
Definition Info (m : string) (c : list Value) : M Log unit := write LvlInfo (Text m) c.
Definition Error (m : string) (c : list Value) : M Log unit := write LvlError (Text m) c.

(** [log.Crit] writes the record and then calls [os.Exit(1)]. *)
Definition Crit {A} (m : string) (c : list Value) : M Log A :=
  fun lg => (Exited 1, lg ++ [{| level := LvlCrit; message := Text m; ctx := c |}]).
End log.

(** A call into code whose text is not embedded (the node client, the
    data-API client, the functions that dial them): all that is fixed is
    how the call ends and which records it writes to the log. *)
Definition Ext (A : Type) : Type := (outcome A * log.Log)%type.

Definition call_ext {A} (e : Ext A) : M log.Log A :=
  fun lg => (fst e, lg ++ snd e).

(** ** Library functions the adaptor calls

    These are functions of Go's standard library and of go-ethereum, written
    out after their documented behaviour, so that the adaptor's address
    conversion can be evaluated on concrete keys. *)

(** [encoding/hex] *)
Module hex.
Definition digit (n : N) : ascii :=
  ascii_of_N (if (n <? 10)%N then 48 + n else 87 + n)%N.

Fixpoint EncodeToString (bs : list byte) : string :=
  match bs with
  | [] => EmptyString
  | b :: r =>
      let n := Byte.to_N b in
      String (digit (n / 16)) (String (digit (n mod 16)) (EncodeToString r))
  end.

(** [reverseHexTable]: the value of a hexadecimal digit, of either case. *)
Definition fromHexChar (c : ascii) : option N :=
  let n := N_of_ascii c in
  if ((48 <=? n) && (n <=? 57))%N then Some (n - 48)%N
  else if ((97 <=? n) && (n <=? 102))%N then Some (n - 87)%N
  else if ((65 <=? n) && (n <=? 70))%N then Some (n - 55)%N
  else None.

Definition byte_of_N (n : N) : byte := default x00 (Byte.of_N n).

(** [DecodeString] with its error dropped, as [common.Hex2Bytes] calls it:
    the bytes decoded before the first invalid digit. *)
Fixpoint DecodeString (s : string) : list byte :=
  match s with
  | String p (String q r) =>
      match fromHexChar p, fromHexChar q with
      | Some a, Some b => byte_of_N (a * 16 + b) :: DecodeString r
      | _, _ => []
      end
  | _ => []
  end.
End hex.

(** [github.com/ethereum/go-ethereum/crypto]: Keccak-256, the sponge over
    Keccak-f[1600] with rate 136 bytes and the original 0x01 padding.  A
    state is the list of its 25 lanes, lane (x, y) at index [x + 5 * y],
    each lane a 64-bit number. *)
Module crypto.
Local Open Scope N_scope.

Definition mask64 : N := 0xFFFFFFFFFFFFFFFF.

Definition rotl64 (x n : N) : N :=
  N.lor (N.land (N.shiftl x n) mask64) (N.shiftr x (64 - n)).

Definition lane (st : list N) (i : nat) : N := nth i st 0.

Definition rotation_offsets : list N :=
  [ 0; 1; 62; 28; 27;  36; 44; 6; 55; 20;  3; 10; 43; 25; 39;
    41; 45; 15; 21; 8;  18; 2; 61; 56; 14 ].

Definition round_constants : list N :=
  [ 0x0000000000000001; 0x0000000000008082; 0x800000000000808A; 0x8000000080008000;
    0x000000000000808B; 0x0000000080000001; 0x8000000080008081; 0x8000000000008009;
    0x000000000000008A; 0x0000000000000088; 0x0000000080008009; 0x000000008000000A;
    0x000000008000808B; 0x800000000000008B; 0x8000000000008089; 0x8000000000008003;
    0x8000000000008002; 0x8000000000000080; 0x000000000000800A; 0x800000008000000A;
    0x8000000080008081; 0x8000000000008080; 0x0000000080000001; 0x8000000080008008 ].

Definition theta (st : list N) : list N :=
  let C (x : nat) :=
    N.lxor (lane st x) (N.lxor (lane st (x + 5)) (N.lxor (lane st (x + 10))
      (N.lxor (lane st (x + 15)) (lane st (x + 20))))) in
  let D (x : nat) :=
    N.lxor (C ((x + 4) mod 5)%nat) (rotl64 (C ((x + 1) mod 5)%nat) 1) in
  imap (fun i a => N.lxor a (D (i mod 5)%nat)) st.

Definition rho_pi (st : list N) : list N :=
  map (fun j =>
         let x' := (j mod 5)%nat in
         let y' := (j / 5)%nat in
         let src := (((x' + 3 * y') mod 5) + 5 * x')%nat in
         rotl64 (lane st src) (nth src rotation_offsets 0))
      (seq 0 25).

Definition chi (st : list N) : list N :=
  map (fun j =>
         let x := (j mod 5)%nat in
         let y := (j / 5)%nat in
         N.lxor (lane st j)
           (N.ldiff (lane st (((x + 2) mod 5) + 5 * y)%nat)
                    (lane st (((x + 1) mod 5) + 5 * y)%nat)))
      (seq 0 25).

Definition iota (c : N) (st : list N) : list N :=
  match st with
  | [] => []
  | a :: r => N.lxor a c :: r
  end.

Definition round (st : list N) (c : N) : list N :=
  iota c (chi (rho_pi (theta st))).

Definition keccakF1600 (st : list N) : list N :=
  fold_left round round_constants st.

Definition rate : nat := 136.

Fixpoint le_lane (bs : list N) : N :=
  match bs with
  | [] => 0
  | b :: r => N.lor b (N.shiftl (le_lane r) 8)
  end.

Fixpoint lanes_of (n : nat) (bs : list N) : list N :=
  match n with
  | O => []
  | S n' => le_lane (take 8 bs) :: lanes_of n' (drop 8 bs)
  end.

Definition absorb (st block : list N) : list N :=
  keccakF1600 (zip_with N.lxor st (lanes_of 25 block)).

Definition pad (m : list N) : list N :=
  let q := (rate - length m mod rate)%nat in
  if (q =? 1)%nat then m ++ [0x81]
  else m ++ [0x01] ++ repeat 0 (q - 2) ++ [0x80].

Fixpoint blocks (n : nat) (bs : list N) : list (list N) :=
  match n with
  | O => []
  | S n' => take rate bs :: blocks n' (drop rate bs)
  end.

Definition state_byte (st : list N) (i : nat) : N :=
  N.land (N.shiftr (lane st (i / 8)) (8 * N.of_nat (i mod 8))) 0xFF.

Definition Keccak256 (data : list byte) : list byte :=
  let p := pad (map Byte.to_N data) in
  let st := fold_left absorb (blocks (length p / rate) p) (repeat 0 25) in
  map (fun i => hex.byte_of_N (state_byte st i)) (seq 0 32).
End crypto.

(** [github.com/ethereum/go-ethereum/common] *)
Module ethcommon.
Definition AddressLength : nat := 20.
Definition HashLength : nat := 32.

(** [Address] is a 20-byte array and [Hash] a 32-byte array. *)
Definition Address : Type := list byte.
Definition Hash : Type := list byte.

(** [SetBytes]: a slice longer than the array is cropped from the left, a
    shorter one is right-aligned in a zeroed array. *)
Definition setBytes (n : nat) (b : list byte) : list byte :=
  let b' := if (n <? length b)%nat then drop (length b - n) b else b in
  replicate (n - length b') x00 ++ b'.

Definition BytesToAddress (b : list byte) : Address := setBytes AddressLength b.
Definition BytesToHash (b : list byte) : Hash := setBytes HashLength b.

Definition has0xPrefix (s : string) : bool :=
  match s with
  | String "0" (String c _) => bool_decide (c = "x"%char) || bool_decide (c = "X"%char)
  | _ => false
  end.

Definition FromHex (s : string) : list byte :=
  let s := if has0xPrefix s then String.substring 2 (String.length s - 2) s else s in
  let s := if Nat.odd (String.length s) then String "0" s else s in
  hex.DecodeString s.

Definition HexToAddress (s : string) : Address := BytesToAddress (FromHex s).
Definition HexToHash (s : string) : Hash := BytesToHash (FromHex s).

(** The zero value [common.Hash{}]. *)
Definition zeroHash : Hash := replicate HashLength x00.

Definition Hash_String (h : Hash) : string := "0x" +:+ hex.EncodeToString h.

(** [checksumHex]: the lower-case digits, each letter put in upper case when
    the matching nibble of the Keccak-256 hash of the digits exceeds 7
    (EIP-55). *)
Definition checksum_digit (hash : list byte) (i : nat) (c : ascii) : ascii :=
  let hashByte := Byte.to_N (nth (i / 2) hash x00) in
  let hashByte := if Nat.even i then N.shiftr hashByte 4 else N.land hashByte 0xf in
  if ((57 <? N_of_ascii c) && (7 <? hashByte))%N
  then ascii_of_N (N_of_ascii c - 32)
  else c.

Definition checksumHex (a : Address) : string :=
  let buf := hex.EncodeToString a in
  let hash := crypto.Keccak256 (list_byte_of_string buf) in
  "0x" +:+ string_of_list_ascii (imap (checksum_digit hash) (list_ascii_of_string buf)).

Definition Address_String (a : Address) : string := checksumHex a.
End ethcommon.

(** [hexutil.Uint64], [math/big], [strconv], [encoding/binary] *)
Module hexutil.
Definition Uint64_String (n : N) : string := HexString.of_N n.
End hexutil.

Module big.
(** A [*big.Int]; [String] of the nil pointer is the text "<nil>". *)
Definition Int : Type := option Z.
Definition NewInt (x : Z) : Int := Some x.
Definition String (x : Int) : string :=
  match x with
  | Some z => pretty z
  | None => "<nil>"
  end.
End big.

Module strconv.
Definition FormatUint10 (n : N) : string := pretty n.
End strconv.

Module binary.
Definition BigEndian_Uint64 (bs : list byte) : N :=
  fold_left (fun acc b => (acc * 256 + Byte.to_N b)%N) bs 0%N.
End binary.

(** [core/types.Header], with the fields the adaptor reads.  A field that is
    a pointer in Go is an [option]. *)
Module types.
Record Header := {
  ParentHash : ethcommon.Hash;
  UncleHash : ethcommon.Hash;
  Coinbase : ethcommon.Address;
  Root : ethcommon.Hash;
  TxHash : ethcommon.Hash;
  ReceiptHash : ethcommon.Hash;
  Difficulty : big.Int;
  Number : big.Int;
  GasLimit : N;
  GasUsed : N;
  Time : N;
  Extra : list byte;
  MixDigest : ethcommon.Hash;
  Nonce : list byte;
  BaseFee : big.Int;
  WithdrawalsHash : option ethcommon.Hash;
  BlobGasUsed : option N;
  ExcessBlobGas : option N;
  ParentBeaconRoot : option ethcommon.Hash
}.
End types.

(** ** Messages of the RPC surface ([rpc/common], [rpc/account])

    The message types are generated from the protocol definition.  A
    request is its [Chain] field with the remaining fields as [Params]; a
    response is [Code] and [Msg] with the remaining fields as [Payload].
    The fields the dispatcher and the adaptor name are records; the fields
    of the messages that no code reads or writes are kept in wire form,
    where the zero value of every field is the empty byte string. *)
Module common.
Inductive ReturnCode := ReturnCode_SUCCESS | ReturnCode_ERROR.
End common.

(** The zero value of a Go type. *)
Class Zero (T : Type) := zero : T.
Global Instance zero_string : Zero string := EmptyString.
Global Instance zero_bool : Zero bool := false.
Global Instance zero_bytes : Zero (list byte) := [].
Global Instance zero_pointer {T} : Zero (option T) := None.

Module account.
Record Request (P : Type) := { Chain : string; Params : P }.
Arguments Chain {P} _.
Arguments Params {P} _.

Record Response (P : Type) := { Code : common.ReturnCode; Msg : string; Payload : P }.
Arguments Code {P} _.
Arguments Msg {P} _.
Arguments Payload {P} _.

Definition RawFields : Type := list byte.

Module SupportChainsResponse.
Record fields := { Support : bool }.
Global Instance zero_fields : Zero fields := {| Support := zero |}.
End SupportChainsResponse.

Module ConvertAddressRequest.
Record fields := { PublicKey : list byte }.
End ConvertAddressRequest.

Module ConvertAddressResponse.
Record fields := { Address : string }.
Global Instance zero_fields : Zero fields := {| Address := zero |}.
End ConvertAddressResponse.

Module BlockNumberRequest.
Record fields := { Height : Z }.
End BlockNumberRequest.

Module BlockHeaderNumberRequest.
Record fields := { Height : Z }.
End BlockHeaderNumberRequest.

Module BlockHeaderHashRequest.
Record fields := { Hash : string }.
End BlockHeaderHashRequest.

Module AccountRequest.
Record fields := { Address : string; ContractAddress : string }.
End AccountRequest.

Module AccountResponse.
Record fields := { AccountNumber : string; Sequence : string; Balance : string }.
Global Instance zero_fields : Zero fields :=
  {| AccountNumber := zero; Sequence := zero; Balance := zero |}.
End AccountResponse.

Module BlockInfoTransactionList.
Record t := {
  From : string; To : string; Hash : string; Time : string;
  Amount : string; Fee : string; Status : string
}.
End BlockInfoTransactionList.

Module BlockResponse.
Record fields := {
  Hash : string;
  BaseFee : string;
  Transactions : list BlockInfoTransactionList.t
}.
Global Instance zero_fields : Zero fields :=
  {| Hash := zero; BaseFee := zero; Transactions := [] |}.
End BlockResponse.

Module BlockHeader.
Record t := {
  ParentHash : string; UncleHash : string; CoinBase : string; Root : string;
  TxHash : string; ReceiptHash : string; ParentBeaconRoot : string;
  Difficulty : string; Number : string;
  GasLimit : N; GasUsed : N; Time : N;
  Extra : string; MixDigest : string; Nonce : string; BaseFee : string;
  WithdrawalsHash : string; BlobGasUsed : N; ExcessBlobGas : N
}.
End BlockHeader.

Module BlockHeaderResponse.
Record fields := { BlockHeader : option BlockHeader.t }.
Global Instance zero_fields : Zero fields := {| BlockHeader := zero |}.
End BlockHeaderResponse.

Definition SupportChainsRequest := Request RawFields.
Definition SupportChainsResponse := Response SupportChainsResponse.fields.
Definition ConvertAddressRequest := Request ConvertAddressRequest.fields.
Definition ConvertAddressResponse := Response ConvertAddressResponse.fields.
Definition ValidAddressRequest := Request RawFields.
Definition ValidAddressResponse := Response RawFields.
Definition BlockNumberRequest := Request BlockNumberRequest.fields.
Definition BlockHashRequest := Request RawFields.
Definition BlockResponse := Response BlockResponse.fields.
Definition BlockHeaderHashRequest := Request BlockHeaderHashRequest.fields.
Definition BlockHeaderNumberRequest := Request BlockHeaderNumberRequest.fields.
Definition BlockHeaderResponse := Response BlockHeaderResponse.fields.
Definition AccountRequest := Request AccountRequest.fields.
Definition AccountResponse := Response AccountResponse.fields.
Definition FeeRequest := Request RawFields.
Definition FeeResponse := Response RawFields.
Definition SendTxRequest := Request RawFields.
Definition SendTxResponse := Response RawFields.
Definition TxAddressRequest := Request RawFields.
Definition TxAddressResponse := Response RawFields.
Definition TxHashRequest := Request RawFields.
Definition TxHashResponse := Response RawFields.
Definition BlockByRangeRequest := Request RawFields.
Definition BlockByRangeResponse := Response RawFields.
Definition UnSignTransactionRequest := Request RawFields.
Definition UnSignTransactionResponse := Response RawFields.
Definition SignedTransactionRequest := Request RawFields.
Definition SignedTransactionResponse := Response RawFields.
Definition DecodeTransactionRequest := Request RawFields.
Definition DecodeTransactionResponse := Response RawFields.
Definition VerifyTransactionRequest := Request RawFields.
Definition VerifyTransactionResponse := Response RawFields.
Definition ExtraDataRequest := Request RawFields.
Definition ExtraDataResponse := Response RawFields.
End account.

(** The methods of the service [WalletAccountService], which are also the
    methods of the adaptor contract, with the message types of each. *)
Module service.
Inductive Method :=
| GetSupportChains | ConvertAddress | ValidAddress
| GetBlockByNumber | GetBlockByHash
| GetBlockHeaderByHash | GetBlockHeaderByNumber
| GetAccount | GetFee | SendTx | GetTxByAddress | GetTxByHash
| GetBlockByRange | CreateUnSignTransaction | BuildSignedTransaction
| DecodeTransaction | VerifySignedTransaction | GetExtraData.

Definition Params (m : Method) : Type :=
  match m with
  | ConvertAddress => account.ConvertAddressRequest.fields
  | GetBlockByNumber => account.BlockNumberRequest.fields
  | GetBlockHeaderByHash => account.BlockHeaderHashRequest.fields
  | GetBlockHeaderByNumber => account.BlockHeaderNumberRequest.fields
  | GetAccount => account.AccountRequest.fields
  | _ => account.RawFields
  end.

Definition Payload (m : Method) : Type :=
  match m with
  | GetSupportChains => account.SupportChainsResponse.fields
  | ConvertAddress => account.ConvertAddressResponse.fields
  | GetBlockByNumber | GetBlockByHash => account.BlockResponse.fields
  | GetBlockHeaderByHash | GetBlockHeaderByNumber => account.BlockHeaderResponse.fields
  | GetAccount => account.AccountResponse.fields
  | _ => account.RawFields
  end.

Definition Req (m : Method) : Type := account.Request (Params m).
Definition Resp (m : Method) : Type := account.Response (Payload m).

Global Instance zero_payload (m : Method) : Zero (Payload m) :=
  match m with
  | GetSupportChains => account.SupportChainsResponse.zero_fields
  | ConvertAddress => account.ConvertAddressResponse.zero_fields
  | GetBlockByNumber | GetBlockByHash => account.BlockResponse.zero_fields
  | GetBlockHeaderByHash | GetBlockHeaderByNumber => account.BlockHeaderResponse.zero_fields
  | GetAccount => account.AccountResponse.zero_fields
  | _ => zero_bytes
  end.

Definition name (m : Method) : string :=
  match m with
  | GetSupportChains => "GetSupportChains"
  | ConvertAddress => "ConvertAddress"
  | ValidAddress => "ValidAddress"
  | GetBlockByNumber => "GetBlockByNumber"
  | GetBlockByHash => "GetBlockByHash"
  | GetBlockHeaderByHash => "GetBlockHeaderByHash"
  | GetBlockHeaderByNumber => "GetBlockHeaderByNumber"
  | GetAccount => "GetAccount"
  | GetFee => "GetFee"
  | SendTx => "SendTx"
  | GetTxByAddress => "GetTxByAddress"
  | GetTxByHash => "GetTxByHash"
  | GetBlockByRange => "GetBlockByRange"
  | CreateUnSignTransaction => "CreateUnSignTransaction"
  | BuildSignedTransaction => "BuildSignedTransaction"
  | DecodeTransaction => "DecodeTransaction"
  | VerifySignedTransaction => "VerifySignedTransaction"
  | GetExtraData => "GetExtraData"
  end.

(** The Go type of the request of each method, as the dispatcher's
    signatures declare it. *)
Definition request_type (m : Method) : string :=
  match m with
  | GetSupportChains => "*account.SupportChainsRequest"
  | ConvertAddress => "*account.ConvertAddressRequest"
  | ValidAddress => "*account.ValidAddressRequest"
  | GetBlockByNumber => "*account.BlockNumberRequest"
  | GetBlockByHash => "*account.BlockHashRequest"
  | GetBlockHeaderByHash => "*account.BlockHeaderHashRequest"
  | GetBlockHeaderByNumber => "*account.BlockHeaderNumberRequest"
  | GetAccount => "*account.AccountRequest"
  | GetFee => "*account.FeeRequest"
  | SendTx => "*account.SendTxRequest"
  | GetTxByAddress => "*account.TxAddressRequest"
  | GetTxByHash => "*account.TxHashRequest"
  | GetBlockByRange => "*account.BlockByRangeRequest"
  | CreateUnSignTransaction => "*account.UnSignTransactionRequest"
  | BuildSignedTransaction => "*account.SignedTransactionRequest"
  | DecodeTransaction => "*account.DecodeTransactionRequest"
  | VerifySignedTransaction => "*account.VerifyTransactionRequest"
  | GetExtraData => "*account.ExtraDataRequest"
  end.

Global Instance Req_GoType (m : Method) : GoType (account.Request (Params m)) :=
  request_type m.
End service.

(** ** Package [config] *)
Module config.
(** Modelled from the spec: the constant [UnsupportedOperation] of package
    [config], whose declaration is missing; the spec gives the message of
    the validator as "unsupported operation". *)
Definition UnsupportedOperation : string := "unsupported operation".

(** The configuration, with the fields the dispatcher and the adaptor
    read. *)
Record RPC := { RPCURL : string }.
Record Node := {
  RPCs : list RPC;
  DataApiUrl : string;
  DataApiKey : string;
  TimeOut : Z
}.
Record WalletNode := { Eth : Node }.
Record Server := { Port : string }.
Record Config := { Server_ : Server; WalletNode_ : WalletNode; Chains : list string }.
End config.

(** ** Package [chain]: the adaptor contract

    [IChainAdaptor] is the interface every chain implements, one method per
    operation.  A method can log, panic or end the process, and returns a
    response pointer and an error. *)
Module chain.
Record IChainAdaptor := {
  GetSupportChains : account.SupportChainsRequest -> M log.Log (Reply account.SupportChainsResponse);
  ConvertAddress : account.ConvertAddressRequest -> M log.Log (Reply account.ConvertAddressResponse);
  ValidAddress : account.ValidAddressRequest -> M log.Log (Reply account.ValidAddressResponse);
  GetBlockByNumber : account.BlockNumberRequest -> M log.Log (Reply account.BlockResponse);
  GetBlockByHash : account.BlockHashRequest -> M log.Log (Reply account.BlockResponse);
  GetBlockHeaderByHash : account.BlockHeaderHashRequest -> M log.Log (Reply account.BlockHeaderResponse);
  GetBlockHeaderByNumber : account.BlockHeaderNumberRequest -> M log.Log (Reply account.BlockHeaderResponse);
  GetAccount : account.AccountRequest -> M log.Log (Reply account.AccountResponse);
  GetFee : account.FeeRequest -> M log.Log (Reply account.FeeResponse);
  SendTx : account.SendTxRequest -> M log.Log (Reply account.SendTxResponse);
  GetTxByAddress : account.TxAddressRequest -> M log.Log (Reply account.TxAddressResponse);
  GetTxByHash : account.TxHashRequest -> M log.Log (Reply account.TxHashResponse);
  GetBlockByRange : account.BlockByRangeRequest -> M log.Log (Reply account.BlockByRangeResponse);
  CreateUnSignTransaction : account.UnSignTransactionRequest -> M log.Log (Reply account.UnSignTransactionResponse);
  BuildSignedTransaction : account.SignedTransactionRequest -> M log.Log (Reply account.SignedTransactionResponse);
  DecodeTransaction : account.DecodeTransactionRequest -> M log.Log (Reply account.DecodeTransactionResponse);
  VerifySignedTransaction : account.VerifyTransactionRequest -> M log.Log (Reply account.VerifyTransactionResponse);
  GetExtraData : account.ExtraDataRequest -> M log.Log (Reply account.ExtraDataResponse)
}.

(** The method of an adaptor that answers a service method. *)
Definition method_of (a : IChainAdaptor) (m : service.Method)
  : service.Req m -> M log.Log (Reply (service.Resp m)) :=
  match m with
  | service.GetSupportChains => GetSupportChains a
  | service.ConvertAddress => ConvertAddress a
  | service.ValidAddress => ValidAddress a
  | service.GetBlockByNumber => GetBlockByNumber a
  | service.GetBlockByHash => GetBlockByHash a
  | service.GetBlockHeaderByHash => GetBlockHeaderByHash a
  | service.GetBlockHeaderByNumber => GetBlockHeaderByNumber a
  | service.GetAccount => GetAccount a
  | service.GetFee => GetFee a
  | service.SendTx => SendTx a
  | service.GetTxByAddress => GetTxByAddress a
  | service.GetTxByHash => GetTxByHash a
  | service.GetBlockByRange => GetBlockByRange a
  | service.CreateUnSignTransaction => CreateUnSignTransaction a
  | service.BuildSignedTransaction => BuildSignedTransaction a
  | service.DecodeTransaction => DecodeTransaction a
  | service.VerifySignedTransaction => VerifySignedTransaction a
  | service.GetExtraData => GetExtraData a
  end.
End chain.

(** Calling through a pointer or an interface value that may be nil. *)
Definition deref {S A} (p : option A) : M S A :=
  match p with
  | Some a => ret a
  | None => panic nil_dereference
  end.

(** ** Package [ethereum]: the ethereum adaptor *)
Module ethereum.
Definition ChainName : string := "Ethereum".

(** The node client and the data-API client are declared in other files of
    the package.  Their methods and result fields are the ones the adaptor
    uses; what a call does (log, fail, panic) is left open. *)
Module TransactionList.
Record t := { To : string; Hash : string }.
End TransactionList.

Module RpcBlock.
Record t := {
  Hash : ethcommon.Hash;
  BaseFee : string;
  Transactions : list TransactionList.t
}.
End RpcBlock.

Record EthClient := {
  BlockHeaderByHash : ethcommon.Hash -> Ext (Reply types.Header);
  BlockHeaderByNumber : big.Int -> Ext (Reply types.Header);
  BlockByNumber : big.Int -> Ext (Reply RpcBlock.t);
  TxCountByAddress : ethcommon.Address -> Ext (N * option error)
}.

Record AddressBalance := { BalanceStr : string }.

Record EthData := {
  getBalanceByaddress : string -> string -> Ext (Reply AddressBalance)
}.

Record ChainAdaptor := {
  ethClient : option EthClient;
  ethDataClient : option EthData
}.

Definition GetSupportChains (c : ChainAdaptor) (req : account.SupportChainsRequest)
  : M log.Log (Reply account.SupportChainsResponse) :=
  ret (Some {| account.Code := common.ReturnCode_SUCCESS;
               account.Msg := "Support this chain";
               account.Payload := {| account.SupportChainsResponse.Support := true |} |},
       None).

(** [req.PublicKey[1:]] panics on an empty key; [Keccak256(...)[12:]] is
    in range, the hash having 32 bytes. *)
Definition ConvertAddress (c : ChainAdaptor) (req : account.ConvertAddressRequest)
  : M log.Log (Reply account.ConvertAddressResponse) :=
  let PublicKey := account.ConvertAddressRequest.PublicKey (account.Params req) in
  match PublicKey with
  | [] => panic (PanicRuntime "slice bounds out of range [1:0]")
  | _ :: _ =>
      let addressCommon :=
        ethcommon.BytesToAddress (drop 12 (crypto.Keccak256 (drop 1 PublicKey))) in
      ret (Some {| account.Code := common.ReturnCode_SUCCESS;
                   account.Msg := "convert address successs";
                   account.Payload :=
                     {| account.ConvertAddressResponse.Address :=
                          ethcommon.Address_String addressCommon |} |},
           None)
  end.

(** The literal [&account.BlockHeader{...}] of both header operations.  The
    four fields read through a pointer panic when the pointer is nil. *)
Definition blockHeader_of (blockInfo : types.Header) : M log.Log account.BlockHeader.t :=
  let* parentBeaconRoot := deref (types.ParentBeaconRoot blockInfo) in
  let* withdrawalsHash := deref (types.WithdrawalsHash blockInfo) in
  let* blobGasUsed := deref (types.BlobGasUsed blockInfo) in
  let* excessBlobGas := deref (types.ExcessBlobGas blockInfo) in
  ret {| account.BlockHeader.ParentHash := ethcommon.Hash_String (types.ParentHash blockInfo);
         account.BlockHeader.UncleHash := ethcommon.Hash_String (types.UncleHash blockInfo);
         account.BlockHeader.CoinBase := ethcommon.Address_String (types.Coinbase blockInfo);
         account.BlockHeader.Root := ethcommon.Hash_String (types.Root blockInfo);
         account.BlockHeader.TxHash := ethcommon.Hash_String (types.TxHash blockInfo);
         account.BlockHeader.ReceiptHash := ethcommon.Hash_String (types.ReceiptHash blockInfo);
         account.BlockHeader.ParentBeaconRoot := ethcommon.Hash_String parentBeaconRoot;
         account.BlockHeader.Difficulty := big.String (types.Difficulty blockInfo);
         account.BlockHeader.Number := big.String (types.Number blockInfo);
         account.BlockHeader.GasLimit := types.GasLimit blockInfo;
         account.BlockHeader.GasUsed := types.GasUsed blockInfo;
         account.BlockHeader.Time := types.Time blockInfo;
         account.BlockHeader.Extra := string_of_list_byte (types.Extra blockInfo);
         account.BlockHeader.MixDigest := ethcommon.Hash_String (types.MixDigest blockInfo);
         account.BlockHeader.Nonce :=
           strconv.FormatUint10 (binary.BigEndian_Uint64 (types.Nonce blockInfo));
         account.BlockHeader.BaseFee := big.String (types.BaseFee blockInfo);
         account.BlockHeader.WithdrawalsHash := ethcommon.Hash_String withdrawalsHash;
         account.BlockHeader.BlobGasUsed := blobGasUsed;
         account.BlockHeader.ExcessBlobGas := excessBlobGas |}.

Definition GetBlockHeaderByHash (c : ChainAdaptor) (req : account.BlockHeaderHashRequest)
  : M log.Log (Reply account.BlockHeaderResponse) :=
  let Hash := account.BlockHeaderHashRequest.Hash (account.Params req) in
  let blockHash :=
    if bool_decide (Hash = "") then ethcommon.zeroHash else ethcommon.HexToHash Hash in
  let* client := deref (ethClient c) in
  let* (blockInfo, err) := call_ext (BlockHeaderByHash client blockHash) in
  match err with
  | Some e =>
      let* _ := log.Error "get latest block header fail" [log.VStr "err"; log.VErr err] in
      ret (Some {| account.Code := common.ReturnCode_ERROR;
                   account.Msg := "get latest block header fail";
                   account.Payload := zero |},
           None)
  | None =>
      let* blockInfo := deref blockInfo in
      let* blockHeader := blockHeader_of blockInfo in
      ret (Some {| account.Code := common.ReturnCode_SUCCESS;
                   account.Msg := "get latest block header success";
                   account.Payload :=
                     {| account.BlockHeaderResponse.BlockHeader := Some blockHeader |} |},
           None)
  end.

Definition GetBlockHeaderByNumber (c : ChainAdaptor) (req : account.BlockHeaderNumberRequest)
  : M log.Log (Reply account.BlockHeaderResponse) :=
  let Height := account.BlockHeaderNumberRequest.Height (account.Params req) in
  let blockNumber : big.Int := if (Height =? 0)%Z then None else big.NewInt Height in
  let* client := deref (ethClient c) in
  let* (blockInfo, err) := call_ext (BlockHeaderByNumber client blockNumber) in
  match err with
  | Some e =>
      let* _ := log.Error "get latest block header fail !" [log.VStr "err:"; log.VErr err] in
      ret (Some {| account.Code := common.ReturnCode_ERROR;
                   account.Msg := "get lates block number fail";
                   account.Payload := zero |},
           None)
  | None =>
      let* blockInfo := deref blockInfo in
      let* blockHeader := blockHeader_of blockInfo in
      ret (Some {| account.Code := common.ReturnCode_SUCCESS;
                   account.Msg := "get latest block header success";
                   account.Payload :=
                     {| account.BlockHeaderResponse.BlockHeader := Some blockHeader |} |},
           None)
  end.

Definition GetBlockByNumber (c : ChainAdaptor) (req : account.BlockNumberRequest)
  : M log.Log (Reply account.BlockResponse) :=
  let Height := account.BlockNumberRequest.Height (account.Params req) in
  let* client := deref (ethClient c) in
  let* (block, err) := call_ext (BlockByNumber client (big.NewInt Height)) in
  match err with
  | Some e =>
      let* _ := log.Error "block by number error" [log.VErr err] in
      ret (Some {| account.Code := common.ReturnCode_ERROR;
                   account.Msg := "block by number error";
                   account.Payload := zero |},
           None)
  | None =>
      let* block := deref block in
      let txListRet :=
        map (fun v =>
               {| account.BlockInfoTransactionList.From := "0x000";
                  account.BlockInfoTransactionList.To := TransactionList.To v;
                  account.BlockInfoTransactionList.Hash := TransactionList.Hash v;
                  account.BlockInfoTransactionList.Time := "0";
                  account.BlockInfoTransactionList.Amount := "10";
                  account.BlockInfoTransactionList.Fee := "0";
                  account.BlockInfoTransactionList.Status := "1" |})
            (RpcBlock.Transactions block) in
      ret (Some {| account.Code := common.ReturnCode_SUCCESS;
                   account.Msg := "get block by number success";
                   account.Payload :=
                     {| account.BlockResponse.Hash := ethcommon.Hash_String (RpcBlock.Hash block);
                        account.BlockResponse.BaseFee := RpcBlock.BaseFee block;
                        account.BlockResponse.Transactions := txListRet |} |},
           None)
  end.

Definition ValidAddress (c : ChainAdaptor) (req : account.ValidAddressRequest)
  : M log.Log (Reply account.ValidAddressResponse) :=
  ret (None, None).

(** The body of every operation left as [panic("implement me")]. *)
Definition implement_me {A} : M log.Log A := panic (PanicString "implement me").

Definition GetBlockByHash (c : ChainAdaptor) (req : account.BlockHashRequest)
  : M log.Log (Reply account.BlockResponse) := implement_me.

Definition GetAccount (c : ChainAdaptor) (req : account.AccountRequest)
  : M log.Log (Reply account.AccountResponse) :=
  let Address := account.AccountRequest.Address (account.Params req) in
  let ContractAddress := account.AccountRequest.ContractAddress (account.Params req) in
  let* client := deref (ethClient c) in
  let* (nonceResult, err) :=
    call_ext (TxCountByAddress client (ethcommon.HexToAddress Address)) in
  match err with
  | Some e =>
      let* _ := log.Error "get nonce by account fail" [log.VStr "err:"; log.VErr err] in
      ret (Some {| account.Code := common.ReturnCode_ERROR;
                   account.Msg := "get nonce by address fail";
                   account.Payload := zero |},
           None)
  | None =>
      let* dataClient := deref (ethDataClient c) in
      let* (balanceResult, err) :=
        call_ext (getBalanceByaddress dataClient ContractAddress Address) in
      match err with
      | Some e =>
          let* _ := log.Error "get balance by address fail" [log.VStr "err:"; log.VErr err] in
          ret (Some {| account.Code := common.ReturnCode_ERROR;
                       account.Msg := "get balance by address fail";
                       account.Payload :=
                         {| account.AccountResponse.AccountNumber := zero;
                            account.AccountResponse.Sequence := zero;
                            account.AccountResponse.Balance := "0" |} |},
               err)
      | None =>
          let* balanceResult := deref balanceResult in
          ret (Some {| account.Code := common.ReturnCode_SUCCESS;
                       account.Msg := "get account response success";
                       account.Payload :=
                         {| account.AccountResponse.AccountNumber := "0";
                            account.AccountResponse.Sequence := hexutil.Uint64_String nonceResult;
                            account.AccountResponse.Balance := BalanceStr balanceResult |} |},
               None)
      end
  end.

Definition GetFee (c : ChainAdaptor) (req : account.FeeRequest)
  : M log.Log (Reply account.FeeResponse) := implement_me.
Definition SendTx (c : ChainAdaptor) (req : account.SendTxRequest)
  : M log.Log (Reply account.SendTxResponse) := implement_me.
Definition GetTxByAddress (c : ChainAdaptor) (req : account.TxAddressRequest)
  : M log.Log (Reply account.TxAddressResponse) := implement_me.
Definition GetTxByHash (c : ChainAdaptor) (req : account.TxHashRequest)
  : M log.Log (Reply account.TxHashResponse) := implement_me.
Definition GetBlockByRange (c : ChainAdaptor) (req : account.BlockByRangeRequest)
  : M log.Log (Reply account.BlockByRangeResponse) := implement_me.
Definition CreateUnSignTransaction (c : ChainAdaptor) (req : account.UnSignTransactionRequest)
  : M log.Log (Reply account.UnSignTransactionResponse) := implement_me.
Definition BuildSignedTransaction (c : ChainAdaptor) (req : account.SignedTransactionRequest)
  : M log.Log (Reply account.SignedTransactionResponse) := implement_me.
Definition DecodeTransaction (c : ChainAdaptor) (req : account.DecodeTransactionRequest)
  : M log.Log (Reply account.DecodeTransactionResponse) := implement_me.
Definition VerifySignedTransaction (c : ChainAdaptor) (req : account.VerifyTransactionRequest)
  : M log.Log (Reply account.VerifyTransactionResponse) := implement_me.
Definition GetExtraData (c : ChainAdaptor) (req : account.ExtraDataRequest)
  : M log.Log (Reply account.ExtraDataResponse) := implement_me.

(** [ChainAdaptor] as a value of the interface [chain.IChainAdaptor]. *)
Definition as_IChainAdaptor (c : ChainAdaptor) : chain.IChainAdaptor :=
  {| chain.GetSupportChains := GetSupportChains c;
     chain.ConvertAddress := ConvertAddress c;
     chain.ValidAddress := ValidAddress c;
     chain.GetBlockByNumber := GetBlockByNumber c;
     chain.GetBlockByHash := GetBlockByHash c;
     chain.GetBlockHeaderByHash := GetBlockHeaderByHash c;
     chain.GetBlockHeaderByNumber := GetBlockHeaderByNumber c;
     chain.GetAccount := GetAccount c;
     chain.GetFee := GetFee c;
     chain.SendTx := SendTx c;
     chain.GetTxByAddress := GetTxByAddress c;
     chain.GetTxByHash := GetTxByHash c;
     chain.GetBlockByRange := GetBlockByRange c;
     chain.CreateUnSignTransaction := CreateUnSignTransaction c;
     chain.BuildSignedTransaction := BuildSignedTransaction c;
     chain.DecodeTransaction := DecodeTransaction c;
     chain.VerifySignedTransaction := VerifySignedTransaction c;
     chain.GetExtraData := GetExtraData c |}.

(** [DialEthClient] and [NewEthDataClient], which open the connections, are
    in other files of the package: they are taken as given. *)
Record Dialer := {
  DialEthClient : string -> Ext (Reply EthClient);
  NewEthDataClient : string -> string -> Z -> Ext (Reply EthData)
}.

Definition NewChainAdaptor (net : Dialer) (conf : config.Config)
  : M log.Log (Reply chain.IChainAdaptor) :=
  let Eth := config.Eth (config.WalletNode_ conf) in
  match config.RPCs Eth with
  | [] => panic (PanicRuntime "index out of range [0] with length 0")
  | rpc0 :: _ =>
      let* (ethClient, err) := call_ext (DialEthClient net (config.RPCURL rpc0)) in
      match err with
      | Some e => ret (None, err)
      | None =>
          let* (ethDataClient, err) :=
            call_ext (NewEthDataClient net (config.DataApiUrl Eth) (config.DataApiKey Eth)
                                       (config.TimeOut Eth)) in
          match err with
          | Some e => ret (None, err)
          | None =>
              ret (Some (as_IChainAdaptor {| ethClient := ethClient;
                                             ethDataClient := ethDataClient |}),
                   None)
          end
      end
  end.
End ethereum.

(** The second copy of the adaptor in the repository.  It declares the same
    types and differs in three operations, which are still
    [panic("implement me")]: the two block-header operations and
    [GetAccount]. *)
Module ethereum_alt.
Definition ChainName : string := "Ethereum".
Definition ChainAdaptor : Type := ethereum.ChainAdaptor.

Definition GetSupportChains (c : ChainAdaptor) (req : account.SupportChainsRequest)
  : M log.Log (Reply account.SupportChainsResponse) :=
  ret (Some {| account.Code := common.ReturnCode_SUCCESS;
               account.Msg := "Support this chain";
               account.Payload := {| account.SupportChainsResponse.Support := true |} |},
       None).

Definition ConvertAddress (c : ChainAdaptor) (req : account.ConvertAddressRequest)
  : M log.Log (Reply account.ConvertAddressResponse) :=
  let PublicKey := account.ConvertAddressRequest.PublicKey (account.Params req) in
  match PublicKey with
  | [] => panic (PanicRuntime "slice bounds out of range [1:0]")
  | _ :: _ =>
      let addressCommon :=
        ethcommon.BytesToAddress (drop 12 (crypto.Keccak256 (drop 1 PublicKey))) in
      ret (Some {| account.Code := common.ReturnCode_SUCCESS;
                   account.Msg := "convert address successs";
                   account.Payload :=
                     {| account.ConvertAddressResponse.Address :=
                          ethcommon.Address_String addressCommon |} |},
           None)
  end.

(** [GetBlockByNumber] has the same text in both copies. *)
Definition GetBlockByNumber (c : ChainAdaptor) (req : account.BlockNumberRequest)
  : M log.Log (Reply account.BlockResponse) := ethereum.GetBlockByNumber c req.

Definition ValidAddress (c : ChainAdaptor) (req : account.ValidAddressRequest)
  : M log.Log (Reply account.ValidAddressResponse) :=
  ret (None, None).

Definition GetBlockByHash (c : ChainAdaptor) (req : account.BlockHashRequest)
  : M log.Log (Reply account.BlockResponse) := ethereum.implement_me.
Definition GetBlockHeaderByHash (c : ChainAdaptor) (req : account.BlockHeaderHashRequest)
  : M log.Log (Reply account.BlockHeaderResponse) := ethereum.implement_me.
Definition GetBlockHeaderByNumber (c : ChainAdaptor) (req : account.BlockHeaderNumberRequest)
  : M log.Log (Reply account.BlockHeaderResponse) := ethereum.implement_me.
Definition GetAccount (c : ChainAdaptor) (req : account.AccountRequest)
  : M log.Log (Reply account.AccountResponse) := ethereum.implement_me.
Definition GetFee (c : ChainAdaptor) (req : account.FeeRequest)
  : M log.Log (Reply account.FeeResponse) := ethereum.implement_me.
Definition SendTx (c : ChainAdaptor) (req : account.SendTxRequest)
  : M log.Log (Reply account.SendTxResponse) := ethereum.implement_me.
Definition GetTxByAddress (c : ChainAdaptor) (req : account.TxAddressRequest)
  : M log.Log (Reply account.TxAddressResponse) := ethereum.implement_me.
Definition GetTxByHash (c : ChainAdaptor) (req : account.TxHashRequest)
  : M log.Log (Reply account.TxHashResponse) := ethereum.implement_me.
Definition GetBlockByRange (c : ChainAdaptor) (req : account.BlockByRangeRequest)
  : M log.Log (Reply account.BlockByRangeResponse) := ethereum.implement_me.
Definition CreateUnSignTransaction (c : ChainAdaptor) (req : account.UnSignTransactionRequest)
  : M log.Log (Reply account.UnSignTransactionResponse) := ethereum.implement_me.
Definition BuildSignedTransaction (c : ChainAdaptor) (req : account.SignedTransactionRequest)
  : M log.Log (Reply account.SignedTransactionResponse) := ethereum.implement_me.
Definition DecodeTransaction (c : ChainAdaptor) (req : account.DecodeTransactionRequest)
  : M log.Log (Reply account.DecodeTransactionResponse) := ethereum.implement_me.
Definition VerifySignedTransaction (c : ChainAdaptor) (req : account.VerifyTransactionRequest)
  : M log.Log (Reply account.VerifyTransactionResponse) := ethereum.implement_me.
Definition GetExtraData (c : ChainAdaptor) (req : account.ExtraDataRequest)
  : M log.Log (Reply account.ExtraDataResponse) := ethereum.implement_me.

Definition as_IChainAdaptor (c : ChainAdaptor) : chain.IChainAdaptor :=
  {| chain.GetSupportChains := GetSupportChains c;
     chain.ConvertAddress := ConvertAddress c;
     chain.ValidAddress := ValidAddress c;
     chain.GetBlockByNumber := GetBlockByNumber c;
     chain.GetBlockByHash := GetBlockByHash c;
     chain.GetBlockHeaderByHash := GetBlockHeaderByHash c;
     chain.GetBlockHeaderByNumber := GetBlockHeaderByNumber c;
     chain.GetAccount := GetAccount c;
     chain.GetFee := GetFee c;
     chain.SendTx := SendTx c;
     chain.GetTxByAddress := GetTxByAddress c;
     chain.GetTxByHash := GetTxByHash c;
     chain.GetBlockByRange := GetBlockByRange c;
     chain.CreateUnSignTransaction := CreateUnSignTransaction c;
     chain.BuildSignedTransaction := BuildSignedTransaction c;
     chain.DecodeTransaction := DecodeTransaction c;
     chain.VerifySignedTransaction := VerifySignedTransaction c;
     chain.GetExtraData := GetExtraData c |}.

Definition NewChainAdaptor (net : ethereum.Dialer) (conf : config.Config)
  : M log.Log (Reply chain.IChainAdaptor) :=
  let Eth := config.Eth (config.WalletNode_ conf) in
  match config.RPCs Eth with
  | [] => panic (PanicRuntime "index out of range [0] with length 0")
  | rpc0 :: _ =>
      let* (ethClient, err) := call_ext (ethereum.DialEthClient net (config.RPCURL rpc0)) in
      match err with
      | Some e => ret (None, err)
      | None =>
          let* (ethDataClient, err) :=
            call_ext (ethereum.NewEthDataClient net (config.DataApiUrl Eth)
                        (config.DataApiKey Eth) (config.TimeOut Eth)) in
          match err with
          | Some e => ret (None, err)
          | None =>
              ret (Some (as_IChainAdaptor {| ethereum.ethClient := ethClient;
                                             ethereum.ethDataClient := ethDataClient |}),
                   None)
          end
      end
  end.
End ethereum_alt.

(** ** Package [strings] *)
Module strings.
Fixpoint lastIndexByte_from (c : ascii) (s : string) (i found : Z) : Z :=
  match s with
  | EmptyString => found
  | String a r => lastIndexByte_from c r (i + 1) (if Ascii.eqb a c then i else found)
  end.

(** [strings.LastIndex(s, sep)] for a separator of one byte: the index of
    its last occurrence, or -1. *)
Definition LastIndex (s : string) (sep : ascii) : Z := lastIndexByte_from sep s 0 (-1).

(** The slice [s[i:]], for [0 <= i <= len(s)]. *)
Definition slice_from (s : string) (i : Z) : string :=
  String.substring (Z.to_nat i) (String.length s - Z.to_nat i) s.
End strings.

(** ** Package [chaindispatcher] *)
Module chaindispatcher.

(** The registry maps a chain name to an adaptor, a value of an interface
    type, which can be nil. *)
Record ChainDispatcher := {
  registry : gmap string (option chain.IChainAdaptor)
}.

Definition CommonReply : Type := account.SupportChainsResponse.

(** A [for _, c := range l] loop whose body updates [acc]. *)
Fixpoint for_range {S A B} (l : list A) (body : A -> B -> M S B) (acc : B) : M S B :=
  match l with
  | [] => ret acc
  | c :: l' => let* acc' := body c acc in for_range l' body acc'
  end.

Definition supportedChains : list string := [ ethereum.ChainName ].

(** The map of construction functions, a local variable of [New]. *)
Definition chainAdaptorFactorMap (net : ethereum.Dialer)
  : gmap string (config.Config -> M log.Log (Reply chain.IChainAdaptor)) :=
  {[ ethereum.ChainName := ethereum.NewChainAdaptor net ]}.

(** The body of the loop of [New] over the configured chains. *)
Definition New_loop_body (net : ethereum.Dialer) (conf : config.Config)
    (c : string) (dispatcher : ChainDispatcher) : M log.Log ChainDispatcher :=
  match chainAdaptorFactorMap net !! c with
  | Some factory =>
      let* (adaptor, err) := factory conf in
      let* _ :=
        match err with
        | Some e =>
            log.Crit "failed to setup chain"
                     [log.VStr "chain"; log.VStr c; log.VStr "error"; log.VErr err]
        | None => ret tt
        end in
      ret {| registry := <[ c := adaptor ]> (registry dispatcher) |}
  | None =>
      let* _ :=
        log.Error "unsupported chain"
                  [log.VStr "chain"; log.VStr c;
                   log.VStr "supportedChains"; log.VStrs supportedChains] in
      ret dispatcher
  end.

Definition New (net : ethereum.Dialer) (conf : config.Config)
  : M log.Log (Reply ChainDispatcher) :=
  let dispatcher := {| registry := ∅ |} in
  let* dispatcher := for_range (config.Chains conf) (New_loop_body net conf) dispatcher in
  ret (Some dispatcher, None).

(** *** The serving process

    The state of the serving process: the dispatcher the server was given,
    the log, and a probe that counts calls: a record is appended whenever a
    method of an adaptor is invoked through the registry. *)
Record Call := {
  callee : string;
  method : service.Method;
  arg : service.Req method
}.

Record State := {
  dispatcher : ChainDispatcher;
  calls : list Call;
  logs : log.Log
}.

(** Code that only sees the log, run inside the serving process. *)
Definition liftLog {A} (m : M log.Log A) : M State A :=
  fun s =>
    let (r, lg) := m (logs s) in
    (r, {| dispatcher := dispatcher s; calls := calls s; logs := lg |}).

(** Reading [d.registry] through the receiver. *)
Definition d_registry : M State (gmap string (option chain.IChainAdaptor)) :=
  fun s => (Ret (registry (dispatcher s)), s).

Definition probe (c : Call) : M State unit :=
  fun s => (Ret tt, {| dispatcher := dispatcher s; calls := calls s ++ [c]; logs := logs s |}).

(** [d.registry[key].Method(request)]: the map is indexed, which gives nil
    for a missing key, and the method is called on the result. *)
Definition invoke (key : string) (m : service.Method) (request : service.Req m)
  : M State (Reply (service.Resp m)) :=
  let* reg := d_registry in
  match reg !! key with
  | Some (Some adaptor) =>
      let* _ := probe {| callee := key; method := m; arg := request |} in
      liftLog (chain.method_of adaptor m request)
  | Some None | None => panic nil_dereference
  end.

(** [req.(CommonRequest).GetChain()] on a request message is its [Chain]. *)
Definition preHandler {P} (req : account.Request P) : M State (option CommonReply) :=
  let chainName := account.Chain req in
  let* reg := d_registry in
  match reg !! chainName with
  | None =>
      ret (Some {| account.Code := common.ReturnCode_ERROR;
                   account.Msg := config.UnsupportedOperation;
                   account.Payload := {| account.SupportChainsResponse.Support := false |} |})
  | Some _ => ret None
  end.

Definition GetSupportChains (request : account.SupportChainsRequest)
  : M State (Reply account.SupportChainsResponse) :=
  let* resp := preHandler request in
  match resp with
  | Some _ =>
      ret (Some {| account.Code := common.ReturnCode_ERROR;
                   account.Msg := config.UnsupportedOperation;
                   account.Payload := zero |}, None)
  | None => invoke (account.Chain request) service.GetSupportChains request
  end.

Definition ConvertAddress (request : account.ConvertAddressRequest)
  : M State (Reply account.ConvertAddressResponse) :=
  let* resp := preHandler request in
  match resp with
  | Some _ =>
      ret (Some {| account.Code := common.ReturnCode_ERROR;
                   account.Msg := "covert address fail at pre handle";
                   account.Payload := zero |}, None)
  | None => invoke (account.Chain request) service.ConvertAddress request
  end.

Definition ValidAddress (request : account.ValidAddressRequest)
  : M State (Reply account.ValidAddressResponse) :=
  panic (PanicString "implement me").

Definition GetBlockByNumber (request : account.BlockNumberRequest)
  : M State (Reply account.BlockResponse) :=
  let* resp := preHandler request in
  match resp with
  | Some _ =>
      ret (Some {| account.Code := common.ReturnCode_ERROR;
                   account.Msg := "get block by number fail at pre handle";
                   account.Payload := zero |}, None)
  | None => invoke (account.Chain request) service.GetBlockByNumber request
  end.

Definition GetBlockByHash (request : account.BlockHashRequest)
  : M State (Reply account.BlockResponse) :=
  let* resp := preHandler request in
  match resp with
  | Some _ =>
      ret (Some {| account.Code := common.ReturnCode_ERROR;
                   account.Msg := "get block by hash fail at pre handle";
                   account.Payload := zero |}, None)
  | None => invoke (account.Chain request) service.GetBlockByHash request
  end.

Definition GetBlockHeaderByHash (request : account.BlockHeaderHashRequest)
  : M State (Reply account.BlockHeaderResponse) :=
  let* resp := preHandler request in
  match resp with
  | Some _ =>
      ret (Some {| account.Code := common.ReturnCode_ERROR;
                   account.Msg := "get block header by hash fail at pre handle";
                   account.Payload := zero |}, None)
  | None => invoke (account.Chain request) service.GetBlockHeaderByHash request
  end.

Definition GetBlockHeaderByNumber (request : account.BlockHeaderNumberRequest)
  : M State (Reply account.BlockHeaderResponse) :=
  let* resp := preHandler request in
  match resp with
  | Some _ =>
      ret (Some {| account.Code := common.ReturnCode_ERROR;
                   account.Msg := "get block header by number fail at pre handle";
                   account.Payload := zero |}, None)
  | None => invoke (account.Chain request) service.GetBlockHeaderByNumber request
  end.

Definition GetAccount (request : account.AccountRequest)
  : M State (Reply account.AccountResponse) :=
  let* resp := preHandler request in
  match resp with
  | Some _ =>
      ret (Some {| account.Code := common.ReturnCode_ERROR;
                   account.Msg := "get account information fail at pre handle";
                   account.Payload := zero |}, None)
  | None => invoke (account.Chain request) service.GetAccount request
  end.

Definition GetFee (request : account.FeeRequest)
  : M State (Reply account.FeeResponse) :=
  let* resp := preHandler request in
  match resp with
  | Some _ =>
      ret (Some {| account.Code := common.ReturnCode_ERROR;
                   account.Msg := "get fee fail at pre handle";
                   account.Payload := zero |}, None)
  | None => invoke (account.Chain request) service.GetFee request
  end.

Definition SendTx (request : account.SendTxRequest)
  : M State (Reply account.SendTxResponse) :=
  let* resp := preHandler request in
  match resp with
  | Some _ =>
      ret (Some {| account.Code := common.ReturnCode_ERROR;
                   account.Msg := "send tx fail at pre handle";
                   account.Payload := zero |}, None)
  | None => invoke (account.Chain request) service.SendTx request
  end.

Definition GetTxByAddress (request : account.TxAddressRequest)
  : M State (Reply account.TxAddressResponse) :=
  let* resp := preHandler request in
  match resp with
  | Some _ =>
      ret (Some {| account.Code := common.ReturnCode_ERROR;
                   account.Msg := "get tx by address fail pre handle";
                   account.Payload := zero |}, None)
  | None => invoke (account.Chain request) service.GetTxByAddress request
  end.

Definition GetTxByHash (request : account.TxHashRequest)
  : M State (Reply account.TxHashResponse) :=
  let* resp := preHandler request in
  match resp with
  | Some _ =>
      ret (Some {| account.Code := common.ReturnCode_ERROR;
                   account.Msg := "get tx by hash fail at pre handle";
                   account.Payload := zero |}, None)
  | None => invoke (account.Chain request) service.GetTxByHash request
  end.

Definition GetBlockByRange (request : account.BlockByRangeRequest)
  : M State (Reply account.BlockByRangeResponse) :=
  let* resp := preHandler request in
  match resp with
  | Some _ =>
      ret (Some {| account.Code := common.ReturnCode_ERROR;
                   account.Msg := "get blcok by range fail at pre handle";
                   account.Payload := zero |}, None)
  | None => invoke (account.Chain request) service.GetBlockByRange request
  end.

Definition CreateUnSignTransaction (request : account.UnSignTransactionRequest)
  : M State (Reply account.UnSignTransactionResponse) :=
  let* resp := preHandler request in
  match resp with
  | Some _ =>
      ret (Some {| account.Code := common.ReturnCode_ERROR;
                   account.Msg := "get un sign tx fail at pre handle";
                   account.Payload := zero |}, None)
  | None => invoke (account.Chain request) service.CreateUnSignTransaction request
  end.

Definition BuildSignedTransaction (request : account.SignedTransactionRequest)
  : M State (Reply account.SignedTransactionResponse) :=
  let* resp := preHandler request in
  match resp with
  | Some _ =>
      ret (Some {| account.Code := common.ReturnCode_ERROR;
                   account.Msg := "signed tx fail at pre handle";
                   account.Payload := zero |}, None)
  | None => invoke (account.Chain request) service.BuildSignedTransaction request
  end.

Definition DecodeTransaction (request : account.DecodeTransactionRequest)
  : M State (Reply account.DecodeTransactionResponse) :=
  let* resp := preHandler request in
  match resp with
  | Some _ =>
      ret (Some {| account.Code := common.ReturnCode_ERROR;
                   account.Msg := "decode tx fail at pre handle";
                   account.Payload := zero |}, None)
  | None => invoke (account.Chain request) service.DecodeTransaction request
  end.

Definition VerifySignedTransaction (request : account.VerifyTransactionRequest)
  : M State (Reply account.VerifyTransactionResponse) :=
  let* resp := preHandler request in
  match resp with
  | Some _ =>
      ret (Some {| account.Code := common.ReturnCode_ERROR;
                   account.Msg := "verify tx fail at pre handle";
                   account.Payload := zero |}, None)
  | None => invoke (account.Chain request) service.VerifySignedTransaction request
  end.

Definition GetExtraData (request : account.ExtraDataRequest)
  : M State (Reply account.ExtraDataResponse) :=
  let* resp := preHandler request in
  match resp with
  | Some _ =>
      ret (Some {| account.Code := common.ReturnCode_ERROR;
                   account.Msg := "get extra data fail at pre handle";
                   account.Payload := zero |}, None)
  | None => invoke (account.Chain request) service.GetExtraData request
  end.

(** The service table: the method of the dispatcher that the server runs
    for a service method. *)
Definition serve (m : service.Method)
  : service.Req m -> M State (Reply (service.Resp m)) :=
  match m with
  | service.GetSupportChains => GetSupportChains
  | service.ConvertAddress => ConvertAddress
  | service.ValidAddress => ValidAddress
  | service.GetBlockByNumber => GetBlockByNumber
  | service.GetBlockByHash => GetBlockByHash
  | service.GetBlockHeaderByHash => GetBlockHeaderByHash
  | service.GetBlockHeaderByNumber => GetBlockHeaderByNumber
  | service.GetAccount => GetAccount
  | service.GetFee => GetFee
  | service.SendTx => SendTx
  | service.GetTxByAddress => GetTxByAddress
  | service.GetTxByHash => GetTxByHash
  | service.GetBlockByRange => GetBlockByRange
  | service.CreateUnSignTransaction => CreateUnSignTransaction
  | service.BuildSignedTransaction => BuildSignedTransaction
  | service.DecodeTransaction => DecodeTransaction
  | service.VerifySignedTransaction => VerifySignedTransaction
  | service.GetExtraData => GetExtraData
  end.

(** *** The interceptor *)
Record UnaryServerInfo := { FullMethod : string }.

(** The panic of a failed assertion [req.(CommonRequest)] on a request whose
    dynamic type is named [concrete]. *)
Definition not_CommonRequest (concrete : string) : PanicValue :=
  PanicTypeAssertion concrete "chaindispatcher.CommonRequest" "GetChain".

(** [req] and [resp] are values of the empty interface.  [getChain] is the
    method [GetChain] of the request's type when the type has one, which is
    what the assertion [req.(CommonRequest)] tests; when it has none, the
    panic of the assertion names the type.  The results are named:
    when the deferred function recovers a panic, [resp] still has its zero
    value and [err] is set. *)
Definition Interceptor {Rq Rs : Type} {Rq_type : GoType Rq} (getChain : option (Rq -> string))
    (req : Rq) (info : UnaryServerInfo) (handler : Rq -> M State (Reply Rs))
  : M State (Reply Rs) :=
  defer_recover
    (let pos := strings.LastIndex (FullMethod info) "/" in
     let method := strings.slice_from (FullMethod info) (pos + 1) in
     let* chainName :=
       match getChain with
       | Some GetChain => ret (GetChain req)
       | None => panic (not_CommonRequest (type_name Rq))
       end in
     let* _ := liftLog (log.Info method [log.VStr "chain"; log.VStr chainName;
                                         log.VStr "req"; log.VDyn Rq req]) in
     let* (resp, err) := handler req in
     let* _ := liftLog (log.Debug (log.Text "Finish handling")
                                  [log.VStr "resp:"; log.VDyn (option Rs) resp;
                                   log.VStr "err:"; log.VErr err]) in
     ret (resp, err))
    (fun e =>
       let* _ := liftLog (log.Error "panic error" [log.VStr "msg"; log.VPanic e]) in
       let* _ := liftLog (log.Debug log.StackTrace []) in
       ret (None, Some (statusError codes.Internal ("Panic err: " +:+ fmt_v e)))).

(** One unary call as the gRPC server runs it: the interceptor around the
    method of the service table. *)
Definition handle (info : UnaryServerInfo) (m : service.Method) (req : service.Req m)
  : M State (Reply (service.Resp m)) :=
  Interceptor (Rq_type := service.Req_GoType m) (Some account.Chain) req info (serve m).
End chaindispatcher.

(** ** Package [main]: obtaining the dispatcher

    The part of [main] from the call of [chaindispatcher.New] to the point
    where the dispatcher is handed to the gRPC server. *)
Module main.
Definition setup_dispatcher (net : ethereum.Dialer) (conf : config.Config)
  : M log.Log (option chaindispatcher.ChainDispatcher) :=
  let* (dispatcher, err) := chaindispatcher.New net conf in
  match err with
  | Some e =>
      let* _ := log.Error "Setup dispatcher failed" [log.VStr "err"; log.VErr err] in
      panic (PanicError e)
  | None => ret dispatcher
  end.
End main.

(** * Vocabulary of the properties *)

(** The message of the ERROR response a dispatcher operation gives when the
    validator finds no adaptor for the chain. *)
Definition pre_handle_message (m : service.Method) : string :=
  match m with
  | service.GetSupportChains => config.UnsupportedOperation
  | service.ConvertAddress => "covert address fail at pre handle"
  | service.ValidAddress => ""
  | service.GetBlockByNumber => "get block by number fail at pre handle"
  | service.GetBlockByHash => "get block by hash fail at pre handle"
  | service.GetBlockHeaderByHash => "get block header by hash fail at pre handle"
  | service.GetBlockHeaderByNumber => "get block header by number fail at pre handle"
  | service.GetAccount => "get account information fail at pre handle"
  | service.GetFee => "get fee fail at pre handle"
  | service.SendTx => "send tx fail at pre handle"
  | service.GetTxByAddress => "get tx by address fail pre handle"
  | service.GetTxByHash => "get tx by hash fail at pre handle"
  | service.GetBlockByRange => "get blcok by range fail at pre handle"
  | service.CreateUnSignTransaction => "get un sign tx fail at pre handle"
  | service.BuildSignedTransaction => "signed tx fail at pre handle"
  | service.DecodeTransaction => "decode tx fail at pre handle"
  | service.VerifySignedTransaction => "verify tx fail at pre handle"
  | service.GetExtraData => "get extra data fail at pre handle"
  end.

(** The operations the ethereum adaptor leaves as [panic("implement me")]. *)
Definition ethereum_unimplemented (m : service.Method) : bool :=
  match m with
  | service.GetBlockByHash | service.GetFee | service.SendTx
  | service.GetTxByAddress | service.GetTxByHash | service.GetBlockByRange
  | service.CreateUnSignTransaction | service.BuildSignedTransaction
  | service.DecodeTransaction | service.VerifySignedTransaction
  | service.GetExtraData => true
  | _ => false
  end.

(** The operations the second copy of the adaptor leaves unimplemented. *)
Definition ethereum_alt_unimplemented (m : service.Method) : bool :=
  match m with
  | service.GetBlockHeaderByHash | service.GetBlockHeaderByNumber
  | service.GetAccount => true
  | _ => ethereum_unimplemented m
  end.

(** The last [n] bytes of a byte string. *)
Definition last_bytes (n : nat) (b : list byte) : list byte := drop (length b - n) b.

(** The record [New] writes for a configured chain that has no construction
    function. *)
Definition unsupported_chain_record (c : string) : log.Record_ :=
  {| log.level := log.LvlError;
     log.message := log.Text "unsupported chain";
     log.ctx := [log.VStr "chain"; log.VStr c;
                 log.VStr "supportedChains"; log.VStrs chaindispatcher.supportedChains] |}.

(** The record [New] writes, before the process ends, for a chain whose
    construction function failed. *)
Definition setup_failure_record (c : string) (e : error) : log.Record_ :=
  {| log.level := log.LvlCrit;
     log.message := log.Text "failed to setup chain";
     log.ctx := [log.VStr "chain"; log.VStr c; log.VStr "error"; log.VErr (Some e)] |}.

(** The configured chains that have a construction function. *)
Definition constructible (net : ethereum.Dialer) (chains : list string) : list string :=
  filter (fun c => is_Some (chaindispatcher.chainAdaptorFactorMap net !! c)) chains.

(** The transaction entry [GetBlockByNumber] builds from a transaction of
    the block: [To] and [Hash] are the block's, the rest are constants. *)
Definition block_transaction (v : ethereum.TransactionList.t)
  : account.BlockInfoTransactionList.t :=
  {| account.BlockInfoTransactionList.From := "0x000";
     account.BlockInfoTransactionList.To := ethereum.TransactionList.To v;
     account.BlockInfoTransactionList.Hash := ethereum.TransactionList.Hash v;
     account.BlockInfoTransactionList.Time := "0";
     account.BlockInfoTransactionList.Amount := "10";
     account.BlockInfoTransactionList.Fee := "0";
     account.BlockInfoTransactionList.Status := "1" |}.

(** The payload of the ERROR response [GetAccount] gives when the balance
    cannot be read. *)
Definition balance_failure_payload : account.AccountResponse.fields :=
  {| account.AccountResponse.AccountNumber := "";
     account.AccountResponse.Sequence := "";
     account.AccountResponse.Balance := "0" |}.

(** The texts a block of the node carries, and the texts of a transaction
    entry of a response. *)
Definition block_texts (b : ethereum.RpcBlock.t) : list string :=
  ethcommon.Hash_String (ethereum.RpcBlock.Hash b)
  :: ethereum.RpcBlock.BaseFee b
  :: flat_map (fun v => [ethereum.TransactionList.To v; ethereum.TransactionList.Hash v])
       (ethereum.RpcBlock.Transactions b).

Definition transaction_texts (t : account.BlockInfoTransactionList.t) : list string :=
  [ account.BlockInfoTransactionList.From t; account.BlockInfoTransactionList.To t;
    account.BlockInfoTransactionList.Hash t; account.BlockInfoTransactionList.Time t;
    account.BlockInfoTransactionList.Amount t; account.BlockInfoTransactionList.Fee t;
    account.BlockInfoTransactionList.Status t ].

(** What holds of a response of [GetBlockByNumber], given the block and
    the error the node client returned: the status is SUCCESS exactly when
    the client reported no error, an ERROR response has a zero-valued
    payload, a SUCCESS response carries the block's hash, base fee and
    transactions, and the error returned with the response is nil. *)
Definition block_response_ok (block : option ethereum.RpcBlock.t) (derr : option error)
    (resp : account.BlockResponse) (err : option error) : Prop :=
  err = None
  /\ (account.Code resp = common.ReturnCode_SUCCESS <-> derr = None)
  /\ (account.Code resp = common.ReturnCode_ERROR -> account.Payload resp = zero)
  /\ (account.Code resp = common.ReturnCode_SUCCESS ->
      exists b,
        block = Some b
        /\ account.Payload resp
           = {| account.BlockResponse.Hash := ethcommon.Hash_String (ethereum.RpcBlock.Hash b);
                account.BlockResponse.BaseFee := ethereum.RpcBlock.BaseFee b;
                account.BlockResponse.Transactions :=
                  map block_transaction (ethereum.RpcBlock.Transactions b) |}).

(** The header message that carries the header [h] of the node, field by
    field: hashes and the coinbase address in their "0x" text, the
    difficulty, the number and the base fee in decimal, the nonce as the
    decimal of its eight bytes read big-endian, the extra data as text, the
    three counters as they are.  [parentBeaconRoot], [withdrawalsHash],
    [blobGasUsed] and [excessBlobGas] are the values behind the four
    pointers of [h]. *)
Definition header_message (h : types.Header)
    (parentBeaconRoot withdrawalsHash : ethcommon.Hash) (blobGasUsed excessBlobGas : N)
  : account.BlockHeader.t :=
  {| account.BlockHeader.ParentHash := ethcommon.Hash_String (types.ParentHash h);
     account.BlockHeader.UncleHash := ethcommon.Hash_String (types.UncleHash h);
     account.BlockHeader.CoinBase := ethcommon.Address_String (types.Coinbase h);
     account.BlockHeader.Root := ethcommon.Hash_String (types.Root h);
     account.BlockHeader.TxHash := ethcommon.Hash_String (types.TxHash h);
     account.BlockHeader.ReceiptHash := ethcommon.Hash_String (types.ReceiptHash h);
     account.BlockHeader.ParentBeaconRoot := ethcommon.Hash_String parentBeaconRoot;
     account.BlockHeader.Difficulty := big.String (types.Difficulty h);
     account.BlockHeader.Number := big.String (types.Number h);
     account.BlockHeader.GasLimit := types.GasLimit h;
     account.BlockHeader.GasUsed := types.GasUsed h;
     account.BlockHeader.Time := types.Time h;
     account.BlockHeader.Extra := string_of_list_byte (types.Extra h);
     account.BlockHeader.MixDigest := ethcommon.Hash_String (types.MixDigest h);
     account.BlockHeader.Nonce :=
       strconv.FormatUint10 (binary.BigEndian_Uint64 (types.Nonce h));
     account.BlockHeader.BaseFee := big.String (types.BaseFee h);
     account.BlockHeader.WithdrawalsHash := ethcommon.Hash_String withdrawalsHash;
     account.BlockHeader.BlobGasUsed := blobGasUsed;
     account.BlockHeader.ExcessBlobGas := excessBlobGas |}.

(** The same for a response of a block-header operation, given the header
    and the error the node client returned: a SUCCESS response carries the
    node's header, every field of it. *)
Definition header_response_ok (blockInfo : option types.Header) (derr : option error)
    (resp : account.BlockHeaderResponse) (err : option error) : Prop :=
  err = None
  /\ (account.Code resp = common.ReturnCode_SUCCESS <-> derr = None)
  /\ (account.Code resp = common.ReturnCode_ERROR -> account.Payload resp = zero)
  /\ (account.Code resp = common.ReturnCode_SUCCESS ->
      exists h parentBeaconRoot withdrawalsHash blobGasUsed excessBlobGas,
        blockInfo = Some h
        /\ types.ParentBeaconRoot h = Some parentBeaconRoot
        /\ types.WithdrawalsHash h = Some withdrawalsHash
        /\ types.BlobGasUsed h = Some blobGasUsed
        /\ types.ExcessBlobGas h = Some excessBlobGas
        /\ account.Payload resp
           = {| account.BlockHeaderResponse.BlockHeader :=
                  Some (header_message h parentBeaconRoot withdrawalsHash
                          blobGasUsed excessBlobGas) |}).

(** What holds of a response of [GetAccount], given the nonce and the error
    [e1] the node client returned.  When the nonce could not be read the
    response is ERROR with a zero-valued payload and a nil error.
    Otherwise the balance was asked for, and with [e2] the error of that
    call: the status is SUCCESS exactly when [e2] is nil, and the payload
    then has the account number "0", the nonce and the balance read.
    Nothing is said here of the payload and the error that come with the
    ERROR status after a failed balance call. *)
Definition account_response_ok (c : ethereum.ChainAdaptor) (req : account.AccountRequest)
    (nonce : N) (e1 : option error) (resp : account.AccountResponse) (err : option error)
  : Prop :=
  (is_Some e1 ->
   account.Code resp = common.ReturnCode_ERROR
   /\ account.Payload resp = zero /\ err = None)
  /\ (e1 = None ->
      exists data balance e2 w2,
        ethereum.ethDataClient c = Some data
        /\ ethereum.getBalanceByaddress data
             (account.AccountRequest.ContractAddress (account.Params req))
             (account.AccountRequest.Address (account.Params req))
           = (Ret (balance, e2), w2)
        /\ (account.Code resp = common.ReturnCode_SUCCESS <-> e2 = None)
        /\ (e2 = None ->
            exists b,
              balance = Some b /\ err = None
              /\ account.Payload resp
                 = {| account.AccountResponse.AccountNumber := "0";
                      account.AccountResponse.Sequence := hexutil.Uint64_String nonce;
                      account.AccountResponse.Balance := ethereum.BalanceStr b |})).

(** The hash and the block number the header operations ask the node for. *)
Definition header_hash_asked (req : account.BlockHeaderHashRequest) : ethcommon.Hash :=
  let Hash := account.BlockHeaderHashRequest.Hash (account.Params req) in
  if bool_decide (Hash = "") then ethcommon.zeroHash else ethcommon.HexToHash Hash.

Definition header_number_asked (req : account.BlockHeaderNumberRequest) : big.Int :=
  let Height := account.BlockHeaderNumberRequest.Height (account.Params req) in
  if (Height =? 0)%Z then None else big.NewInt Height.

(** The records the interceptor writes when it recovers a panic. *)
Definition panic_records (e : PanicValue) : log.Log :=
  [ {| log.level := log.LvlError; log.message := log.Text "panic error";
       log.ctx := [log.VStr "msg"; log.VPanic e] |};
    {| log.level := log.LvlDebug; log.message := log.StackTrace; log.ctx := [] |} ].

(** A computation of the serving process that leaves the dispatcher, and so
    its registry, as it found it, however it ends. *)
Definition keeps_dispatcher {A} (m : M chaindispatcher.State A) : Prop :=
  forall s, chaindispatcher.dispatcher (snd (m s)) = chaindispatcher.dispatcher s.

(** The state of the serving process with one more call in the probe, and
    with more records in the log. *)
Definition with_call (s : chaindispatcher.State) (c : chaindispatcher.Call)
  : chaindispatcher.State :=
  {| chaindispatcher.dispatcher := chaindispatcher.dispatcher s;
     chaindispatcher.calls := chaindispatcher.calls s ++ [c];
     chaindispatcher.logs := chaindispatcher.logs s |}.

Definition with_logs (s : chaindispatcher.State) (l : log.Log) : chaindispatcher.State :=
  {| chaindispatcher.dispatcher := chaindispatcher.dispatcher s;
     chaindispatcher.calls := chaindispatcher.calls s;
     chaindispatcher.logs := chaindispatcher.logs s ++ l |}.

(** The record the interceptor writes before it runs the handler, and the
    state in which the handler then starts. *)
Definition entry_record {Rq} (info : chaindispatcher.UnaryServerInfo)
    (chainName : string) (req : Rq) : log.Record_ :=
  {| log.level := log.LvlInfo;
     log.message :=
       log.Text (strings.slice_from (chaindispatcher.FullMethod info)
                   (strings.LastIndex (chaindispatcher.FullMethod info) "/" + 1));
     log.ctx := [log.VStr "chain"; log.VStr chainName; log.VStr "req"; log.VDyn Rq req] |}.

Definition entered {Rq} (info : chaindispatcher.UnaryServerInfo)
    (chainName : string) (req : Rq) (s : chaindispatcher.State) : chaindispatcher.State :=
  with_logs s [entry_record info chainName req].

(** The error the interceptor returns for a recovered panic. *)
Definition panic_error (e : PanicValue) : error :=
  statusError codes.Internal ("Panic err: " +:+ fmt_v e).

(** The adaptor over the two clients the dialer gives for a configuration,
    when both calls return without an error. *)
Definition dialled (net : ethereum.Dialer) (conf : config.Config)
  : option ethereum.ChainAdaptor :=
  let Eth := config.Eth (config.WalletNode_ conf) in
  match config.RPCs Eth with
  | [] => None
  | rpc0 :: _ =>
      match ethereum.DialEthClient net (config.RPCURL rpc0),
            ethereum.NewEthDataClient net (config.DataApiUrl Eth) (config.DataApiKey Eth)
              (config.TimeOut Eth) with
      | (Ret (client, None), _), (Ret (data, None), _) =>
          Some {| ethereum.ethClient := client; ethereum.ethDataClient := data |}
      | _, _ => None
      end
  end.

(** A header that has the four fields the header operations read through a
    pointer. *)
Definition has_pointer_fields (h : types.Header) : bool :=
  match types.ParentBeaconRoot h, types.WithdrawalsHash h,
        types.BlobGasUsed h, types.ExcessBlobGas h with
  | Some _, Some _, Some _, Some _ => true
  | _, _, _, _ => false
  end.

(** The SUCCESS response of the header operations. *)
Definition header_success (hdr : account.BlockHeader.t) : account.BlockHeaderResponse :=
  {| account.Code := common.ReturnCode_SUCCESS;
     account.Msg := "get latest block header success";
     account.Payload := {| account.BlockHeaderResponse.BlockHeader := Some hdr |} |}.

(** The record [GetAccount] writes when the nonce cannot be read. *)
Definition nonce_failure_record (e : error) : log.Record_ :=
  {| log.level := log.LvlError;
     log.message := log.Text "get nonce by account fail";
     log.ctx := [log.VStr "err:"; log.VErr (Some e)] |}.

(** The record the interceptor writes after the handler has returned. *)
Definition finish_record {Rs} (r : Reply Rs) : log.Record_ :=
  {| log.level := log.LvlDebug;
     log.message := log.Text "Finish handling";
     log.ctx := [log.VStr "resp:"; log.VDyn (option Rs) (fst r);
                 log.VStr "err:"; log.VErr (snd r)] |}.

(** The call the probe records when [m] is dispatched for [req]. *)
Definition call_of (m : service.Method) (req : service.Req m) : chaindispatcher.Call :=
  {| chaindispatcher.callee := account.Chain req;
     chaindispatcher.method := m;
     chaindispatcher.arg := req |}.

(** A serving process started on a dispatcher, with an empty probe. *)
Definition serving_on (d : chaindispatcher.ChainDispatcher) (lg : log.Log)
  : chaindispatcher.State :=
  {| chaindispatcher.dispatcher := d;
     chaindispatcher.calls := [];
     chaindispatcher.logs := lg |}.

(** ** Sample values, used to run the code on concrete inputs *)
Module sample.
(** The uncompressed public key of the secp256k1 private key 1. *)
Definition publicKey : list byte :=
  hex.DecodeString
    "0479BE667EF9DCBBAC55A06295CE870B07029BFCDB2DCE28D959F2815B16F81798483ADA7726A3C4655DA4FBFC0E1108A8FD17B448A68554199C47D08FFB10D4B8".

Definition timeout : error := errorString "context deadline exceeded".

(** A node client that answers, and a data-API client that fails. *)
Definition ethClient : ethereum.EthClient :=
  {| ethereum.BlockHeaderByHash := fun _ => (Ret (None, Some timeout), []);
     ethereum.BlockHeaderByNumber := fun _ => (Ret (None, Some timeout), []);
     ethereum.BlockByNumber := fun _ =>
       (Ret (Some {| ethereum.RpcBlock.Hash := ethcommon.zeroHash;
                     ethereum.RpcBlock.BaseFee := "7";
                     ethereum.RpcBlock.Transactions :=
                       [ {| ethereum.TransactionList.To := "0xabc";
                            ethereum.TransactionList.Hash := "0xdef" |} ] |},
             None), []);
     ethereum.TxCountByAddress := fun _ => (Ret (26%N, None), []) |}.

Definition failingData : ethereum.EthData :=
  {| ethereum.getBalanceByaddress := fun _ _ => (Ret (None, Some timeout), []) |}.

Definition adaptor : ethereum.ChainAdaptor :=
  {| ethereum.ethClient := Some ethClient;
     ethereum.ethDataClient := Some failingData |}.

(** A dialer that connects to the clients above. *)
Definition net : ethereum.Dialer :=
  {| ethereum.DialEthClient := fun _ => (Ret (Some ethClient, None), []);
     ethereum.NewEthDataClient := fun _ _ _ => (Ret (Some failingData, None), []) |}.

Definition conf : config.Config :=
  {| config.Server_ := {| config.Port := "8189" |};
     config.WalletNode_ :=
       {| config.Eth := {| config.RPCs := [ {| config.RPCURL := "http://localhost:8545" |} ];
                           config.DataApiUrl := "http://localhost:9000";
                           config.DataApiKey := "key";
                           config.TimeOut := 30 |} |};
     config.Chains := [ "Ethereum"; "Bitcoin" ] |}.

(** A serving process whose registry holds the ethereum adaptor only. *)
(** The dispatcher [New] builds from [conf] over [net]. *)
Definition built : chaindispatcher.ChainDispatcher :=
  {| chaindispatcher.registry :=
       <[ "Ethereum" := Some (ethereum.as_IChainAdaptor adaptor) ]> ∅ |}.

Definition serving : chaindispatcher.State :=
  {| chaindispatcher.dispatcher :=
       {| chaindispatcher.registry :=
            {[ ethereum.ChainName := Some (ethereum.as_IChainAdaptor adaptor) ]} |};
     chaindispatcher.calls := [];
     chaindispatcher.logs := [] |}.

Definition info (m : service.Method) : chaindispatcher.UnaryServerInfo :=
  {| chaindispatcher.FullMethod := "/account.WalletAccountService/" +:+ service.name m |}.

Definition rawRequest (chainName : string) : account.Request account.RawFields :=
  {| account.Chain := chainName; account.Params := [] |}.

Definition convertRequest (chainName : string) : account.ConvertAddressRequest :=
  {| account.Chain := chainName;
     account.Params := {| account.ConvertAddressRequest.PublicKey := publicKey |} |}.

Definition accountRequest : account.AccountRequest :=
  {| account.Chain := "Ethereum";
     account.Params :=
       {| account.AccountRequest.Address := "0x7E5F4552091A69125d5DfCb7b8C2659029395Bdf";
          account.AccountRequest.ContractAddress := "" |} |}.

Definition blockRequest : account.BlockNumberRequest :=
  {| account.Chain := "Ethereum";
     account.Params := {| account.BlockNumberRequest.Height := 100 |} |}.

(** What the adaptor above answers to the two requests. *)
Definition blockResponse : account.BlockResponse :=
  {| account.Code := common.ReturnCode_SUCCESS;
     account.Msg := "get block by number success";
     account.Payload :=
       {| account.BlockResponse.Hash :=
            "0x0000000000000000000000000000000000000000000000000000000000000000";
          account.BlockResponse.BaseFee := "7";
          account.BlockResponse.Transactions :=
            [ {| account.BlockInfoTransactionList.From := "0x000";
                 account.BlockInfoTransactionList.To := "0xabc";
                 account.BlockInfoTransactionList.Hash := "0xdef";
                 account.BlockInfoTransactionList.Time := "0";
                 account.BlockInfoTransactionList.Amount := "10";
                 account.BlockInfoTransactionList.Fee := "0";
                 account.BlockInfoTransactionList.Status := "1" |} ] |} |}.

Definition accountResponse : account.AccountResponse :=
  {| account.Code := common.ReturnCode_ERROR;
     account.Msg := "get balance by address fail";
     account.Payload :=
       {| account.AccountResponse.AccountNumber := "";
          account.AccountResponse.Sequence := "";
          account.AccountResponse.Balance := "0" |} |}.

Definition accountLog : log.Log :=
  [ {| log.level := log.LvlError;
       log.message := log.Text "get balance by address fail";
       log.ctx := [log.VStr "err:"; log.VErr (Some timeout)] |} ].
End sample.

(** More sample values: a dialer whose node connection fails, a
    configuration without node endpoints, a header of a block from before
    the blob fields existed, and an adaptor whose node answers with it. *)
Module sample2.
Definition failingNet : ethereum.Dialer :=
  {| ethereum.DialEthClient := fun _ => (Ret (None, Some sample.timeout), []);
     ethereum.NewEthDataClient := fun _ _ _ => (Ret (Some sample.failingData, None), []) |}.

Definition noRpcConf : config.Config :=
  {| config.Server_ := {| config.Port := "8189" |};
     config.WalletNode_ :=
       {| config.Eth := {| config.RPCs := [];
                           config.DataApiUrl := "http://localhost:9000";
                           config.DataApiKey := "key";
                           config.TimeOut := 30 |} |};
     config.Chains := [ "Bitcoin"; "Ethereum" ] |}.

Definition oldHeader : types.Header :=
  {| types.ParentHash := ethcommon.zeroHash;
     types.UncleHash := ethcommon.zeroHash;
     types.Coinbase := replicate 20 x00;
     types.Root := ethcommon.zeroHash;
     types.TxHash := ethcommon.zeroHash;
     types.ReceiptHash := ethcommon.zeroHash;
     types.Difficulty := Some 1%Z;
     types.Number := Some 100%Z;
     types.GasLimit := 30000000%N;
     types.GasUsed := 21000%N;
     types.Time := 1600000000%N;
     types.Extra := [];
     types.MixDigest := ethcommon.zeroHash;
     types.Nonce := replicate 8 x00;
     types.BaseFee := None;
     types.WithdrawalsHash := Some ethcommon.zeroHash;
     types.BlobGasUsed := None;
     types.ExcessBlobGas := None;
     types.ParentBeaconRoot := Some ethcommon.zeroHash |}.

Definition oldNode : ethereum.EthClient :=
  {| ethereum.BlockHeaderByHash := fun _ => (Ret (Some oldHeader, None), []);
     ethereum.BlockHeaderByNumber := fun _ => (Ret (Some oldHeader, None), []);
     ethereum.BlockByNumber := fun _ => (Ret (None, Some sample.timeout), []);
     ethereum.TxCountByAddress := fun _ => (Ret (0%N, Some sample.timeout), []) |}.

Definition oldAdaptor : ethereum.ChainAdaptor :=
  {| ethereum.ethClient := Some oldNode;
     ethereum.ethDataClient := Some sample.failingData |}.

Definition headerRequest : account.BlockHeaderNumberRequest :=
  {| account.Chain := "Ethereum";
     account.Params := {| account.BlockHeaderNumberRequest.Height := 100 |} |}.

Definition supportRequest : account.SupportChainsRequest := sample.rawRequest "Ethereum".

Definition emptyKeyRequest : account.ConvertAddressRequest :=
  {| account.Chain := "Ethereum";
     account.Params := {| account.ConvertAddressRequest.PublicKey := [] |} |}.

(** A serving process whose registry holds a nil adaptor. *)
Definition nilServing : chaindispatcher.State :=
  {| chaindispatcher.dispatcher :=
       {| chaindispatcher.registry := {[ ethereum.ChainName := None ]} |};
     chaindispatcher.calls := [];
     chaindispatcher.logs := [] |}.

(** A configuration that names the chain in lower case. *)
Definition lowerConf : config.Config :=
  {| config.Server_ := config.Server_ sample.conf;
     config.WalletNode_ := config.WalletNode_ sample.conf;
     config.Chains := [ "ethereum" ] |}.

Definition supportResponse : account.SupportChainsResponse :=
  {| account.Code := common.ReturnCode_SUCCESS;
     account.Msg := "Support this chain";
     account.Payload := {| account.SupportChainsResponse.Support := true |} |}.

(** The block the node of [sample.adaptor] answers with. *)
Definition block : ethereum.RpcBlock.t :=
  {| ethereum.RpcBlock.Hash := ethcommon.zeroHash;
     ethereum.RpcBlock.BaseFee := "7";
     ethereum.RpcBlock.Transactions :=
       [ {| ethereum.TransactionList.To := "0xabc";
            ethereum.TransactionList.Hash := "0xdef" |} ] |}.

(** A data-API client that answers, the adaptor over it, and what this
    adaptor answers to [sample.accountRequest]. *)
Definition payingData : ethereum.EthData :=
  {| ethereum.getBalanceByaddress := fun _ _ =>
       (Ret (Some {| ethereum.BalanceStr := "123" |}, None), []) |}.

Definition payingAdaptor : ethereum.ChainAdaptor :=
  {| ethereum.ethClient := Some sample.ethClient;
     ethereum.ethDataClient := Some payingData |}.

Definition paidResponse : account.AccountResponse :=
  {| account.Code := common.ReturnCode_SUCCESS;
     account.Msg := "get account response success";
     account.Payload :=
       {| account.AccountResponse.AccountNumber := "0";
          account.AccountResponse.Sequence := "0x1a";
          account.AccountResponse.Balance := "123" |} |}.

(** A header with all its fields, of a block after the blob fields came. *)
Definition newHeader : types.Header :=
  {| types.ParentHash := ethcommon.zeroHash;
     types.UncleHash := ethcommon.zeroHash;
     types.Coinbase := replicate 20 x00;
     types.Root := ethcommon.zeroHash;
     types.TxHash := ethcommon.zeroHash;
     types.ReceiptHash := ethcommon.zeroHash;
     types.Difficulty := Some 0%Z;
     types.Number := Some 0%Z;
     types.GasLimit := 30000000%N;
     types.GasUsed := 21000%N;
     types.Time := 1700000000%N;
     types.Extra := [];
     types.MixDigest := ethcommon.zeroHash;
     types.Nonce := replicate 8 x00;
     types.BaseFee := Some 7%Z;
     types.WithdrawalsHash := Some ethcommon.zeroHash;
     types.BlobGasUsed := Some 0%N;
     types.ExcessBlobGas := Some 0%N;
     types.ParentBeaconRoot := Some ethcommon.zeroHash |}.

(** A node that has no latest header and no header for the zero hash, and
    answers every other question about headers with [newHeader]. *)
Definition pickyNode : ethereum.EthClient :=
  {| ethereum.BlockHeaderByHash := fun h =>
       match h with
       | x00 :: _ => (Ret (None, Some sample.timeout), [])
       | _ => (Ret (Some newHeader, None), [])
       end;
     ethereum.BlockHeaderByNumber := fun n =>
       match n with
       | None => (Ret (None, Some sample.timeout), [])
       | Some _ => (Ret (Some newHeader, None), [])
       end;
     ethereum.BlockByNumber := fun _ => (Ret (None, Some sample.timeout), []);
     ethereum.TxCountByAddress := fun _ => (Ret (0%N, Some sample.timeout), []) |}.

Definition pickyAdaptor : ethereum.ChainAdaptor :=
  {| ethereum.ethClient := Some pickyNode;
     ethereum.ethDataClient := Some sample.failingData |}.

Definition latestRequest : account.BlockHeaderNumberRequest :=
  {| account.Chain := "Ethereum";
     account.Params := {| account.BlockHeaderNumberRequest.Height := 0 |} |}.

Definition emptyHashRequest : account.BlockHeaderHashRequest :=
  {| account.Chain := "Ethereum";
     account.Params := {| account.BlockHeaderHashRequest.Hash := "" |} |}.
End sample2.

(** * Properties *)

(** ** The monad *)

Lemma bind_ret_l {S A B} (a : A) (k : A -> M S B) (s : S) :
  bind (ret a) k s = k a s.
Proof. reflexivity. Qed.

Lemma bind_Ret {S A B} (m : M S A) (k : A -> M S B) s a s' :
  m s = (Ret a, s') -> bind m k s = k a s'.
Proof. intros H. unfold bind. now rewrite H. Qed.

Lemma bind_Panicked {S A B} (m : M S A) (k : A -> M S B) s v s' :
  m s = (Panicked v, s') -> bind m k s = (Panicked v, s').
Proof. intros H. unfold bind. now rewrite H. Qed.

Lemma bind_Exited {S A B} (m : M S A) (k : A -> M S B) s n s' :
  m s = (Exited n, s') -> bind m k s = (Exited n, s').
Proof. intros H. unfold bind. now rewrite H. Qed.

Lemma bind_assoc_at {S A B C} (m : M S A) (k : A -> M S B) (h : B -> M S C) (s : S) :
  bind (bind m k) h s = bind m (fun a => bind (k a) h) s.
Proof. unfold bind. now destruct (m s) as [[a | v | n] s1]. Qed.

(** A [bind] returns only if both of its parts return. *)
Lemma bind_Ret_inv {S A B} (m : M S A) (k : A -> M S B) s b s2 :
  bind m k s = (Ret b, s2) ->
  exists a s1, m s = (Ret a, s1) /\ k a s1 = (Ret b, s2).
Proof.
  unfold bind. destruct (m s) as [[a | v | n] s1]; intros H; try discriminate.
  now exists a, s1.
Qed.

(** ** Frame lemmas of the serving process *)

Section Frames.
Import chaindispatcher.

Lemma keeps_dispatcher_ret {A} (a : A) : keeps_dispatcher (ret a).
Proof. now intros s. Qed.

Lemma keeps_dispatcher_panic {A} v : keeps_dispatcher (@panic State A v).
Proof. now intros s. Qed.

Lemma keeps_dispatcher_bind {A B} (m : M State A) (k : A -> M State B) :
  keeps_dispatcher m -> (forall a, keeps_dispatcher (k a)) -> keeps_dispatcher (bind m k).
Proof.
  intros Hm Hk s. unfold bind. specialize (Hm s).
  destruct (m s) as [[a | v | n] s1]; simpl in *; try assumption.
  now rewrite Hk.
Qed.

Lemma keeps_dispatcher_liftLog {A} (m : M log.Log A) : keeps_dispatcher (liftLog m).
Proof. intros s. unfold liftLog. now destruct (m (logs s)). Qed.

Lemma keeps_dispatcher_d_registry : keeps_dispatcher d_registry.
Proof. now intros s. Qed.

Lemma keeps_dispatcher_probe c : keeps_dispatcher (probe c).
Proof. now intros s. Qed.

Lemma keeps_dispatcher_defer_recover {A} (body : M State A) handler :
  keeps_dispatcher body -> (forall e, keeps_dispatcher (handler e)) ->
  keeps_dispatcher (defer_recover body handler).
Proof.
  intros Hb Hh s. unfold defer_recover. specialize (Hb s).
  destruct (body s) as [[a | v | n] s1]; simpl in *; try assumption.
  now rewrite Hh.
Qed.

End Frames.

Create HintDb frame.
#[export] Hint Resolve keeps_dispatcher_ret keeps_dispatcher_panic keeps_dispatcher_liftLog
  keeps_dispatcher_d_registry keeps_dispatcher_probe : frame.

(** Splits a frame goal along the structure of the computation. *)
Ltac frame_step :=
  match goal with
  | |- keeps_dispatcher (bind _ _) => apply keeps_dispatcher_bind; [ | intros ? ]
  | |- keeps_dispatcher (defer_recover _ _) =>
      apply keeps_dispatcher_defer_recover; [ | intros ? ]
  | |- keeps_dispatcher (match ?x with _ => _ end) => destruct x
  | |- _ => solve [ auto with frame ]
  end.
Ltac frame := repeat frame_step.

(** ** The dispatcher never writes its registry *)

Lemma keeps_dispatcher_invoke key m request :
  keeps_dispatcher (chaindispatcher.invoke key m request).
Proof. unfold chaindispatcher.invoke. frame. Qed.

Lemma keeps_dispatcher_preHandler {P} (req : account.Request P) :
  keeps_dispatcher (chaindispatcher.preHandler req).
Proof. unfold chaindispatcher.preHandler. frame. Qed.

#[export] Hint Resolve keeps_dispatcher_invoke keeps_dispatcher_preHandler : frame.

Lemma keeps_dispatcher_serve m (req : service.Req m) :
  keeps_dispatcher (chaindispatcher.serve m req).
Proof.
  destruct m; cbn [chaindispatcher.serve];
    match goal with |- keeps_dispatcher (?f _) => unfold f end; frame.
Qed.

Lemma keeps_dispatcher_Interceptor {Rq Rs} {Rq_type : GoType Rq} getChain (req : Rq) info
    (handler : Rq -> M chaindispatcher.State (Reply Rs)) :
  keeps_dispatcher (handler req) ->
  keeps_dispatcher (chaindispatcher.Interceptor getChain req info handler).
Proof. intros H. unfold chaindispatcher.Interceptor. frame. Qed.

(** C8.  Every dispatcher operation leaves the registry unchanged: whatever
    the operation, the request and the state of the serving process, and
    however the operation ends, the registry after handling the request,
    with or without the interceptor around it, is the registry before. *)
Theorem operations_leave_registry_unchanged :
  forall (info : chaindispatcher.UnaryServerInfo) (m : service.Method)
         (req : service.Req m) (s : chaindispatcher.State),
    chaindispatcher.registry (chaindispatcher.dispatcher (snd (chaindispatcher.serve m req s)))
    = chaindispatcher.registry (chaindispatcher.dispatcher s)
    /\ chaindispatcher.registry
         (chaindispatcher.dispatcher (snd (chaindispatcher.handle info m req s)))
       = chaindispatcher.registry (chaindispatcher.dispatcher s).
Proof.
  intros info m req s. split; f_equal.
  - apply keeps_dispatcher_serve.
  - apply keeps_dispatcher_Interceptor, keeps_dispatcher_serve.
Qed.

(** ** Requests for a chain that is not registered *)

Lemma preHandler_absent {P} (req : account.Request P) s :
  chaindispatcher.registry (chaindispatcher.dispatcher s) !! account.Chain req = None ->
  chaindispatcher.preHandler req s
  = (Ret (Some {| account.Code := common.ReturnCode_ERROR;
                  account.Msg := config.UnsupportedOperation;
                  account.Payload := {| account.SupportChainsResponse.Support := false |} |}),
     s).
Proof.
  intros H. unfold chaindispatcher.preHandler, bind, chaindispatcher.d_registry.
  now rewrite H.
Qed.

Lemma preHandler_present {P} (req : account.Request P) s a :
  chaindispatcher.registry (chaindispatcher.dispatcher s) !! account.Chain req = Some a ->
  chaindispatcher.preHandler req s = (Ret None, s).
Proof.
  intros H. unfold chaindispatcher.preHandler, bind, chaindispatcher.d_registry.
  now rewrite H.
Qed.

(** Without an adaptor for the chain an operation other than
    [ValidAddress] answers at once and touches nothing. *)
Lemma serve_absent m (req : service.Req m) s :
  m <> service.ValidAddress ->
  chaindispatcher.registry (chaindispatcher.dispatcher s) !! account.Chain req = None ->
  chaindispatcher.serve m req s
  = (Ret (Some {| account.Code := common.ReturnCode_ERROR;
                  account.Msg := pre_handle_message m;
                  account.Payload := zero |}, None), s).
Proof.
  intros Hm H.
  destruct m; try congruence; cbn [chaindispatcher.serve];
    match goal with |- ?f _ _ = _ => unfold f end;
    erewrite bind_Ret by (apply preHandler_absent; exact H); reflexivity.
Qed.

(** What the interceptor does around a handler that returns, that panics
    and that ends the process. *)
Lemma Interceptor_Ret {Rq Rs} {Rq_type : GoType Rq} (GetChain : Rq -> string) (req : Rq) info
    (handler : Rq -> M chaindispatcher.State (Reply Rs)) s r s1 :
  handler req (entered info (GetChain req) req s) = (Ret r, s1) ->
  fst (chaindispatcher.Interceptor (Some GetChain) req info handler s) = Ret r
  /\ chaindispatcher.calls (snd (chaindispatcher.Interceptor (Some GetChain) req info handler s))
     = chaindispatcher.calls s1.
Proof.
  intros H1. unfold chaindispatcher.Interceptor, defer_recover.
  rewrite bind_ret_l.
  erewrite (bind_Ret _ _ s tt (entered info (GetChain req) req s)) by reflexivity.
  erewrite bind_Ret by exact H1. destruct r as [resp err]. cbn. split; reflexivity.
Qed.

Lemma Interceptor_Panicked {Rq Rs} {Rq_type : GoType Rq} (GetChain : Rq -> string) (req : Rq) info
    (handler : Rq -> M chaindispatcher.State (Reply Rs)) s e s1 :
  handler req (entered info (GetChain req) req s) = (Panicked e, s1) ->
  chaindispatcher.Interceptor (Some GetChain) req info handler s
  = (Ret (None, Some (panic_error e)), with_logs s1 (panic_records e)).
Proof.
  intros H1. unfold chaindispatcher.Interceptor, defer_recover.
  rewrite bind_ret_l.
  erewrite (bind_Ret _ _ s tt (entered info (GetChain req) req s)) by reflexivity.
  erewrite bind_Panicked by exact H1.
  unfold with_logs, panic_records. cbn. now rewrite <- app_assoc.
Qed.

Lemma Interceptor_no_GetChain {Rq Rs} {Rq_type : GoType Rq} (req : Rq) info
    (handler : Rq -> M chaindispatcher.State (Reply Rs)) s :
  chaindispatcher.Interceptor None req info handler s
  = (Ret (None, Some (panic_error (chaindispatcher.not_CommonRequest (type_name Rq)))),
     with_logs s (panic_records (chaindispatcher.not_CommonRequest (type_name Rq)))).
Proof.
  unfold chaindispatcher.Interceptor, defer_recover, with_logs, panic_records.
  cbn. unfold ret. now rewrite <- app_assoc.
Qed.

Lemma Interceptor_never_panics {Rq Rs} {Rq_type : GoType Rq} getChain (req : Rq) info
    (handler : Rq -> M chaindispatcher.State (Reply Rs)) s v :
  fst (chaindispatcher.Interceptor getChain req info handler s) <> Panicked v.
Proof.
  destruct getChain as [GetChain | ].
  - destruct (handler req (entered info (GetChain req) req s)) as [[r | e | n] s1] eqn:H.
    + now rewrite (proj1 (Interceptor_Ret GetChain req info handler s r s1 H)).
    + now rewrite (Interceptor_Panicked GetChain req info handler s e s1 H).
    + unfold chaindispatcher.Interceptor, defer_recover. rewrite bind_ret_l.
      erewrite (bind_Ret _ _ s tt (entered info (GetChain req) req s)) by reflexivity.
      erewrite bind_Exited by exact H. discriminate.
  - rewrite Interceptor_no_GetChain. discriminate.
Qed.

(** C1, as the code has it.  For a request whose chain is not a key of the
    registry, every dispatcher operation other than [ValidAddress] returns
    a response with status ERROR, a zero-valued payload and a nil error,
    and invokes no adaptor: served directly the state is untouched, served
    under the interceptor the probe is untouched.  The message is the fixed
    unsupported-operation message for [GetSupportChains] and a message of
    the operation's own for every other operation. *)
Theorem unregistered_chain_refused :
  forall (info : chaindispatcher.UnaryServerInfo) (m : service.Method)
         (req : service.Req m) (s : chaindispatcher.State),
    m <> service.ValidAddress ->
    chaindispatcher.registry (chaindispatcher.dispatcher s) !! account.Chain req = None ->
    let refusal : Reply (service.Resp m) :=
      (Some {| account.Code := common.ReturnCode_ERROR;
               account.Msg := pre_handle_message m;
               account.Payload := zero |}, None) in
    chaindispatcher.serve m req s = (Ret refusal, s)
    /\ fst (chaindispatcher.handle info m req s) = Ret refusal
    /\ chaindispatcher.calls (snd (chaindispatcher.handle info m req s))
       = chaindispatcher.calls s
    /\ (m = service.GetSupportChains -> pre_handle_message m = config.UnsupportedOperation).
Proof.
  intros info m req s Hm Habs refusal.
  split; [ now apply serve_absent | ].
  assert (Hserve :
    chaindispatcher.serve m req (entered info (account.Chain req) req s)
    = (Ret refusal, entered info (account.Chain req) req s))
    by (now apply serve_absent).
  destruct (Interceptor_Ret (Rq_type := service.Req_GoType m)
          account.Chain req info (chaindispatcher.serve m) s _ _ Hserve)
    as [Hfst Hcalls].
  unfold chaindispatcher.handle. repeat split; try assumption.
  now intros ->.
Qed.

Lemma unregistered_chain_refused_witness :
  service.GetFee <> service.ValidAddress
  /\ chaindispatcher.registry (chaindispatcher.dispatcher sample.serving)
       !! account.Chain (sample.rawRequest "Bitcoin") = None
  /\ chaindispatcher.serve service.GetFee (sample.rawRequest "Bitcoin") sample.serving
     = (Ret (Some {| account.Code := common.ReturnCode_ERROR;
                     account.Msg := "get fee fail at pre handle";
                     account.Payload := [] |}, None), sample.serving).
Proof.
  assert (H1 : service.GetFee <> service.ValidAddress) by discriminate.
  assert (H2 : chaindispatcher.registry (chaindispatcher.dispatcher sample.serving)
                 !! account.Chain (sample.rawRequest "Bitcoin") = None)
    by (vm_compute; reflexivity).
  split; [ exact H1 | split; [ exact H2 | ] ].
  exact (proj1 (unregistered_chain_refused (sample.info service.GetFee) service.GetFee
                  (sample.rawRequest "Bitcoin") sample.serving H1 H2)).
Defined.

(** C1 as stated fails: [ConvertAddress] for an unregistered chain answers
    with a message of its own, not with the unsupported-operation message. *)
Lemma unregistered_chain_message_counterexample :
  chaindispatcher.registry (chaindispatcher.dispatcher sample.serving)
    !! account.Chain (sample.convertRequest "Bitcoin") = None
  /\ ~ (exists resp err,
          fst (chaindispatcher.serve service.ConvertAddress
                 (sample.convertRequest "Bitcoin") sample.serving) = Ret (Some resp, err)
          /\ account.Code resp = common.ReturnCode_ERROR
          /\ account.Msg resp = config.UnsupportedOperation).
Proof.
  split; [ vm_compute; reflexivity | ].
  intros (resp & err & Hrun & _ & Hmsg).
  rewrite (serve_absent service.ConvertAddress) in Hrun;
    [ | discriminate | vm_compute; reflexivity ].
  cbn in Hrun. injection Hrun as <- _. cbn in Hmsg. discriminate.
Qed.

(** Whatever the unsupported-operation message is, it cannot be the message
    of every refusal: two operations refuse with different messages. *)
Lemma refusal_messages_differ :
  pre_handle_message service.ConvertAddress <> pre_handle_message service.GetFee.
Proof. discriminate. Qed.

(** ** Requests for a registered chain *)

Lemma sample_serving_Ethereum :
  chaindispatcher.registry (chaindispatcher.dispatcher sample.serving) !! "Ethereum"
  = Some (Some (ethereum.as_IChainAdaptor sample.adaptor)).
Proof. apply lookup_singleton_eq. Qed.

Lemma invoke_registered key m (request : service.Req m) s adaptor :
  chaindispatcher.registry (chaindispatcher.dispatcher s) !! key = Some (Some adaptor) ->
  chaindispatcher.invoke key m request s
  = chaindispatcher.liftLog (chain.method_of adaptor m request)
      (with_call s {| chaindispatcher.callee := key;
                      chaindispatcher.method := m;
                      chaindispatcher.arg := request |}).
Proof.
  intros H. unfold chaindispatcher.invoke, bind, chaindispatcher.d_registry.
  cbv beta iota. now rewrite H.
Qed.

(** With an adaptor registered for the chain, an operation other than
    [ValidAddress] records one call and is the adaptor's method run on the
    same request. *)
Lemma serve_registered m (req : service.Req m) s adaptor :
  m <> service.ValidAddress ->
  chaindispatcher.registry (chaindispatcher.dispatcher s) !! account.Chain req
  = Some (Some adaptor) ->
  chaindispatcher.serve m req s
  = chaindispatcher.liftLog (chain.method_of adaptor m req)
      (with_call s {| chaindispatcher.callee := account.Chain req;
                      chaindispatcher.method := m;
                      chaindispatcher.arg := req |}).
Proof.
  intros Hm H.
  destruct m; try congruence; cbn [chaindispatcher.serve];
    match goal with |- ?f _ _ = _ => unfold f end;
    (erewrite bind_Ret by (eapply preHandler_present; exact H));
    exact (invoke_registered _ _ _ _ _ H).
Qed.

(** The same under the interceptor, when the adaptor's method returns: its
    result is handed to the caller as it is, after exactly one call. *)
Lemma handle_registered info m (req : service.Req m) s adaptor r lg' :
  m <> service.ValidAddress ->
  chaindispatcher.registry (chaindispatcher.dispatcher s) !! account.Chain req
  = Some (Some adaptor) ->
  chain.method_of adaptor m req
    (chaindispatcher.logs s ++ [entry_record info (account.Chain req) req]) = (Ret r, lg') ->
  fst (chaindispatcher.handle info m req s) = Ret r
  /\ chaindispatcher.calls (snd (chaindispatcher.handle info m req s))
     = chaindispatcher.calls s
       ++ [ {| chaindispatcher.callee := account.Chain req;
               chaindispatcher.method := m;
               chaindispatcher.arg := req |} ].
Proof.
  intros Hm Hreg Hrun.
  pose proof (serve_registered m req (entered info (account.Chain req) req s)
                adaptor Hm Hreg) as Hserve.
  unfold chaindispatcher.liftLog in Hserve. cbn [with_call entered with_logs
    chaindispatcher.logs chaindispatcher.calls chaindispatcher.dispatcher] in Hserve.
  rewrite Hrun in Hserve.
  destruct (Interceptor_Ret (Rq_type := service.Req_GoType m)
          account.Chain req info (chaindispatcher.serve m) s _ _ Hserve)
    as [Hfst Hcalls].
  unfold chaindispatcher.handle. split; [ exact Hfst | exact Hcalls ].
Qed.

(** C4 fails on [ValidAddress]: with the ethereum adaptor registered under
    the request's chain, the dispatcher's [ValidAddress] panics and invokes
    no adaptor, although the adaptor has the method. *)
Theorem ValidAddress_not_dispatched :
  chaindispatcher.registry (chaindispatcher.dispatcher sample.serving)
    !! account.Chain (sample.rawRequest "Ethereum")
  = Some (Some (ethereum.as_IChainAdaptor sample.adaptor))
  /\ chaindispatcher.serve service.ValidAddress (sample.rawRequest "Ethereum") sample.serving
     = (Panicked (PanicString "implement me"), sample.serving)
  /\ chaindispatcher.calls
       (snd (chaindispatcher.handle (sample.info service.ValidAddress) service.ValidAddress
               (sample.rawRequest "Ethereum") sample.serving)) = []
  /\ chain.ValidAddress (ethereum.as_IChainAdaptor sample.adaptor)
       (sample.rawRequest "Ethereum") [] = (Ret (None, None), []).
Proof.
  split; [ apply sample_serving_Ethereum | ].
  split; [ reflexivity | ].
  split; [ | reflexivity ].
  unfold chaindispatcher.handle.
  rewrite (Interceptor_Panicked (Rq_type := service.Req_GoType service.ValidAddress)
             account.Chain _ _ _ _ (PanicString "implement me")
             (entered (sample.info service.ValidAddress) "Ethereum"
                (sample.rawRequest "Ethereum") sample.serving)) by reflexivity.
  reflexivity.
Qed.

(** ** The interceptor as a fault boundary *)

(** C3, as the code has it.  The interceptor never lets a panic through,
    whatever the handler and the request are.  When the wrapped operation
    panics with a value [e], the interceptor writes the fault and the call
    stack to the log and returns a nil response with a gRPC error of code
    Internal whose text is "Panic err: " followed by [e]; the call stack is
    not part of what the caller gets. *)
Theorem Interceptor_recovers_panic :
  forall (Rq Rs : Type) {Rq_type : GoType Rq} (GetChain : Rq -> string) (req : Rq)
         (info : chaindispatcher.UnaryServerInfo)
         (handler : Rq -> M chaindispatcher.State (Reply Rs))
         (s s1 : chaindispatcher.State) (e : PanicValue),
    handler req (entered info (GetChain req) req s) = (Panicked e, s1) ->
    chaindispatcher.Interceptor (Some GetChain) req info handler s
    = (Ret (None, Some (statusError codes.Internal ("Panic err: " +:+ fmt_v e))),
       with_logs s1 (panic_records e))
    /\ (forall getChain (h : Rq -> M chaindispatcher.State (Reply Rs)) s' v,
          fst (chaindispatcher.Interceptor getChain req info h s') <> Panicked v).
Proof.
  intros Rq Rs Rq_type GetChain req info handler s s1 e H. split.
  - now apply Interceptor_Panicked.
  - intros getChain h s' v. apply Interceptor_never_panics.
Qed.

Lemma Interceptor_recovers_panic_witness :
  chaindispatcher.serve service.ValidAddress (sample.rawRequest "Ethereum")
    (entered (sample.info service.ValidAddress) "Ethereum"
       (sample.rawRequest "Ethereum") sample.serving)
  = (Panicked (PanicString "implement me"),
     entered (sample.info service.ValidAddress) "Ethereum"
       (sample.rawRequest "Ethereum") sample.serving)
  /\ fst (chaindispatcher.handle (sample.info service.ValidAddress) service.ValidAddress
            (sample.rawRequest "Ethereum") sample.serving)
     = Ret (None, Some (statusError codes.Internal "Panic err: implement me")).
Proof.
  split; [ reflexivity | ].
  exact (f_equal fst
           (proj1 (Interceptor_recovers_panic _ _ account.Chain
                     (sample.rawRequest "Ethereum") (sample.info service.ValidAddress)
                     (chaindispatcher.serve service.ValidAddress) sample.serving
                     _ (PanicString "implement me") eq_refl))).
Defined.

(** C3 as stated fails: when the wrapped operation panics the caller gets
    no response envelope at all, and the text of the error names the panic
    value. *)
Lemma Interceptor_envelope_counterexample :
  chaindispatcher.serve service.ValidAddress (sample.rawRequest "Ethereum")
    (entered (sample.info service.ValidAddress) "Ethereum"
       (sample.rawRequest "Ethereum") sample.serving)
  = (Panicked (PanicString "implement me"),
     entered (sample.info service.ValidAddress) "Ethereum"
       (sample.rawRequest "Ethereum") sample.serving)
  /\ ~ (exists resp err,
          fst (chaindispatcher.handle (sample.info service.ValidAddress) service.ValidAddress
                 (sample.rawRequest "Ethereum") sample.serving) = Ret (Some resp, err)
          /\ account.Code resp = common.ReturnCode_ERROR).
Proof.
  split; [ reflexivity | ].
  intros (resp & err & Hrun & _).
  pose proof (f_equal fst
                (Interceptor_Panicked (Rq_type := service.Req_GoType service.ValidAddress)
                        account.Chain (sample.rawRequest "Ethereum")
                   (sample.info service.ValidAddress)
                   (chaindispatcher.serve service.ValidAddress) sample.serving
                   (PanicString "implement me") _ eq_refl)) as Hcode.
  unfold chaindispatcher.handle in Hrun.
  pose proof (eq_trans (eq_sym Hrun) Hcode) as Habs. discriminate Habs.
Qed.

(** ** Operations the ethereum adaptor does not implement *)

Lemma ethereum_unimplemented_panics m (req : service.Req m) c lg :
  ethereum_unimplemented m = true ->
  chain.method_of (ethereum.as_IChainAdaptor c) m req lg
  = (Panicked (PanicString "implement me"), lg).
Proof. destruct m; intros H; try discriminate; reflexivity. Qed.

Lemma ethereum_alt_unimplemented_panics m (req : service.Req m) c lg :
  ethereum_alt_unimplemented m = true ->
  chain.method_of (ethereum_alt.as_IChainAdaptor c) m req lg
  = (Panicked (PanicString "implement me"), lg).
Proof. destruct m; intros H; try discriminate; reflexivity. Qed.

(** The dispatcher's own [ValidAddress] is unimplemented too: it panics
    whatever the request and the registry are, and under the interceptor
    the caller gets the error of a recovered panic. *)
Lemma dispatcher_ValidAddress_panics req s :
  chaindispatcher.serve service.ValidAddress req s
  = (Panicked (PanicString "implement me"), s).
Proof. reflexivity. Qed.

Lemma handle_ValidAddress info req s :
  fst (chaindispatcher.handle info service.ValidAddress req s)
  = Ret (None, Some (statusError codes.Internal "Panic err: implement me"))
  /\ chaindispatcher.calls (snd (chaindispatcher.handle info service.ValidAddress req s))
     = chaindispatcher.calls s.
Proof.
  pose proof (Interceptor_Panicked (Rq_type := service.Req_GoType service.ValidAddress)
                account.Chain req info (chaindispatcher.serve service.ValidAddress) s
                (PanicString "implement me") (entered info (account.Chain req) req s)
                eq_refl) as Hrun.
  split; [ exact (f_equal fst Hrun)
         | exact (f_equal (fun x => chaindispatcher.calls (snd x)) Hrun) ].
Qed.

(** C2, as the code has it.  Each operation the ethereum adaptor does not
    implement panics with "implement me" and returns nothing.  Served by
    the dispatcher under the interceptor, for a chain registered with this
    adaptor, the adaptor is invoked once, the panic is recovered, and the
    caller gets a nil response and an error of code Internal with the text
    "Panic err: implement me"; the process goes on. *)
Theorem unimplemented_operation_panics :
  forall (info : chaindispatcher.UnaryServerInfo) (m : service.Method)
         (req : service.Req m) (c : ethereum.ChainAdaptor)
         (s : chaindispatcher.State) (lg : log.Log),
    ethereum_unimplemented m = true ->
    chaindispatcher.registry (chaindispatcher.dispatcher s) !! account.Chain req
    = Some (Some (ethereum.as_IChainAdaptor c)) ->
    chain.method_of (ethereum.as_IChainAdaptor c) m req lg
    = (Panicked (PanicString "implement me"), lg)
    /\ fst (chaindispatcher.handle info m req s)
       = Ret (None, Some (statusError codes.Internal "Panic err: implement me"))
    /\ chaindispatcher.calls (snd (chaindispatcher.handle info m req s))
       = chaindispatcher.calls s
         ++ [ {| chaindispatcher.callee := account.Chain req;
                 chaindispatcher.method := m;
                 chaindispatcher.arg := req |} ].
Proof.
  intros info m req c s lg Hm Hreg.
  split; [ now apply ethereum_unimplemented_panics | ].
  assert (Hne : m <> service.ValidAddress) by (intros ->; discriminate).
  pose proof (serve_registered m req (entered info (account.Chain req) req s)
                (ethereum.as_IChainAdaptor c) Hne Hreg) as Hserve.
  unfold chaindispatcher.liftLog in Hserve.
  rewrite ethereum_unimplemented_panics in Hserve by exact Hm.
  pose proof (Interceptor_Panicked (Rq_type := service.Req_GoType m) account.Chain req info
                (chaindispatcher.serve m) s _ _ Hserve) as Hrun.
  split; [ exact (f_equal fst Hrun)
         | exact (f_equal (fun x => chaindispatcher.calls (snd x)) Hrun) ].
Qed.

Lemma unimplemented_operation_panics_witness :
  ethereum_unimplemented service.GetFee = true
  /\ chaindispatcher.registry (chaindispatcher.dispatcher sample.serving)
       !! account.Chain (sample.rawRequest "Ethereum")
     = Some (Some (ethereum.as_IChainAdaptor sample.adaptor))
  /\ fst (chaindispatcher.handle (sample.info service.GetFee) service.GetFee
            (sample.rawRequest "Ethereum") sample.serving)
     = Ret (None, Some (statusError codes.Internal "Panic err: implement me")).
Proof.
  split; [ reflexivity | ].
  split; [ reflexivity | ].
  exact (proj1 (proj2 (unimplemented_operation_panics (sample.info service.GetFee)
                         service.GetFee (sample.rawRequest "Ethereum") sample.adaptor
                         sample.serving [] eq_refl eq_refl))).
Defined.

(** C2 as stated fails: [GetFee] of the ethereum adaptor returns no
    response, it panics. *)
Lemma unimplemented_operation_counterexample :
  ethereum_unimplemented service.GetFee = true
  /\ ~ (exists resp err,
          fst (ethereum.GetFee sample.adaptor (sample.rawRequest "Ethereum") [])
          = Ret (Some resp, err)
          /\ account.Code resp = common.ReturnCode_ERROR)
  /\ ~ (exists resp err,
          fst (chaindispatcher.handle (sample.info service.GetFee) service.GetFee
                 (sample.rawRequest "Ethereum") sample.serving) = Ret (Some resp, err)
          /\ account.Code resp = common.ReturnCode_ERROR).
Proof.
  split; [ reflexivity | split ].
  - intros (resp & err & Hrun & _). discriminate.
  - intros (resp & err & Hrun & _).
    assert (Hserve :
      chaindispatcher.serve service.GetFee (sample.rawRequest "Ethereum")
        (entered (sample.info service.GetFee) "Ethereum"
           (sample.rawRequest "Ethereum") sample.serving)
      = (Panicked (PanicString "implement me"),
         with_call (entered (sample.info service.GetFee) "Ethereum"
                      (sample.rawRequest "Ethereum") sample.serving)
           {| chaindispatcher.callee := "Ethereum";
              chaindispatcher.method := service.GetFee;
              chaindispatcher.arg := sample.rawRequest "Ethereum" |})).
    { refine (eq_trans (serve_registered service.GetFee (sample.rawRequest "Ethereum") _
                          (ethereum.as_IChainAdaptor sample.adaptor) _ _) _);
        [ discriminate | reflexivity | reflexivity ]. }
    pose proof (f_equal fst
                  (Interceptor_Panicked (Rq_type := service.Req_GoType service.GetFee)
                     account.Chain (sample.rawRequest "Ethereum")
                     (sample.info service.GetFee) (chaindispatcher.serve service.GetFee)
                     sample.serving _ _ Hserve)) as Hcode.
    unfold chaindispatcher.handle in Hrun.
    pose proof (eq_trans (eq_sym Hrun) Hcode) as Habs. discriminate Habs.
Qed.

(** ** The adaptor's [ValidAddress] *)

(** C9.  The ethereum adaptor's [ValidAddress], in both copies of the
    adaptor and also when called through the interface, returns a nil
    response and a nil error for every request, and writes nothing. *)
Theorem ethereum_ValidAddress_returns_nil :
  forall (c : ethereum.ChainAdaptor) (req : account.ValidAddressRequest) (lg : log.Log),
    ethereum.ValidAddress c req lg = (Ret (None, None), lg)
    /\ ethereum_alt.ValidAddress c req lg = (Ret (None, None), lg)
    /\ chain.ValidAddress (ethereum.as_IChainAdaptor c) req lg = (Ret (None, None), lg)
    /\ chain.ValidAddress (ethereum_alt.as_IChainAdaptor c) req lg = (Ret (None, None), lg).
Proof. intros c req lg. repeat split. Qed.

(** ** Building the registry *)

Lemma call_ext_appends {A} (e : Ext A) lg : snd (call_ext e lg) = lg ++ snd e.
Proof. reflexivity. Qed.

(** The construction function of the ethereum adaptor only adds to the
    log, and gives an adaptor exactly when it gives no error. *)
Lemma NewChainAdaptor_appends net conf lg :
  exists w, snd (ethereum.NewChainAdaptor net conf lg) = lg ++ w.
Proof.
  unfold ethereum.NewChainAdaptor.
  destruct (config.RPCs _) as [ | rpc0 rpcs ]; [ exists []; cbn; now rewrite app_nil_r | ].
  unfold bind, call_ext.
  destruct (ethereum.DialEthClient net _) as [[[ethClient [e | ]] | v | n] w1]; cbn;
    try (now exists w1).
  destruct (ethereum.NewEthDataClient net _ _ _) as [[[dataClient [e | ]] | v | n] w2]; cbn;
    rewrite <- app_assoc; now exists (w1 ++ w2).
Qed.

Lemma NewChainAdaptor_Ret net conf lg adaptor err lg' :
  ethereum.NewChainAdaptor net conf lg = (Ret (adaptor, err), lg') ->
  (err = None -> is_Some adaptor) /\ (is_Some err -> adaptor = None).
Proof.
  unfold ethereum.NewChainAdaptor.
  destruct (config.RPCs _) as [ | rpc0 rpcs ]; [ discriminate | ].
  unfold bind, call_ext.
  destruct (ethereum.DialEthClient net _) as [[[ethClient [e | ]] | v | n] w1]; cbn;
    try discriminate.
  - intros [= <- <- <-]. split; [ discriminate | reflexivity ].
  - destruct (ethereum.NewEthDataClient net _ _ _) as [[[dataClient [e | ]] | v | n] w2]; cbn;
      try discriminate; intros [= <- <- <-]; split; eauto; try discriminate.
    intros [? [=]].
Qed.

(** One turn of the loop of [New] that returns: either the chain has a
    construction function, which gave an adaptor that is now registered
    under the chain's name, or it has none, the dispatcher is as before and
    the unsupported chain is on record. *)
Lemma New_loop_body_Ret net conf c d lg d' lg' :
  chaindispatcher.New_loop_body net conf c d lg = (Ret d', lg') ->
  (is_Some (chaindispatcher.chainAdaptorFactorMap net !! c)
   /\ exists a w,
        chaindispatcher.registry d' = <[ c := Some a ]> (chaindispatcher.registry d)
        /\ lg' = lg ++ w)
  \/ (chaindispatcher.chainAdaptorFactorMap net !! c = None
      /\ d' = d /\ lg' = lg ++ [unsupported_chain_record c]).
Proof.
  unfold chaindispatcher.New_loop_body, chaindispatcher.chainAdaptorFactorMap.
  rewrite lookup_singleton. destruct (decide (ethereum.ChainName = c)) as [<- | Hne].
  - intros H. left. split; [ eauto | ].
    apply bind_Ret_inv in H as ([adaptor err] & lg1 & Hnew & H).
    destruct (NewChainAdaptor_appends net conf lg) as [w Hw].
    rewrite Hnew in Hw. cbn in Hw. subst lg1.
    apply NewChainAdaptor_Ret in Hnew as [Hnil _].
    destruct err as [e | ]; [ discriminate | ].
    destruct (Hnil eq_refl) as [a ->].
    cbn in H. injection H as <- <-. now exists a, w.
  - intros [= <- <-]. right.
    split; [ now apply lookup_singleton_ne | split; reflexivity ].
Qed.

(** The loop of [New], when it returns. *)
Lemma New_loop_Ret net conf l : forall d lg d' lg',
  chaindispatcher.for_range l (chaindispatcher.New_loop_body net conf) d lg = (Ret d', lg') ->
  (forall k, k ∈ l -> is_Some (chaindispatcher.chainAdaptorFactorMap net !! k) ->
             exists a, chaindispatcher.registry d' !! k = Some (Some a))
  /\ (forall k, ~ (k ∈ l /\ is_Some (chaindispatcher.chainAdaptorFactorMap net !! k)) ->
                chaindispatcher.registry d' !! k = chaindispatcher.registry d !! k)
  /\ exists w, lg' = lg ++ w
       /\ forall c, c ∈ l -> chaindispatcher.chainAdaptorFactorMap net !! c = None ->
                    unsupported_chain_record c ∈ w.
Proof.
  induction l as [ | c l IH ]; intros d lg d' lg' H.
  - injection H as <- <-. repeat split.
    + intros k Hk. now apply elem_of_nil in Hk.
    + exists []. split; [ now rewrite app_nil_r | ].
      intros c Hc. now apply elem_of_nil in Hc.
  - cbn [chaindispatcher.for_range] in H.
    apply bind_Ret_inv in H as (d1 & lg1 & Hbody & Hrest).
    apply IH in Hrest as (Hin & Hout & w2 & -> & Hrec).
    apply New_loop_body_Ret in Hbody as [(Hf & a & w1 & Hreg & ->) | (Hf & -> & ->)].
    + repeat split.
      * intros k Hk Hfk.
        destruct (decide (k ∈ l)) as [Hkl | Hkl]; [ now apply Hin | ].
        apply elem_of_cons in Hk as [-> | Hk]; [ | contradiction ].
        exists a. rewrite Hout by tauto. rewrite Hreg. apply lookup_insert_eq.
      * intros k Hk. rewrite Hout.
        -- rewrite Hreg. apply lookup_insert_ne. intros <-. apply Hk.
           split; [ apply list_elem_of_here | exact Hf ].
        -- intros [Hkl Hfk]. apply Hk. split; [ now apply list_elem_of_further | exact Hfk ].
      * exists (w1 ++ w2). split; [ now rewrite app_assoc | ].
        intros c' Hc' Hnone. apply elem_of_app. right.
        apply elem_of_cons in Hc' as [-> | Hc'].
        -- rewrite Hnone in Hf. now destruct Hf.
        -- now apply Hrec.
    + repeat split.
      * intros k Hk Hfk. apply Hin; [ | exact Hfk ].
        apply elem_of_cons in Hk as [-> | Hk]; [ | exact Hk ].
        rewrite Hf in Hfk. now destruct Hfk.
      * intros k Hk. apply Hout. intros [Hkl Hfk]. apply Hk.
        split; [ now apply list_elem_of_further | exact Hfk ].
      * exists ([unsupported_chain_record c] ++ w2). split; [ now rewrite app_assoc | ].
        intros c' Hc' Hnone. apply elem_of_app.
        apply elem_of_cons in Hc' as [-> | Hc'].
        -- left. apply list_elem_of_here.
        -- right. now apply Hrec.
Qed.

Lemma New_Ret_inv net conf lg d err lg' :
  chaindispatcher.New net conf lg = (Ret (d, err), lg') ->
  exists disp,
    d = Some disp /\ err = None
    /\ chaindispatcher.for_range (config.Chains conf)
         (chaindispatcher.New_loop_body net conf) {| chaindispatcher.registry := ∅ |} lg
       = (Ret disp, lg').
Proof.
  unfold chaindispatcher.New. intros H.
  apply bind_Ret_inv in H as (disp & lg1 & Hloop & H).
  injection H as <- <- <-. now exists disp.
Qed.

(** C5.  After [New] returns, the key set of the registry is exactly the
    set of configured chain identifiers that have a construction function,
    hence a subset of the configured chains.  Each configured identifier
    with a construction function is registered, with the adaptor the
    function gave; each configured identifier without one is not a key of
    the registry, and an unsupported-chain record was written for it. *)
Theorem New_registry_keys :
  forall (net : ethereum.Dialer) (conf : config.Config) (lg lg' : log.Log)
         (d : option chaindispatcher.ChainDispatcher) (err : option error),
    chaindispatcher.New net conf lg = (Ret (d, err), lg') ->
    exists disp,
      d = Some disp
      /\ dom (chaindispatcher.registry disp)
         = (list_to_set (constructible net (config.Chains conf)) : gset string)
      /\ dom (chaindispatcher.registry disp)
         ⊆ (list_to_set (config.Chains conf) : gset string)
      /\ (forall c, c ∈ config.Chains conf ->
                    is_Some (chaindispatcher.chainAdaptorFactorMap net !! c) ->
                    exists a, chaindispatcher.registry disp !! c = Some (Some a))
      /\ exists w, lg' = lg ++ w
           /\ forall c, c ∈ config.Chains conf ->
                        chaindispatcher.chainAdaptorFactorMap net !! c = None ->
                        chaindispatcher.registry disp !! c = None
                        /\ unsupported_chain_record c ∈ w.
Proof.
  intros net conf lg lg' d err H.
  apply New_Ret_inv in H as (disp & -> & -> & Hloop).
  apply New_loop_Ret in Hloop as (Hin & Hout & w & -> & Hrec).
  assert (Hdom : forall k, k ∈ dom (chaindispatcher.registry disp)
                           <-> k ∈ constructible net (config.Chains conf)).
  { intros k. rewrite elem_of_dom. unfold constructible. rewrite list_elem_of_filter.
    split.
    - intros Hk.
      destruct (decide (k ∈ config.Chains conf
                        /\ is_Some (chaindispatcher.chainAdaptorFactorMap net !! k)))
        as [[? ?] | Hno]; [ tauto | ].
      rewrite (Hout k Hno) in Hk. cbn in Hk. rewrite lookup_empty in Hk. now destruct Hk.
    - intros [Hf Hk]. destruct (Hin k Hk Hf) as [a ->]. eauto. }
  exists disp. repeat split.
  - apply set_eq. intros k. now rewrite Hdom, elem_of_list_to_set.
  - intros k Hk. apply Hdom in Hk. apply elem_of_list_to_set.
    unfold constructible in Hk. apply list_elem_of_filter in Hk. tauto.
  - exact Hin.
  - exists w. split; [ reflexivity | ]. intros c Hc Hnone. split; [ | now apply Hrec ].
    rewrite Hout; [ apply lookup_empty | ].
    intros [_ Hf]. rewrite Hnone in Hf. now destruct Hf.
Qed.

Lemma New_sample_run :
  chaindispatcher.New sample.net sample.conf []
  = (Ret (Some sample.built, None), [unsupported_chain_record "Bitcoin"]).
Proof. reflexivity. Qed.

Lemma New_registry_keys_witness :
  chaindispatcher.New sample.net sample.conf []
  = (Ret (Some sample.built, None), [unsupported_chain_record "Bitcoin"])
  /\ dom (chaindispatcher.registry sample.built)
     = (list_to_set (constructible sample.net (config.Chains sample.conf)) : gset string).
Proof.
  split; [ exact New_sample_run | ].
  destruct (New_registry_keys sample.net sample.conf [] _ _ _ New_sample_run)
    as (disp & Hd & Hdom & _).
  injection Hd as <-. exact Hdom.
Defined.

(** ** [New] and its error result *)

Lemma for_range_app {S A B} (l1 l2 : list A) (body : A -> B -> M S B) acc s :
  chaindispatcher.for_range (l1 ++ l2) body acc s
  = bind (chaindispatcher.for_range l1 body acc)
         (chaindispatcher.for_range l2 body) s.
Proof.
  revert acc s. induction l1 as [ | x l1 IH ]; intros acc s; [ reflexivity | ].
  cbn [app chaindispatcher.for_range].
  rewrite (bind_assoc_at (body x acc)).
  unfold bind at 1 2.
  destruct (body x acc s) as [[acc' | v | n] s1]; [ | reflexivity | reflexivity ].
  apply IH.
Qed.

(** The loop over chains that have no construction function only writes
    one record for each. *)
Lemma New_loop_unsupported net conf pre d lg :
  ethereum.ChainName ∉ pre ->
  chaindispatcher.for_range pre (chaindispatcher.New_loop_body net conf) d lg
  = (Ret d, lg ++ map unsupported_chain_record pre).
Proof.
  revert lg. induction pre as [ | c pre IH ]; intros lg Hpre.
  - cbn. now rewrite app_nil_r.
  - apply not_elem_of_cons in Hpre as [Hc Hpre].
    cbn [chaindispatcher.for_range map].
    rewrite (bind_Ret _ _ lg d (lg ++ [unsupported_chain_record c])).
    + rewrite IH by exact Hpre. now rewrite <- app_assoc.
    + unfold chaindispatcher.New_loop_body, chaindispatcher.chainAdaptorFactorMap.
      rewrite lookup_singleton_ne by exact Hc. reflexivity.
Qed.

(** When the construction function of a configured chain reports an error,
    [New] does not return: it writes a critical record and the process
    ends with status 1. *)
Lemma New_construction_failure_exits net conf lg pre post a e lg1 :
  config.Chains conf = pre ++ ethereum.ChainName :: post ->
  ethereum.ChainName ∉ pre ->
  ethereum.NewChainAdaptor net conf (lg ++ map unsupported_chain_record pre)
  = (Ret (a, Some e), lg1) ->
  chaindispatcher.New net conf lg
  = (Exited 1, lg1 ++ [setup_failure_record ethereum.ChainName e]).
Proof.
  intros Hchains Hpre Hnew. unfold chaindispatcher.New. rewrite Hchains.
  erewrite bind_Exited; [ reflexivity | ].
  rewrite for_range_app. erewrite bind_Ret by (now apply New_loop_unsupported).
  cbn [chaindispatcher.for_range]. erewrite bind_Exited; [ reflexivity | ].
  unfold chaindispatcher.New_loop_body, chaindispatcher.chainAdaptorFactorMap.
  rewrite lookup_singleton_eq. erewrite bind_Ret by exact Hnew. reflexivity.
Qed.

(** [main] gets from [New] exactly what [New] gives, without its error. *)
Lemma setup_dispatcher_is_New net conf lg :
  main.setup_dispatcher net conf lg
  = bind (chaindispatcher.New net conf) (fun r => ret (fst r)) lg.
Proof.
  unfold main.setup_dispatcher, bind.
  destruct (chaindispatcher.New net conf lg) as [[[d err] | v | n] lg'] eqn:H;
    [ | reflexivity | reflexivity ].
  apply New_Ret_inv in H as (disp & -> & -> & _). reflexivity.
Qed.

(** C10.  [New] never returns a non-nil error: whenever it returns, the
    error is nil and the dispatcher is not.  So the branch of [main] that
    handles an error of [New] is never taken: [main] goes on with the
    dispatcher, and the log is as [New] left it. *)
Theorem New_error_is_nil :
  forall (net : ethereum.Dialer) (conf : config.Config) (lg lg' : log.Log)
         (d : option chaindispatcher.ChainDispatcher) (err : option error),
    chaindispatcher.New net conf lg = (Ret (d, err), lg') ->
    err = None /\ is_Some d /\ main.setup_dispatcher net conf lg = (Ret d, lg').
Proof.
  intros net conf lg lg' d err H.
  rewrite setup_dispatcher_is_New. erewrite bind_Ret by exact H.
  apply New_Ret_inv in H as (disp & -> & -> & _). eauto.
Qed.

Lemma New_error_is_nil_witness :
  chaindispatcher.New sample.net sample.conf []
  = (Ret (Some sample.built, None), [unsupported_chain_record "Bitcoin"])
  /\ main.setup_dispatcher sample.net sample.conf []
     = (Ret (Some sample.built), [unsupported_chain_record "Bitcoin"]).
Proof.
  split; [ exact New_sample_run | ].
  exact (proj2 (proj2 (New_error_is_nil sample.net sample.conf [] _ _ _ New_sample_run))).
Defined.

(** ** Address conversion *)

Lemma Keccak256_length data : length (crypto.Keccak256 data) = 32.
Proof. unfold crypto.Keccak256. now rewrite length_map, length_seq. Qed.

(** A slice that is already as long as the array fills it. *)
Lemma setBytes_exact n b : length b = n -> ethcommon.setBytes n b = b.
Proof.
  intros <-. unfold ethcommon.setBytes.
  rewrite Nat.ltb_irrefl, Nat.sub_diag. reflexivity.
Qed.

Lemma BytesToAddress_of_hash h :
  length h = 32 -> ethcommon.BytesToAddress (drop 12 h) = last_bytes 20 h.
Proof.
  intros Hlen. unfold ethcommon.BytesToAddress, last_bytes. rewrite Hlen.
  apply setBytes_exact. rewrite length_drop, Hlen. reflexivity.
Qed.

(** The checksummed text of an address of 20 bytes has 42 characters. *)
Lemma EncodeToString_length bs : String.length (hex.EncodeToString bs) = 2 * length bs.
Proof. induction bs as [ | b bs IH ]; cbn [hex.EncodeToString String.length length]; lia. Qed.

Lemma string_of_list_ascii_length l : String.length (string_of_list_ascii l) = length l.
Proof. induction l as [ | a l IH ]; cbn; congruence. Qed.

Lemma list_ascii_of_string_length s : length (list_ascii_of_string s) = String.length s.
Proof. induction s as [ | a s IH ]; cbn; congruence. Qed.

Lemma append_length s1 s2 :
  String.length (s1 +:+ s2) = String.length s1 + String.length s2.
Proof.
  induction s1 as [ | a s1 IH ]; [ reflexivity | ].
  change (S (String.length (s1 +:+ s2)) = S (String.length s1 + String.length s2)).
  now rewrite IH.
Qed.

Lemma checksumHex_length a : String.length (ethcommon.checksumHex a) = 2 + 2 * length a.
Proof.
  unfold ethcommon.checksumHex.
  now rewrite append_length, string_of_list_ascii_length, length_imap,
    list_ascii_of_string_length, EncodeToString_length.
Qed.

Lemma last_bytes_length n b : n <= length b -> length (last_bytes n b) = n.
Proof. intros H. unfold last_bytes. rewrite length_drop. lia. Qed.

(** C6.  Given a public key of 65 bytes, [ConvertAddress] of the ethereum
    adaptor returns status SUCCESS (and a nil error) with, as address, the
    checksummed hexadecimal text of the last 20 bytes of the Keccak-256
    hash of the last 64 bytes of the key, which are the key without its
    leading format byte.  The two copies of the adaptor agree. *)
Theorem ConvertAddress_uncompressed_key :
  forall (c : ethereum.ChainAdaptor) (req : account.ConvertAddressRequest) (lg : log.Log),
    let PublicKey := account.ConvertAddressRequest.PublicKey (account.Params req) in
    length PublicKey = 65 ->
    ethereum.ConvertAddress c req lg
    = (Ret (Some {| account.Code := common.ReturnCode_SUCCESS;
                    account.Msg := "convert address successs";
                    account.Payload :=
                      {| account.ConvertAddressResponse.Address :=
                           ethcommon.checksumHex
                             (last_bytes 20 (crypto.Keccak256 (last_bytes 64 PublicKey))) |} |},
             None), lg)
    /\ ethereum_alt.ConvertAddress c req lg = ethereum.ConvertAddress c req lg
    /\ length (last_bytes 20 (crypto.Keccak256 (last_bytes 64 PublicKey))) = 20
    /\ length (last_bytes 64 PublicKey) = 64
    /\ exists format, PublicKey = format :: last_bytes 64 PublicKey.
Proof.
  intros c req lg PublicKey Hlen.
  assert (Htail : drop 1 PublicKey = last_bytes 64 PublicKey)
    by (unfold last_bytes; now rewrite Hlen).
  split; [ | split; [ | split; [ | split ] ] ].
  - unfold ethereum.ConvertAddress. fold PublicKey.
    destruct PublicKey as [ | format rest ] eqn:Hpk; [ discriminate | ].
    rewrite Htail, BytesToAddress_of_hash by apply Keccak256_length.
    reflexivity.
  - reflexivity.
  - apply last_bytes_length. rewrite Keccak256_length. lia.
  - apply last_bytes_length. lia.
  - destruct PublicKey as [ | format rest ]; [ discriminate | ].
    exists format. now rewrite <- Htail.
Qed.

Lemma ConvertAddress_uncompressed_key_witness :
  length sample.publicKey = 65
  /\ ethereum.ConvertAddress sample.adaptor (sample.convertRequest "Ethereum") []
     = (Ret (Some {| account.Code := common.ReturnCode_SUCCESS;
                     account.Msg := "convert address successs";
                     account.Payload :=
                       {| account.ConvertAddressResponse.Address :=
                            "0x7E5F4552091A69125d5DfCb7b8C2659029395Bdf" |} |},
              None), []).
Proof.
  assert (Hlen : length sample.publicKey = 65) by (vm_compute; reflexivity).
  split; [ exact Hlen | ].
  refine (eq_trans
            (proj1 (ConvertAddress_uncompressed_key sample.adaptor
                      (sample.convertRequest "Ethereum") [] Hlen)) _).
  vm_compute. reflexivity.
Defined.

(** ** Status and payload of the adaptor's responses *)

Lemma sample_GetBlockByNumber :
  ethereum.GetBlockByNumber sample.adaptor sample.blockRequest []
  = (Ret (Some sample.blockResponse, None), []).
Proof. vm_compute. reflexivity. Qed.

Lemma sample_GetAccount :
  ethereum.GetAccount sample.adaptor sample.accountRequest []
  = (Ret (Some sample.accountResponse, Some sample.timeout), sample.accountLog).
Proof. vm_compute. reflexivity. Qed.

(** [GetBlockByNumber], by the result of the one call it makes. *)
Lemma GetBlockByNumber_cases c client req lg block derr w resp err lg' :
  ethereum.ethClient c = Some client ->
  ethereum.BlockByNumber client
    (big.NewInt (account.BlockNumberRequest.Height (account.Params req)))
  = (Ret (block, derr), w) ->
  ethereum.GetBlockByNumber c req lg = (Ret (Some resp, err), lg') ->
  block_response_ok block derr resp err.
Proof.
  intros Hc Hcall. unfold block_response_ok. unfold ethereum.GetBlockByNumber, bind, call_ext. cbv zeta.
  rewrite Hc. cbn [deref ret]. rewrite Hcall. cbn [fst snd].
  destruct derr as [e | ].
  - cbn. intros [= <- <- <-]. cbn.
    split; [ reflexivity | ]. split; [ split; discriminate | ].
    split; [ reflexivity | discriminate ].
  - destruct block as [b | ]; cbn; [ | discriminate ].
    intros [= <- <- <-]. cbn.
    split; [ reflexivity | ]. split; [ split; reflexivity | ].
    split; [ discriminate | ]. intros _. now exists b.
Qed.

(** [GetAccount], by the results of the calls it makes. *)
Lemma GetAccount_cases c client req lg nonce e1 w1 resp err lg' :
  ethereum.ethClient c = Some client ->
  ethereum.TxCountByAddress client
    (ethcommon.HexToAddress (account.AccountRequest.Address (account.Params req)))
  = (Ret (nonce, e1), w1) ->
  ethereum.GetAccount c req lg = (Ret (Some resp, err), lg') ->
  account_response_ok c req nonce e1 resp err.
Proof.
  intros Hc Hcall. unfold account_response_ok. unfold ethereum.GetAccount, bind, call_ext. cbv zeta.
  rewrite Hc. cbn [deref ret]. rewrite Hcall. cbn [fst snd].
  destruct e1 as [e | ].
  - cbn. intros [= <- <- <-]. split; [ intros _; repeat split | discriminate ].
  - destruct (ethereum.ethDataClient c) as [data | ]; [ | discriminate ].
    cbn [deref ret].
    destruct (ethereum.getBalanceByaddress data _ _) as [[[balance e2] | v | n] w2] eqn:Hbal;
      cbn [fst snd]; try discriminate.
    destruct e2 as [e | ].
    + cbn. intros [= <- <- <-]. split; [ intros [? [=]] | ]. intros _.
      exists data, balance, (Some e), w2. cbn.
      split; [ reflexivity | ]. split; [ exact Hbal | ].
      split; [ split; discriminate | discriminate ].
    + destruct balance as [b | ]; cbn; [ | discriminate ].
      intros [= <- <- <-]. split; [ intros [? [=]] | ]. intros _.
      exists data, (Some b), None, w2. cbn.
      split; [ reflexivity | ]. split; [ exact Hbal | ].
      split; [ split; reflexivity | ].
      intros _. now exists b.
Qed.

(** The header message the header operations build is [header_message] of
    the node's header, when the four pointers of the header are set. *)
Lemma blockHeader_of_Ret h lg hdr lg' :
  ethereum.blockHeader_of h lg = (Ret hdr, lg') ->
  exists parentBeaconRoot withdrawalsHash blobGasUsed excessBlobGas,
    types.ParentBeaconRoot h = Some parentBeaconRoot
    /\ types.WithdrawalsHash h = Some withdrawalsHash
    /\ types.BlobGasUsed h = Some blobGasUsed
    /\ types.ExcessBlobGas h = Some excessBlobGas
    /\ hdr = header_message h parentBeaconRoot withdrawalsHash blobGasUsed excessBlobGas
    /\ lg' = lg.
Proof.
  unfold ethereum.blockHeader_of, header_message.
  destruct (types.ParentBeaconRoot h) as [pbr | ]; [ | discriminate ].
  destruct (types.WithdrawalsHash h) as [wh | ]; [ | discriminate ].
  destruct (types.BlobGasUsed h) as [bgu | ]; [ | discriminate ].
  destruct (types.ExcessBlobGas h) as [ebg | ]; [ | discriminate ].
  cbn. intros [= <- <-]. now exists pbr, wh, bgu, ebg.
Qed.

(** The two block-header operations, by the result of the one call each
    makes. *)
Lemma GetBlockHeaderByHash_cases c client req lg blockInfo derr w resp err lg' :
  ethereum.ethClient c = Some client ->
  ethereum.BlockHeaderByHash client (header_hash_asked req) = (Ret (blockInfo, derr), w) ->
  ethereum.GetBlockHeaderByHash c req lg = (Ret (Some resp, err), lg') ->
  header_response_ok blockInfo derr resp err.
Proof.
  intros Hc Hcall. unfold header_response_ok, header_hash_asked in *.
  unfold ethereum.GetBlockHeaderByHash, bind at 1 2, call_ext. cbv zeta in *.
  rewrite Hc. cbn [deref ret]. rewrite Hcall. cbn [fst snd].
  destruct derr as [e | ].
  - cbn. intros [= <- <- <-]. cbn.
    split; [ reflexivity | ]. split; [ split; discriminate | ].
    split; [ reflexivity | discriminate ].
  - destruct blockInfo as [h | ]; cbn [deref]; [ | discriminate ].
    rewrite bind_ret_l. unfold bind.
    destruct (ethereum.blockHeader_of h (lg ++ w)) as [[hdr | v | n] lg2] eqn:Hhdr;
      try discriminate.
    intros [= <- <- <-]. cbn.
    split; [ reflexivity | ]. split; [ split; reflexivity | ].
    split; [ discriminate | ]. intros _.
    destruct (blockHeader_of_Ret _ _ _ _ Hhdr)
      as (pbr & wh & bgu & ebg & H1 & H2 & H3 & H4 & -> & _).
    now exists h, pbr, wh, bgu, ebg.
Qed.

Lemma GetBlockHeaderByNumber_cases c client req lg blockInfo derr w resp err lg' :
  ethereum.ethClient c = Some client ->
  ethereum.BlockHeaderByNumber client (header_number_asked req) = (Ret (blockInfo, derr), w) ->
  ethereum.GetBlockHeaderByNumber c req lg = (Ret (Some resp, err), lg') ->
  header_response_ok blockInfo derr resp err.
Proof.
  intros Hc Hcall. unfold header_response_ok, header_number_asked in *.
  unfold ethereum.GetBlockHeaderByNumber, bind at 1 2, call_ext. cbv zeta in *.
  rewrite Hc. cbn [deref ret]. rewrite Hcall. cbn [fst snd].
  destruct derr as [e | ].
  - cbn. intros [= <- <- <-]. cbn.
    split; [ reflexivity | ]. split; [ split; discriminate | ].
    split; [ reflexivity | discriminate ].
  - destruct blockInfo as [h | ]; cbn [deref]; [ | discriminate ].
    rewrite bind_ret_l. unfold bind.
    destruct (ethereum.blockHeader_of h (lg ++ w)) as [[hdr | v | n] lg2] eqn:Hhdr;
      try discriminate.
    intros [= <- <- <-]. cbn.
    split; [ reflexivity | ]. split; [ split; reflexivity | ].
    split; [ discriminate | ]. intros _.
    destruct (blockHeader_of_Ret _ _ _ _ Hhdr)
      as (pbr & wh & bgu & ebg & H1 & H2 & H3 & H4 & -> & _).
    now exists h, pbr, wh, bgu, ebg.
Qed.

(** C7, as the code has it.  For the operations of the ethereum adaptor
    that build a response, whenever a response is returned: its status is
    SUCCESS exactly when no call to the node or to the data API reported an
    error; on every error path other than the failed balance call of
    [GetAccount], of whose payload and error nothing is said, the ERROR
    response has a zero-valued payload and comes with a nil error; a SUCCESS
    response carries the values the calls returned, every field of the
    node's header for the header operations, next to the constants
    [GetBlockByNumber] writes in From, Time, Amount, Fee and Status of
    every transaction and [GetAccount] writes as account number.
    [GetSupportChains] and [ConvertAddress] make no call and, when they
    return, return SUCCESS. *)
Theorem ethereum_response_status :
  forall (c : ethereum.ChainAdaptor) (client : ethereum.EthClient),
    ethereum.ethClient c = Some client ->
    (forall req lg block derr w resp err lg',
        ethereum.BlockByNumber client
          (big.NewInt (account.BlockNumberRequest.Height (account.Params req)))
        = (Ret (block, derr), w) ->
        ethereum.GetBlockByNumber c req lg = (Ret (Some resp, err), lg') ->
        block_response_ok block derr resp err)
    /\ (forall req lg nonce e1 w1 resp err lg',
           ethereum.TxCountByAddress client
             (ethcommon.HexToAddress (account.AccountRequest.Address (account.Params req)))
           = (Ret (nonce, e1), w1) ->
           ethereum.GetAccount c req lg = (Ret (Some resp, err), lg') ->
           account_response_ok c req nonce e1 resp err)
    /\ (forall req lg blockInfo derr w resp err lg',
           ethereum.BlockHeaderByHash client (header_hash_asked req)
           = (Ret (blockInfo, derr), w) ->
           ethereum.GetBlockHeaderByHash c req lg = (Ret (Some resp, err), lg') ->
           header_response_ok blockInfo derr resp err)
    /\ (forall req lg blockInfo derr w resp err lg',
           ethereum.BlockHeaderByNumber client (header_number_asked req)
           = (Ret (blockInfo, derr), w) ->
           ethereum.GetBlockHeaderByNumber c req lg = (Ret (Some resp, err), lg') ->
           header_response_ok blockInfo derr resp err)
    /\ (forall req lg resp err lg',
           ethereum.GetSupportChains c req lg = (Ret (Some resp, err), lg') ->
           account.Code resp = common.ReturnCode_SUCCESS /\ err = None)
    /\ (forall req lg resp err lg',
           ethereum.ConvertAddress c req lg = (Ret (Some resp, err), lg') ->
           account.Code resp = common.ReturnCode_SUCCESS /\ err = None).
Proof.
  intros c client Hc.
  split; [ intros; eapply GetBlockByNumber_cases; eassumption | ].
  split; [ intros; eapply GetAccount_cases; eassumption | ].
  split; [ intros; eapply GetBlockHeaderByHash_cases; eassumption | ].
  split; [ intros; eapply GetBlockHeaderByNumber_cases; eassumption | ].
  split.
  - intros req lg resp err lg' [= <- <- <-]. now split.
  - intros req lg resp err lg'. unfold ethereum.ConvertAddress.
    destruct (account.ConvertAddressRequest.PublicKey _); [ discriminate | ].
    intros [= <- <- <-]. now split.
Qed.

Lemma ethereum_response_status_witness :
  ethereum.ethClient sample2.payingAdaptor = Some sample.ethClient
  /\ ethereum.GetBlockByNumber sample2.payingAdaptor sample.blockRequest []
     = (Ret (Some sample.blockResponse, None), [])
  /\ block_response_ok (Some sample2.block) None sample.blockResponse None
  /\ ethereum.GetAccount sample2.payingAdaptor sample.accountRequest []
     = (Ret (Some sample2.paidResponse, None), [])
  /\ account_response_ok sample2.payingAdaptor sample.accountRequest 26 None
       sample2.paidResponse None.
Proof.
  pose proof (ethereum_response_status sample2.payingAdaptor sample.ethClient eq_refl)
    as (Hblock & Haccount & _).
  assert (Hb : ethereum.GetBlockByNumber sample2.payingAdaptor sample.blockRequest []
               = (Ret (Some sample.blockResponse, None), []))
    by (vm_compute; reflexivity).
  assert (Ha : ethereum.GetAccount sample2.payingAdaptor sample.accountRequest []
               = (Ret (Some sample2.paidResponse, None), []))
    by (vm_compute; reflexivity).
  split; [ reflexivity | ].
  split; [ exact Hb | ].
  split; [ exact (Hblock sample.blockRequest [] _ _ _ _ _ _ eq_refl Hb) | ].
  split; [ exact Ha | ].
  exact (Haccount sample.accountRequest [] _ _ _ _ _ _ eq_refl Ha).
Defined.

(** C7 as stated fails: a SUCCESS response carries fields that no call
    returned.  [GetBlockByNumber] answers SUCCESS with a transaction entry
    of which From, Time, Amount, Fee and Status are none of the texts of the
    node's block, and [GetAccount] answers SUCCESS with an account number
    that is neither the nonce nor the balance read. *)
Lemma fabricated_fields_counterexample :
  ethereum.BlockByNumber sample.ethClient (big.NewInt 100)
  = (Ret (Some sample2.block, None), [])
  /\ ethereum.GetBlockByNumber sample.adaptor sample.blockRequest []
     = (Ret (Some sample.blockResponse, None), [])
  /\ account.Code sample.blockResponse = common.ReturnCode_SUCCESS
  /\ ~ (forall t x,
          t ∈ account.BlockResponse.Transactions (account.Payload sample.blockResponse) ->
          x ∈ transaction_texts t -> x ∈ block_texts sample2.block)
  /\ ethereum.TxCountByAddress sample.ethClient
       (ethcommon.HexToAddress
          (account.AccountRequest.Address (account.Params sample.accountRequest)))
     = (Ret (26%N, None), [])
  /\ ethereum.getBalanceByaddress sample2.payingData
       (account.AccountRequest.ContractAddress (account.Params sample.accountRequest))
       (account.AccountRequest.Address (account.Params sample.accountRequest))
     = (Ret (Some {| ethereum.BalanceStr := "123" |}, None), [])
  /\ ethereum.GetAccount sample2.payingAdaptor sample.accountRequest []
     = (Ret (Some sample2.paidResponse, None), [])
  /\ account.Code sample2.paidResponse = common.ReturnCode_SUCCESS
  /\ account.AccountResponse.AccountNumber (account.Payload sample2.paidResponse)
       ∉ [hexutil.Uint64_String 26; "123"].
Proof.
  split; [ reflexivity | ].
  split; [ exact sample_GetBlockByNumber | ].
  split; [ reflexivity | ].
  split.
  - intros H.
    specialize (H _ "10" (list_elem_of_here _ _)).
    assert (Hin : "10" ∈ block_texts sample2.block)
      by (apply H; cbn; repeat constructor).
    cbn in Hin.
    repeat (apply elem_of_cons in Hin as [Hin | Hin]; [ discriminate Hin | ]).
    now apply elem_of_nil in Hin.
  - split; [ reflexivity | ].
    split; [ reflexivity | ].
    split; [ vm_compute; reflexivity | ].
    split; [ reflexivity | ].
    cbn. intros Hin.
    repeat (apply elem_of_cons in Hin as [Hin | Hin]; [ discriminate Hin | ]).
    now apply elem_of_nil in Hin.
Qed.

(** The failed balance call of [GetAccount], which the statement above
    leaves out: the ERROR response has the balance "0" in its payload and
    comes with the error of the call, where the failed nonce call of the
    same operation gives a zero-valued payload and a nil error. *)
Lemma GetAccount_balance_failure :
  ethereum.GetAccount sample.adaptor sample.accountRequest []
  = (Ret (Some sample.accountResponse, Some sample.timeout), sample.accountLog)
  /\ account.Code sample.accountResponse = common.ReturnCode_ERROR
  /\ account.Payload sample.accountResponse = balance_failure_payload
  /\ account.Payload sample.accountResponse <> zero
  /\ ethereum.GetAccount sample2.oldAdaptor sample.accountRequest []
     = (Ret (Some {| account.Code := common.ReturnCode_ERROR;
                     account.Msg := "get nonce by address fail";
                     account.Payload := zero |}, None),
        [nonce_failure_record sample.timeout]).
Proof.
  split; [ exact sample_GetAccount | ].
  split; [ reflexivity | ].
  split; [ reflexivity | ].
  split; [ discriminate | vm_compute; reflexivity ].
Qed.

(** * Further properties of the dispatcher, the interceptor and the adaptor *)

(** ** The interceptor, by the outcome of the handler *)

Lemma Interceptor_Ret_state {Rq Rs} {Rq_type : GoType Rq} (GetChain : Rq -> string) (req : Rq) info
    (handler : Rq -> M chaindispatcher.State (Reply Rs)) s r s1 :
  handler req (entered info (GetChain req) req s) = (Ret r, s1) ->
  chaindispatcher.Interceptor (Some GetChain) req info handler s
  = (Ret r, with_logs s1 [finish_record r]).
Proof.
  intros H1. unfold chaindispatcher.Interceptor, defer_recover.
  rewrite bind_ret_l.
  erewrite (bind_Ret _ _ s tt (entered info (GetChain req) req s)) by reflexivity.
  erewrite bind_Ret by exact H1. now destruct r as [resp err].
Qed.

Lemma Interceptor_Exited {Rq Rs} {Rq_type : GoType Rq} (GetChain : Rq -> string) (req : Rq) info
    (handler : Rq -> M chaindispatcher.State (Reply Rs)) s n s1 :
  handler req (entered info (GetChain req) req s) = (Exited n, s1) ->
  chaindispatcher.Interceptor (Some GetChain) req info handler s = (Exited n, s1).
Proof.
  intros H1. unfold chaindispatcher.Interceptor, defer_recover.
  rewrite bind_ret_l.
  erewrite (bind_Ret _ _ s tt (entered info (GetChain req) req s)) by reflexivity.
  now erewrite bind_Exited by exact H1.
Qed.

(** X1.  The interceptor around a handler, by how the handler ends in the
    state the interceptor starts it in.  A result the handler returns is
    handed on unchanged, with one closing record added to the log.  A panic
    is turned into a nil response and an Internal error, with the two
    records of the fault added.  An [os.Exit] is not recovered: the process
    ends, and nothing more is written. *)
Theorem Interceptor_by_outcome :
  forall (Rq Rs : Type) {Rq_type : GoType Rq} (GetChain : Rq -> string) (req : Rq)
         (info : chaindispatcher.UnaryServerInfo)
         (handler : Rq -> M chaindispatcher.State (Reply Rs))
         (s s1 : chaindispatcher.State) (o : outcome (Reply Rs)),
    handler req (entered info (GetChain req) req s) = (o, s1) ->
    chaindispatcher.Interceptor (Some GetChain) req info handler s
    = match o with
      | Ret r => (Ret r, with_logs s1 [finish_record r])
      | Panicked e => (Ret (None, Some (panic_error e)), with_logs s1 (panic_records e))
      | Exited n => (Exited n, s1)
      end.
Proof.
  intros Rq Rs Rq_type GetChain req info handler s s1 [r | e | n] H.
  - now apply Interceptor_Ret_state.
  - now apply Interceptor_Panicked.
  - now apply Interceptor_Exited.
Qed.

Lemma Interceptor_by_outcome_witness :
  chaindispatcher.serve service.GetSupportChains sample2.supportRequest
    (entered (sample.info service.GetSupportChains) "Ethereum" sample2.supportRequest
       sample.serving)
  = (Ret (Some sample2.supportResponse, None),
     with_call (entered (sample.info service.GetSupportChains) "Ethereum"
                  sample2.supportRequest sample.serving)
       (call_of service.GetSupportChains sample2.supportRequest))
  /\ fst (chaindispatcher.handle (sample.info service.GetSupportChains)
            service.GetSupportChains sample2.supportRequest sample.serving)
     = Ret (Some sample2.supportResponse, None).
Proof.
  assert (H : chaindispatcher.serve service.GetSupportChains sample2.supportRequest
                (entered (sample.info service.GetSupportChains) "Ethereum"
                   sample2.supportRequest sample.serving)
              = (Ret (Some sample2.supportResponse, None),
                 with_call (entered (sample.info service.GetSupportChains) "Ethereum"
                              sample2.supportRequest sample.serving)
                   (call_of service.GetSupportChains sample2.supportRequest))).
  { refine (eq_trans (serve_registered service.GetSupportChains sample2.supportRequest _
                        (ethereum.as_IChainAdaptor sample.adaptor) _ _) _);
      [ discriminate | reflexivity | reflexivity ]. }
  split; [ exact H | ].
  exact (f_equal fst
           (Interceptor_by_outcome _ _ account.Chain sample2.supportRequest
              (sample.info service.GetSupportChains)
              (chaindispatcher.serve service.GetSupportChains) sample.serving _ _ H)).
Defined.

(** ** Dispatch to a registered adaptor, whatever the adaptor does *)

(** X2.  For a request whose chain is registered with an adaptor, every
    dispatcher operation other than [ValidAddress], served under the
    interceptor, invokes that adaptor's method exactly once, on the request
    as received and on the log as the interceptor left it.  What the caller
    gets and what is left behind is decided by how the method ends: its
    result unchanged when it returns, an Internal error with the panic
    value when it panics, the end of the process when it exits.  The
    dispatcher itself is as before in all three cases. *)
Theorem dispatch_by_adaptor_outcome :
  forall (info : chaindispatcher.UnaryServerInfo) (m : service.Method)
         (req : service.Req m) (s : chaindispatcher.State)
         (adaptor : chain.IChainAdaptor) (o : outcome (Reply (service.Resp m)))
         (lg' : log.Log),
    m <> service.ValidAddress ->
    chaindispatcher.registry (chaindispatcher.dispatcher s) !! account.Chain req
    = Some (Some adaptor) ->
    chain.method_of adaptor m req
      (chaindispatcher.logs s ++ [entry_record info (account.Chain req) req]) = (o, lg') ->
    let after (l : log.Log) : chaindispatcher.State :=
      {| chaindispatcher.dispatcher := chaindispatcher.dispatcher s;
         chaindispatcher.calls := chaindispatcher.calls s ++ [call_of m req];
         chaindispatcher.logs := l |} in
    chaindispatcher.handle info m req s
    = match o with
      | Ret r => (Ret r, after (lg' ++ [finish_record r]))
      | Panicked e => (Ret (None, Some (panic_error e)), after (lg' ++ panic_records e))
      | Exited n => (Exited n, after lg')
      end.
Proof.
  intros info m req s adaptor o lg' Hm Hreg Hrun after.
  pose proof (serve_registered m req (entered info (account.Chain req) req s)
                adaptor Hm Hreg) as Hserve.
  unfold chaindispatcher.liftLog in Hserve.
  cbn [with_call entered with_logs chaindispatcher.logs chaindispatcher.calls
         chaindispatcher.dispatcher] in Hserve.
  rewrite Hrun in Hserve. unfold chaindispatcher.handle.
  destruct o as [r | e | n].
  - exact (Interceptor_Ret_state (Rq_type := service.Req_GoType m)
          account.Chain req info (chaindispatcher.serve m) s _ _ Hserve).
  - exact (Interceptor_Panicked (Rq_type := service.Req_GoType m)
          account.Chain req info (chaindispatcher.serve m) s _ _ Hserve).
  - exact (Interceptor_Exited (Rq_type := service.Req_GoType m)
          account.Chain req info (chaindispatcher.serve m) s _ _ Hserve).
Qed.

Lemma dispatch_by_adaptor_outcome_witness :
  service.GetAccount <> service.ValidAddress
  /\ chaindispatcher.registry (chaindispatcher.dispatcher sample.serving)
       !! account.Chain sample.accountRequest
     = Some (Some (ethereum.as_IChainAdaptor sample.adaptor))
  /\ fst (chaindispatcher.handle (sample.info service.GetAccount) service.GetAccount
            sample.accountRequest sample.serving)
     = Ret (Some sample.accountResponse, Some sample.timeout)
  /\ chaindispatcher.calls
       (snd (chaindispatcher.handle (sample.info service.GetAccount) service.GetAccount
               sample.accountRequest sample.serving))
     = [ call_of service.GetAccount sample.accountRequest ].
Proof.
  assert (Hm : service.GetAccount <> service.ValidAddress) by discriminate.
  assert (Hrun :
    chain.method_of (ethereum.as_IChainAdaptor sample.adaptor) service.GetAccount
      sample.accountRequest
      (chaindispatcher.logs sample.serving
         ++ [entry_record (sample.info service.GetAccount)
               (account.Chain sample.accountRequest) sample.accountRequest])
    = (Ret (Some sample.accountResponse, Some sample.timeout),
       [entry_record (sample.info service.GetAccount)
          (account.Chain sample.accountRequest) sample.accountRequest]
       ++ sample.accountLog)) by reflexivity.
  pose proof (dispatch_by_adaptor_outcome (sample.info service.GetAccount)
                service.GetAccount sample.accountRequest sample.serving
                (ethereum.as_IChainAdaptor sample.adaptor) _ _ Hm
                sample_serving_Ethereum Hrun) as H.
  split; [ exact Hm | ]. split; [ exact sample_serving_Ethereum | ].
  split; [ exact (f_equal fst H) | ].
  exact (f_equal (fun x => chaindispatcher.calls (snd x)) H).
Defined.

Lemma invoke_nil key m (request : service.Req m) s :
  chaindispatcher.registry (chaindispatcher.dispatcher s) !! key = Some None ->
  chaindispatcher.invoke key m request s = (Panicked nil_dereference, s).
Proof.
  intros H. unfold chaindispatcher.invoke, bind, chaindispatcher.d_registry.
  cbv beta iota. now rewrite H.
Qed.

(** X3.  A chain registered with a nil adaptor passes the validator, and
    the call through the registry then panics with a nil dereference: every
    dispatcher operation other than [ValidAddress] invokes nothing, and the
    caller gets an Internal error with the text of the run-time fault. *)
Theorem nil_adaptor_faults :
  forall (info : chaindispatcher.UnaryServerInfo) (m : service.Method)
         (req : service.Req m) (s : chaindispatcher.State),
    m <> service.ValidAddress ->
    chaindispatcher.registry (chaindispatcher.dispatcher s) !! account.Chain req
    = Some None ->
    chaindispatcher.serve m req s = (Panicked nil_dereference, s)
    /\ chaindispatcher.handle info m req s
       = (Ret (None,
               Some (statusError codes.Internal
                       "Panic err: runtime error: invalid memory address or nil pointer dereference")),
          with_logs (entered info (account.Chain req) req s) (panic_records nil_dereference)).
Proof.
  intros info m req s Hm Hreg.
  assert (Hserve : forall s0,
    chaindispatcher.registry (chaindispatcher.dispatcher s0) !! account.Chain req = Some None ->
    chaindispatcher.serve m req s0 = (Panicked nil_dereference, s0)).
  { intros s0 H0.
    destruct m; try congruence; cbn [chaindispatcher.serve];
      match goal with |- ?f _ _ = _ => unfold f end;
      (erewrite bind_Ret by (eapply preHandler_present; exact H0));
      exact (invoke_nil _ _ _ _ H0). }
  split; [ now apply Hserve | ].
  unfold chaindispatcher.handle.
  exact (Interceptor_Panicked (Rq_type := service.Req_GoType m)
          account.Chain req info (chaindispatcher.serve m) s _ _
           (Hserve (entered info (account.Chain req) req s) Hreg)).
Qed.

Lemma nil_adaptor_faults_witness :
  service.GetFee <> service.ValidAddress
  /\ chaindispatcher.registry (chaindispatcher.dispatcher sample2.nilServing)
       !! account.Chain (sample.rawRequest "Ethereum") = Some None
  /\ chaindispatcher.serve service.GetFee (sample.rawRequest "Ethereum") sample2.nilServing
     = (Panicked nil_dereference, sample2.nilServing).
Proof.
  assert (Hm : service.GetFee <> service.ValidAddress) by discriminate.
  assert (Hreg : chaindispatcher.registry (chaindispatcher.dispatcher sample2.nilServing)
                   !! account.Chain (sample.rawRequest "Ethereum") = Some None)
    by reflexivity.
  split; [ exact Hm | ]. split; [ exact Hreg | ].
  exact (proj1 (nil_adaptor_faults (sample.info service.GetFee) service.GetFee
                  (sample.rawRequest "Ethereum") sample2.nilServing Hm Hreg)).
Defined.

(** ** One request after another *)

(** X4.  A request finds the registry as the request before it found it,
    whatever the earlier request was and however it ended.  So after any
    first request, a request for a chain that was not registered is still
    refused without a call to an adaptor, and a request for a chain that
    was registered with an adaptor is still run by that adaptor's method,
    after one more call on the probe. *)
Theorem requests_do_not_interfere :
  forall (info1 info2 : chaindispatcher.UnaryServerInfo) (m1 m2 : service.Method)
         (req1 : service.Req m1) (req2 : service.Req m2) (s : chaindispatcher.State),
    m2 <> service.ValidAddress ->
    let s' := snd (chaindispatcher.handle info1 m1 req1 s) in
    (chaindispatcher.registry (chaindispatcher.dispatcher s) !! account.Chain req2 = None ->
     fst (chaindispatcher.handle info2 m2 req2 s')
     = Ret (Some {| account.Code := common.ReturnCode_ERROR;
                    account.Msg := pre_handle_message m2;
                    account.Payload := zero |}, None)
     /\ chaindispatcher.calls (snd (chaindispatcher.handle info2 m2 req2 s'))
        = chaindispatcher.calls s')
    /\ (forall adaptor,
          chaindispatcher.registry (chaindispatcher.dispatcher s) !! account.Chain req2
          = Some (Some adaptor) ->
          chaindispatcher.serve m2 req2 s'
          = chaindispatcher.liftLog (chain.method_of adaptor m2 req2)
              (with_call s' (call_of m2 req2))).
Proof.
  intros info1 info2 m1 m2 req1 req2 s Hm s'.
  assert (Hsame : chaindispatcher.dispatcher s' = chaindispatcher.dispatcher s)
    by apply keeps_dispatcher_Interceptor, keeps_dispatcher_serve.
  split.
  - intros Habs. rewrite <- Hsame in Habs.
    assert (Hserve :
      chaindispatcher.serve m2 req2 (entered info2 (account.Chain req2) req2 s')
      = (Ret (Some {| account.Code := common.ReturnCode_ERROR;
                      account.Msg := pre_handle_message m2;
                      account.Payload := zero |}, None),
         entered info2 (account.Chain req2) req2 s'))
      by (now apply serve_absent).
    unfold chaindispatcher.handle at 1 2.
    now rewrite (Interceptor_Ret_state (Rq_type := service.Req_GoType m2)
            account.Chain req2 info2 (chaindispatcher.serve m2)
                   s' _ _ Hserve).
  - intros adaptor Hreg. rewrite <- Hsame in Hreg. now apply serve_registered.
Qed.

Lemma requests_do_not_interfere_witness :
  service.GetSupportChains <> service.ValidAddress
  /\ chaindispatcher.registry (chaindispatcher.dispatcher sample.serving)
       !! account.Chain (sample.rawRequest "Bitcoin") = None
  /\ fst (chaindispatcher.handle (sample.info service.GetSupportChains)
            service.GetSupportChains (sample.rawRequest "Bitcoin")
            (snd (chaindispatcher.handle (sample.info service.GetFee) service.GetFee
                    (sample.rawRequest "Ethereum") sample.serving)))
     = Ret (Some {| account.Code := common.ReturnCode_ERROR;
                    account.Msg := config.UnsupportedOperation;
                    account.Payload :=
                      {| account.SupportChainsResponse.Support := false |} |}, None).
Proof.
  assert (Hm : service.GetSupportChains <> service.ValidAddress) by discriminate.
  assert (Habs : chaindispatcher.registry (chaindispatcher.dispatcher sample.serving)
                   !! account.Chain (sample.rawRequest "Bitcoin") = None)
    by (vm_compute; reflexivity).
  split; [ exact Hm | ]. split; [ exact Habs | ].
  exact (proj1 (proj1 (requests_do_not_interfere (sample.info service.GetFee)
                         (sample.info service.GetSupportChains) service.GetFee
                         service.GetSupportChains (sample.rawRequest "Ethereum")
                         (sample.rawRequest "Bitcoin") sample.serving Hm) Habs)).
Defined.

(** ** What [New] builds *)

(** The construction function returns an adaptor exactly when both clients
    could be made, and the adaptor is the ethereum adaptor over them. *)
Lemma NewChainAdaptor_Ret_shape net conf lg a err lg' :
  ethereum.NewChainAdaptor net conf lg = (Ret (a, err), lg') ->
  (a = None /\ is_Some err)
  \/ (err = None
      /\ exists rpc0 rest client data w1 w2,
           config.RPCs (config.Eth (config.WalletNode_ conf)) = rpc0 :: rest
           /\ ethereum.DialEthClient net (config.RPCURL rpc0) = (Ret (client, None), w1)
           /\ ethereum.NewEthDataClient net
                (config.DataApiUrl (config.Eth (config.WalletNode_ conf)))
                (config.DataApiKey (config.Eth (config.WalletNode_ conf)))
                (config.TimeOut (config.Eth (config.WalletNode_ conf)))
              = (Ret (data, None), w2)
           /\ a = Some (ethereum.as_IChainAdaptor
                          {| ethereum.ethClient := client; ethereum.ethDataClient := data |})
           /\ lg' = lg ++ w1 ++ w2).
Proof.
  unfold ethereum.NewChainAdaptor.
  destruct (config.RPCs _) as [ | rpc0 rest ]; [ discriminate | ].
  unfold bind, call_ext.
  destruct (ethereum.DialEthClient net _) as [[[client [e | ]] | v | n] w1] eqn:Hdial;
    cbn [fst snd]; try discriminate.
  - intros [= <- <- <-]. left. eauto.
  - destruct (ethereum.NewEthDataClient net _ _ _) as [[[data [e | ]] | v | n] w2] eqn:Hdata;
      cbn [fst snd]; try discriminate; intros [= <- <- <-].
    + left. eauto.
    + right. split; [ reflexivity | ].
      exists rpc0, rest, client, data, w1, w2. rewrite <- app_assoc. eauto 10.
Qed.

Lemma NewChainAdaptor_Ret_dialled net conf lg a lg' :
  ethereum.NewChainAdaptor net conf lg = (Ret (a, None), lg') ->
  exists c, dialled net conf = Some c /\ a = Some (ethereum.as_IChainAdaptor c).
Proof.
  intros H. apply NewChainAdaptor_Ret_shape in H as [[_ [e [=]]] | [_ H]].
  destruct H as (rpc0 & rest & client & data & w1 & w2 & Hrpc & Hdial & Hdata & -> & _).
  eexists. split; [ | reflexivity ].
  unfold dialled. now rewrite Hrpc, Hdial, Hdata.
Qed.

(** One returning turn of the loop of [New]: for the ethereum chain the
    dialled adaptor is put under its name, for any other chain the
    dispatcher is as before. *)
Lemma New_loop_body_Ret_dialled net conf c d lg d' lg' :
  chaindispatcher.New_loop_body net conf c d lg = (Ret d', lg') ->
  (c = ethereum.ChainName
   /\ exists c0, dialled net conf = Some c0
        /\ chaindispatcher.registry d'
           = <[ ethereum.ChainName := Some (ethereum.as_IChainAdaptor c0) ]>
               (chaindispatcher.registry d))
  \/ (c <> ethereum.ChainName /\ d' = d).
Proof.
  unfold chaindispatcher.New_loop_body, chaindispatcher.chainAdaptorFactorMap.
  rewrite lookup_singleton. destruct (decide (ethereum.ChainName = c)) as [<- | Hne].
  - intros H. left. split; [ reflexivity | ].
    apply bind_Ret_inv in H as ([adaptor err] & lg1 & Hnew & H).
    destruct err as [e | ]; [ discriminate | ].
    apply NewChainAdaptor_Ret_dialled in Hnew as (c0 & Hc0 & ->).
    cbn in H. injection H as <- <-. now exists c0.
  - intros [= <- <-]. right. split; [ congruence | reflexivity ].
Qed.

Lemma New_loop_Ret_dialled net conf l : forall d lg d' lg',
  chaindispatcher.for_range l (chaindispatcher.New_loop_body net conf) d lg = (Ret d', lg') ->
  (ethereum.ChainName ∈ l ->
   exists c0, dialled net conf = Some c0
     /\ chaindispatcher.registry d'
        = <[ ethereum.ChainName := Some (ethereum.as_IChainAdaptor c0) ]>
            (chaindispatcher.registry d))
  /\ (ethereum.ChainName ∉ l -> d' = d).
Proof.
  induction l as [ | c l IH ]; intros d lg d' lg' H.
  - injection H as <- <-. split; [ | reflexivity ].
    intros Hin. now apply elem_of_nil in Hin.
  - cbn [chaindispatcher.for_range] in H.
    apply bind_Ret_inv in H as (d1 & lg1 & Hbody & Hrest).
    apply IH in Hrest as [Hin Hout].
    apply New_loop_body_Ret_dialled in Hbody as [(-> & c0 & Hc0 & Hreg) | (Hne & ->)].
    + split; [ | intros Hno; exfalso; apply Hno, list_elem_of_here ].
      intros _. exists c0. split; [ exact Hc0 | ].
      destruct (decide (ethereum.ChainName ∈ l)) as [Hl | Hl].
      * destruct (Hin Hl) as (c1 & Hc1 & ->). rewrite Hc0 in Hc1. injection Hc1 as <-.
        rewrite Hreg. apply insert_insert_eq.
      * now rewrite (Hout Hl).
    + split.
      * intros Hc. apply Hin. apply elem_of_cons in Hc as [Hc | Hc]; congruence.
      * intros Hc. apply Hout. intros Hl. apply Hc. now apply list_elem_of_further.
Qed.

(** X5.  The registry [New] returns has at most one entry.  When
    "Ethereum" is among the configured chains it is exactly the entry of
    that name, holding the ethereum adaptor over the two clients that were
    dialled, however often and wherever the name is listed; otherwise the
    registry is empty.  No nil adaptor is ever registered. *)
Theorem New_registry_is_ethereum_or_empty :
  forall (net : ethereum.Dialer) (conf : config.Config) (lg lg' : log.Log)
         (d : option chaindispatcher.ChainDispatcher) (err : option error),
    chaindispatcher.New net conf lg = (Ret (d, err), lg') ->
    exists disp,
      d = Some disp
      /\ (ethereum.ChainName ∈ config.Chains conf ->
          exists c, dialled net conf = Some c
            /\ chaindispatcher.registry disp
               = {[ ethereum.ChainName := Some (ethereum.as_IChainAdaptor c) ]})
      /\ (ethereum.ChainName ∉ config.Chains conf -> chaindispatcher.registry disp = ∅)
      /\ (forall k, chaindispatcher.registry disp !! k <> Some None).
Proof.
  intros net conf lg lg' d err H.
  apply New_Ret_inv in H as (disp & -> & -> & Hloop).
  apply New_loop_Ret_dialled in Hloop as [Hin Hout].
  exists disp. split; [ reflexivity | ].
  assert (Hyes : ethereum.ChainName ∈ config.Chains conf ->
                 exists c, dialled net conf = Some c
                   /\ chaindispatcher.registry disp
                      = {[ ethereum.ChainName := Some (ethereum.as_IChainAdaptor c) ]}).
  { intros Hc. destruct (Hin Hc) as (c & Hd & Hreg). exists c. split; [ exact Hd | ].
    rewrite Hreg. apply insert_empty. }
  assert (Hno : ethereum.ChainName ∉ config.Chains conf ->
                chaindispatcher.registry disp = ∅)
    by (intros Hc; now rewrite (Hout Hc)).
  split; [ exact Hyes | ]. split; [ exact Hno | ].
  intros k Hk. destruct (decide (ethereum.ChainName ∈ config.Chains conf)) as [Hc | Hc].
  - destruct (Hyes Hc) as (c & _ & Hreg). rewrite Hreg in Hk.
    rewrite lookup_singleton in Hk. destruct (decide _); discriminate.
  - rewrite (Hno Hc), lookup_empty in Hk. discriminate.
Qed.

Lemma New_registry_is_ethereum_or_empty_witness :
  chaindispatcher.New sample.net sample.conf []
  = (Ret (Some sample.built, None), [unsupported_chain_record "Bitcoin"])
  /\ chaindispatcher.registry sample.built !! "Bitcoin" <> Some None.
Proof.
  split; [ exact New_sample_run | ].
  destruct (New_registry_is_ethereum_or_empty sample.net sample.conf [] _ _ _ New_sample_run)
    as (disp & Hd & _ & _ & Hnil).
  injection Hd as <-. apply Hnil.
Defined.

(** ** When [New] does not return *)

Lemma setup_dispatcher_not_Ret net conf lg lg' :
  (forall v, chaindispatcher.New net conf lg = (Panicked v, lg') ->
             main.setup_dispatcher net conf lg = (Panicked v, lg'))
  /\ (forall n, chaindispatcher.New net conf lg = (Exited n, lg') ->
                main.setup_dispatcher net conf lg = (Exited n, lg')).
Proof.
  split; intros x H; rewrite setup_dispatcher_is_New; unfold bind; now rewrite H.
Qed.

(** X6.  When the dialer reports an error for the node connection or for
    the data-API client, and "Ethereum" is configured, [New] does not
    return and [main] gets no dispatcher: after one unsupported-chain
    record for each chain listed before "Ethereum" and the records of the
    dialer, a critical record with the chain and the error is written and
    the process ends with status 1.  Chains listed after "Ethereum" are
    never looked at. *)
Theorem construction_failure_ends_process :
  forall (net : ethereum.Dialer) (conf : config.Config) (lg lg1 : log.Log)
         (pre post : list string) (a : option chain.IChainAdaptor) (e : error),
    config.Chains conf = pre ++ ethereum.ChainName :: post ->
    ethereum.ChainName ∉ pre ->
    ethereum.NewChainAdaptor net conf (lg ++ map unsupported_chain_record pre)
    = (Ret (a, Some e), lg1) ->
    chaindispatcher.New net conf lg
    = (Exited 1, lg1 ++ [setup_failure_record ethereum.ChainName e])
    /\ main.setup_dispatcher net conf lg
       = (Exited 1, lg1 ++ [setup_failure_record ethereum.ChainName e]).
Proof.
  intros net conf lg lg1 pre post a e Hchains Hpre Hnew.
  pose proof (New_construction_failure_exits net conf lg pre post a e lg1 Hchains Hpre Hnew)
    as H.
  split; [ exact H | ]. now apply setup_dispatcher_not_Ret.
Qed.

Lemma construction_failure_ends_process_witness :
  config.Chains sample.conf = [] ++ (ethereum.ChainName :: [ "Bitcoin" ])
  /\ (ethereum.ChainName ∉ ([] : list string))
  /\ ethereum.NewChainAdaptor sample2.failingNet sample.conf []
     = (Ret (None, Some sample.timeout), [])
  /\ main.setup_dispatcher sample2.failingNet sample.conf []
     = (Exited 1, [setup_failure_record "Ethereum" sample.timeout]).
Proof.
  assert (H1 : config.Chains sample.conf = [] ++ (ethereum.ChainName :: [ "Bitcoin" ]))
    by reflexivity.
  assert (H2 : ethereum.ChainName ∉ ([] : list string)) by apply not_elem_of_nil.
  assert (H3 : ethereum.NewChainAdaptor sample2.failingNet sample.conf
                 ([] ++ map unsupported_chain_record [])
               = (Ret (None, Some sample.timeout), [])) by reflexivity.
  split; [ exact H1 | ]. split; [ exact H2 | ]. split; [ exact H3 | ].
  exact (proj2 (construction_failure_ends_process sample2.failingNet sample.conf [] []
                  [] [ "Bitcoin" ] None sample.timeout H1 H2 H3)).
Defined.

(** X7.  With "Ethereum" configured and an empty list of node endpoints,
    [New] panics on the index [RPCs[0]] before anything is dialled: the log
    holds only the unsupported-chain records of the chains listed before
    "Ethereum", and the panic goes through [main], which has no recover. *)
Theorem New_panics_without_endpoint :
  forall (net : ethereum.Dialer) (conf : config.Config) (lg : log.Log)
         (pre post : list string),
    config.Chains conf = pre ++ ethereum.ChainName :: post ->
    ethereum.ChainName ∉ pre ->
    config.RPCs (config.Eth (config.WalletNode_ conf)) = [] ->
    chaindispatcher.New net conf lg
    = (Panicked (PanicRuntime "index out of range [0] with length 0"),
       lg ++ map unsupported_chain_record pre)
    /\ main.setup_dispatcher net conf lg
       = (Panicked (PanicRuntime "index out of range [0] with length 0"),
          lg ++ map unsupported_chain_record pre).
Proof.
  intros net conf lg pre post Hchains Hpre Hrpc.
  assert (H : chaindispatcher.New net conf lg
              = (Panicked (PanicRuntime "index out of range [0] with length 0"),
                 lg ++ map unsupported_chain_record pre)).
  { unfold chaindispatcher.New. rewrite Hchains.
    erewrite bind_Panicked; [ reflexivity | ].
    rewrite for_range_app. erewrite bind_Ret by (now apply New_loop_unsupported).
    cbn [chaindispatcher.for_range]. erewrite bind_Panicked; [ reflexivity | ].
    unfold chaindispatcher.New_loop_body, chaindispatcher.chainAdaptorFactorMap.
    rewrite lookup_singleton_eq. erewrite bind_Panicked; [ reflexivity | ].
    unfold ethereum.NewChainAdaptor. now rewrite Hrpc. }
  split; [ exact H | ]. now apply setup_dispatcher_not_Ret.
Qed.

Lemma New_panics_without_endpoint_witness :
  config.Chains sample2.noRpcConf = [ "Bitcoin" ] ++ (ethereum.ChainName :: [])
  /\ (ethereum.ChainName ∉ [ "Bitcoin" ])
  /\ config.RPCs (config.Eth (config.WalletNode_ sample2.noRpcConf)) = []
  /\ chaindispatcher.New sample.net sample2.noRpcConf []
     = (Panicked (PanicRuntime "index out of range [0] with length 0"),
        [unsupported_chain_record "Bitcoin"]).
Proof.
  assert (H1 : config.Chains sample2.noRpcConf = [ "Bitcoin" ] ++ (ethereum.ChainName :: []))
    by reflexivity.
  assert (H2 : ethereum.ChainName ∉ [ "Bitcoin" ])
    by (apply not_elem_of_cons; split; [ discriminate | apply not_elem_of_nil ]).
  assert (H3 : config.RPCs (config.Eth (config.WalletNode_ sample2.noRpcConf)) = [])
    by reflexivity.
  split; [ exact H1 | ]. split; [ exact H2 | ]. split; [ exact H3 | ].
  exact (proj1 (New_panics_without_endpoint sample.net sample2.noRpcConf []
                  [ "Bitcoin" ] [] H1 H2 H3)).
Defined.

(** X8.  The construction function of the ethereum adaptor, when it
    returns, returns an adaptor exactly when it returns no error.  An error
    of the node connection is returned as it is and the data-API client is
    then never made: the log grows by the records of the first call only. *)
Theorem NewChainAdaptor_adaptor_or_error :
  forall (net : ethereum.Dialer) (conf : config.Config) (lg lg' : log.Log)
         (a : option chain.IChainAdaptor) (err : option error),
    ethereum.NewChainAdaptor net conf lg = (Ret (a, err), lg') ->
    (is_Some a <-> err = None)
    /\ (forall rpc0 rest client e w,
          config.RPCs (config.Eth (config.WalletNode_ conf)) = rpc0 :: rest ->
          ethereum.DialEthClient net (config.RPCURL rpc0) = (Ret (client, Some e), w) ->
          a = None /\ err = Some e /\ lg' = lg ++ w).
Proof.
  intros net conf lg lg' a err H. split.
  - apply NewChainAdaptor_Ret_shape in H as [[-> [e ->]] | [-> H]].
    + split; [ intros [? [=]] | discriminate ].
    + destruct H as (? & ? & ? & ? & ? & ? & _ & _ & _ & -> & _). split; eauto.
  - intros rpc0 rest client e w Hrpc Hdial. revert H.
    unfold ethereum.NewChainAdaptor. rewrite Hrpc. unfold bind, call_ext.
    rewrite Hdial. cbn. intros [= <- <- <-]. repeat split.
Qed.

Lemma NewChainAdaptor_adaptor_or_error_witness :
  ethereum.NewChainAdaptor sample2.failingNet sample.conf []
  = (Ret (None, Some sample.timeout), [])
  /\ (is_Some (None : option chain.IChainAdaptor) <-> Some sample.timeout = None).
Proof.
  assert (H : ethereum.NewChainAdaptor sample2.failingNet sample.conf []
              = (Ret (None, Some sample.timeout), [])) by reflexivity.
  split; [ exact H | ].
  exact (proj1 (NewChainAdaptor_adaptor_or_error sample2.failingNet sample.conf [] [] _ _ H)).
Defined.

(** ** From [New] to the answers of the dispatcher *)

Lemma New_registry_lookup net conf lg lg' disp :
  chaindispatcher.New net conf lg = (Ret (Some disp, None), lg') ->
  (forall k, k <> ethereum.ChainName -> chaindispatcher.registry disp !! k = None)
  /\ (ethereum.ChainName ∉ config.Chains conf ->
      chaindispatcher.registry disp !! ethereum.ChainName = None)
  /\ (ethereum.ChainName ∈ config.Chains conf ->
      exists c, dialled net conf = Some c
        /\ chaindispatcher.registry disp !! ethereum.ChainName
           = Some (Some (ethereum.as_IChainAdaptor c))).
Proof.
  intros H. apply New_Ret_inv in H as (disp' & [= <-] & _ & Hloop).
  apply New_loop_Ret_dialled in Hloop as [Hin Hout].
  split; [ | split ].
  - intros k Hk.
    destruct (decide (ethereum.ChainName ∈ config.Chains conf)) as [Hc | Hc].
    + destruct (Hin Hc) as (c & _ & ->). now rewrite lookup_insert_ne.
    + now rewrite (Hout Hc).
  - intros Hc. now rewrite (Hout Hc).
  - intros Hc. destruct (Hin Hc) as (c & Hd & ->). exists c. split; [ exact Hd | ].
    apply lookup_insert_eq.
Qed.

(** X9.  A dispatcher built by [New] serves the chain named "Ethereum" and
    no other, and names are compared as they are written: a request whose
    chain is anything else, "ethereum" in lower case included, is refused
    with status ERROR by every operation other than [ValidAddress], and no
    adaptor is invoked.  This does not depend on what was configured. *)
Theorem only_Ethereum_is_served :
  forall (net : ethereum.Dialer) (conf : config.Config) (lg lg' : log.Log)
         (disp : chaindispatcher.ChainDispatcher)
         (info : chaindispatcher.UnaryServerInfo) (m : service.Method)
         (req : service.Req m),
    chaindispatcher.New net conf lg = (Ret (Some disp, None), lg') ->
    m <> service.ValidAddress ->
    account.Chain req <> ethereum.ChainName ->
    chaindispatcher.handle info m req (serving_on disp lg')
    = (Ret (Some {| account.Code := common.ReturnCode_ERROR;
                    account.Msg := pre_handle_message m;
                    account.Payload := zero |}, None),
       serving_on disp
         (lg' ++ [ entry_record info (account.Chain req) req;
                   finish_record
                     (Some {| account.Code := common.ReturnCode_ERROR;
                              account.Msg := pre_handle_message m;
                              account.Payload := (zero : service.Payload m) |},
                      (None : option error)) ])).
Proof.
  intros net conf lg lg' disp info m req Hnew Hm Hchain.
  apply New_registry_lookup in Hnew as [Hother _].
  assert (Hserve :
    chaindispatcher.serve m req (entered info (account.Chain req) req (serving_on disp lg'))
    = (Ret (Some {| account.Code := common.ReturnCode_ERROR;
                    account.Msg := pre_handle_message m;
                    account.Payload := zero |}, None),
       entered info (account.Chain req) req (serving_on disp lg')))
    by (apply serve_absent; [ exact Hm | now apply Hother ]).
  unfold chaindispatcher.handle.
  rewrite (Interceptor_Ret_state (Rq_type := service.Req_GoType m) account.Chain req info
             (chaindispatcher.serve m)
             (serving_on disp lg') _ _ Hserve).
  unfold with_logs, entered, with_logs, serving_on. cbn. now rewrite <- app_assoc.
Qed.

Lemma New_lower_case_run :
  chaindispatcher.New sample.net sample2.lowerConf []
  = (Ret (Some {| chaindispatcher.registry := ∅ |}, None),
     [unsupported_chain_record "ethereum"]).
Proof. reflexivity. Qed.

Lemma only_Ethereum_is_served_witness :
  chaindispatcher.New sample.net sample2.lowerConf []
  = (Ret (Some {| chaindispatcher.registry := ∅ |}, None),
     [unsupported_chain_record "ethereum"])
  /\ service.GetSupportChains <> service.ValidAddress
  /\ account.Chain (sample.rawRequest "ethereum") <> ethereum.ChainName
  /\ fst (chaindispatcher.handle (sample.info service.GetSupportChains)
            service.GetSupportChains (sample.rawRequest "ethereum")
            (serving_on {| chaindispatcher.registry := ∅ |}
               [unsupported_chain_record "ethereum"]))
     = Ret (Some {| account.Code := common.ReturnCode_ERROR;
                    account.Msg := config.UnsupportedOperation;
                    account.Payload :=
                      {| account.SupportChainsResponse.Support := false |} |}, None).
Proof.
  assert (Hm : service.GetSupportChains <> service.ValidAddress) by discriminate.
  assert (Hc : account.Chain (sample.rawRequest "ethereum") <> ethereum.ChainName)
    by discriminate.
  split; [ exact New_lower_case_run | ]. split; [ exact Hm | ]. split; [ exact Hc | ].
  exact (f_equal fst
           (only_Ethereum_is_served sample.net sample2.lowerConf [] _ _
              (sample.info service.GetSupportChains) service.GetSupportChains
              (sample.rawRequest "ethereum") New_lower_case_run Hm Hc)).
Defined.

(** X10.  With "Ethereum" configured, a dispatcher built by [New] runs
    every operation other than [ValidAddress] on a request for "Ethereum"
    as the method of the ethereum adaptor over the two dialled clients,
    after one call on the probe.  In particular [GetSupportChains] for
    "Ethereum", served under the interceptor, answers SUCCESS with
    [Support] true. *)
Theorem built_dispatcher_serves_Ethereum :
  forall (net : ethereum.Dialer) (conf : config.Config) (lg lg' : log.Log)
         (disp : chaindispatcher.ChainDispatcher),
    chaindispatcher.New net conf lg = (Ret (Some disp, None), lg') ->
    ethereum.ChainName ∈ config.Chains conf ->
    exists c,
      dialled net conf = Some c
      /\ (forall (m : service.Method) (req : service.Req m) (s : chaindispatcher.State),
            m <> service.ValidAddress ->
            account.Chain req = ethereum.ChainName ->
            chaindispatcher.dispatcher s = disp ->
            chaindispatcher.serve m req s
            = chaindispatcher.liftLog
                (chain.method_of (ethereum.as_IChainAdaptor c) m req)
                (with_call s (call_of m req)))
      /\ (forall info (req : account.SupportChainsRequest) (s : chaindispatcher.State),
            account.Chain req = ethereum.ChainName ->
            chaindispatcher.dispatcher s = disp ->
            fst (chaindispatcher.handle info service.GetSupportChains req s)
            = Ret (Some {| account.Code := common.ReturnCode_SUCCESS;
                           account.Msg := "Support this chain";
                           account.Payload :=
                             {| account.SupportChainsResponse.Support := true |} |},
                   None)).
Proof.
  intros net conf lg lg' disp Hnew Hc.
  apply New_registry_lookup in Hnew as (_ & _ & Hyes).
  destruct (Hyes Hc) as (c & Hd & Hreg). exists c. split; [ exact Hd | ]. split.
  - intros m req s Hm Hchain <-. apply serve_registered; [ exact Hm | ].
    now rewrite Hchain.
  - intros info req s Hchain <-.
    assert (Hreg' :
      chaindispatcher.registry (chaindispatcher.dispatcher s) !! account.Chain req
      = Some (Some (ethereum.as_IChainAdaptor c))) by (now rewrite Hchain).
    refine (proj1 (handle_registered info service.GetSupportChains req s
                     (ethereum.as_IChainAdaptor c) _ _ _ _ _));
      [ discriminate | exact Hreg' | reflexivity ].
Qed.

Lemma built_dispatcher_serves_Ethereum_witness :
  chaindispatcher.New sample.net sample.conf []
  = (Ret (Some sample.built, None), [unsupported_chain_record "Bitcoin"])
  /\ (ethereum.ChainName ∈ config.Chains sample.conf)
  /\ fst (chaindispatcher.handle (sample.info service.GetSupportChains)
            service.GetSupportChains sample2.supportRequest
            (serving_on sample.built [unsupported_chain_record "Bitcoin"]))
     = Ret (Some sample2.supportResponse, None).
Proof.
  assert (Hc : ethereum.ChainName ∈ config.Chains sample.conf) by apply list_elem_of_here.
  split; [ exact New_sample_run | ]. split; [ exact Hc | ].
  destruct (built_dispatcher_serves_Ethereum sample.net sample.conf [] _ _
              New_sample_run Hc) as (c & _ & _ & Hsupport).
  exact (Hsupport (sample.info service.GetSupportChains) sample2.supportRequest
           (serving_on sample.built [unsupported_chain_record "Bitcoin"])
           eq_refl eq_refl).
Defined.

(** ** Hexadecimal text and back *)

Lemma nibble_cases (n : N) :
  (n < 16)%N ->
  n = 0%N \/ n = 1%N \/ n = 2%N \/ n = 3%N \/ n = 4%N \/ n = 5%N \/ n = 6%N \/ n = 7%N
  \/ n = 8%N \/ n = 9%N \/ n = 10%N \/ n = 11%N \/ n = 12%N \/ n = 13%N \/ n = 14%N
  \/ n = 15%N.
Proof. lia. Qed.

Lemma fromHexChar_digit n : (n < 16)%N -> hex.fromHexChar (hex.digit n) = Some n.
Proof.
  intros H. apply nibble_cases in H.
  repeat (destruct H as [-> | H]; [ reflexivity | ]). now subst.
Qed.

(** The checksum only changes the case of a digit, never its value. *)
Lemma fromHexChar_checksum_digit hash i n :
  (n < 16)%N -> hex.fromHexChar (ethcommon.checksum_digit hash i (hex.digit n)) = Some n.
Proof.
  intros H. unfold ethcommon.checksum_digit. cbv zeta.
  match goal with |- context [ (7 <? ?h)%N ] => generalize (7 <? h)%N end.
  intros b. apply nibble_cases in H.
  repeat (destruct H as [-> | H]; [ now destruct b | ]). subst. now destruct b.
Qed.

Lemma byte_of_nibbles b :
  hex.byte_of_N (Byte.to_N b / 16 * 16 + Byte.to_N b mod 16) = b.
Proof.
  rewrite N.mul_comm, <- N.div_mod'. unfold hex.byte_of_N.
  now rewrite Byte.of_to_N.
Qed.

Lemma byte_nibbles_lt16 b : (Byte.to_N b / 16 < 16)%N /\ (Byte.to_N b mod 16 < 16)%N.
Proof.
  pose proof (Byte.to_N_bounded b). split.
  - apply N.Div0.div_lt_upper_bound. lia.
  - apply N.mod_lt. discriminate.
Qed.

(** Decoding undoes encoding, whatever is done to the case of the digits. *)
Lemma DecodeString_recased bs : forall (g : nat -> ascii -> ascii),
  (forall i n, (n < 16)%N -> hex.fromHexChar (g i (hex.digit n)) = Some n) ->
  hex.DecodeString
    (string_of_list_ascii (imap g (list_ascii_of_string (hex.EncodeToString bs)))) = bs.
Proof.
  induction bs as [ | b bs IH ]; intros g Hg; [ reflexivity | ].
  destruct (byte_nibbles_lt16 b) as [Hhi Hlo].
  cbn [hex.EncodeToString list_ascii_of_string]. rewrite !imap_cons.
  cbn [string_of_list_ascii hex.DecodeString].
  rewrite (Hg 0 _ Hhi). unfold compose at 1. rewrite (Hg 1 _ Hlo).
  rewrite byte_of_nibbles. f_equal. apply IH.
  intros i n Hn. apply (Hg (S (S i)) n Hn).
Qed.

Lemma DecodeString_EncodeToString bs : hex.DecodeString (hex.EncodeToString bs) = bs.
Proof.
  induction bs as [ | b bs IH ]; [ reflexivity | ].
  destruct (byte_nibbles_lt16 b) as [Hhi Hlo].
  cbn [hex.EncodeToString hex.DecodeString].
  rewrite (fromHexChar_digit _ Hhi), (fromHexChar_digit _ Hlo), byte_of_nibbles.
  now rewrite IH.
Qed.

Lemma substring_all s : String.substring 0 (String.length s) s = s.
Proof.
  induction s as [ | a s IH ]; [ reflexivity | ].
  change (String a (String.substring 0 (String.length s) s) = String a s).
  now rewrite IH.
Qed.

(** [FromHex] of a text that is "0x" and then an even number of digits
    decodes the digits. *)
Lemma FromHex_0x t :
  Nat.odd (String.length t) = false ->
  ethcommon.FromHex ("0x" +:+ t) = hex.DecodeString t.
Proof.
  intros Hodd. unfold ethcommon.FromHex.
  change ("0x" +:+ t) with (String "0" (String "x" t)).
  change (ethcommon.has0xPrefix (String "0" (String "x" t))) with true.
  cbv iota.
  change (String.substring 2 (String.length (String "0" (String "x" t)) - 2)
            (String "0" (String "x" t)))
    with (String.substring 0 (String.length t - 0) t).
  rewrite Nat.sub_0_r, substring_all, Hodd. reflexivity.
Qed.

Lemma setBytes_length n b : length (ethcommon.setBytes n b) = n.
Proof.
  unfold ethcommon.setBytes.
  destruct (Nat.ltb_spec n (length b)) as [Hlt | Hge];
    rewrite length_app, length_replicate; [ rewrite length_drop | ]; lia.
Qed.

(** The text of an address and of a hash reads back as the same bytes. *)
Lemma HexToAddress_Address_String a :
  length a = 20 -> ethcommon.HexToAddress (ethcommon.Address_String a) = a.
Proof.
  intros Hlen. unfold ethcommon.HexToAddress, ethcommon.Address_String, ethcommon.checksumHex.
  rewrite FromHex_0x.
  - rewrite DecodeString_recased by (intros; now apply fromHexChar_checksum_digit).
    now apply setBytes_exact.
  - rewrite string_of_list_ascii_length, length_imap, list_ascii_of_string_length,
      EncodeToString_length. apply Nat.odd_even.
Qed.

Lemma HexToHash_Hash_String h :
  length h = 32 -> ethcommon.HexToHash (ethcommon.Hash_String h) = h.
Proof.
  intros Hlen. unfold ethcommon.HexToHash, ethcommon.Hash_String.
  rewrite FromHex_0x.
  - rewrite DecodeString_EncodeToString. now apply setBytes_exact.
  - rewrite EncodeToString_length. apply Nat.odd_even.
Qed.

(** ** [ConvertAddress] on any key *)

(** X11.  [ConvertAddress] checks neither the length of the key nor its
    format byte: for every key that is not empty it returns SUCCESS with a
    nil error and writes nothing.  The address is a text of 42 characters
    that reads back, by [HexToAddress], as the last 20 bytes of the
    Keccak-256 hash of the key without its first byte; the first byte and
    the adaptor's clients have no part in the result. *)
Theorem ConvertAddress_any_key :
  forall (c : ethereum.ChainAdaptor) (req : account.ConvertAddressRequest) (lg : log.Log),
    let PublicKey := account.ConvertAddressRequest.PublicKey (account.Params req) in
    PublicKey <> [] ->
    exists address,
      ethereum.ConvertAddress c req lg
      = (Ret (Some {| account.Code := common.ReturnCode_SUCCESS;
                      account.Msg := "convert address successs";
                      account.Payload :=
                        {| account.ConvertAddressResponse.Address := address |} |},
               None), lg)
      /\ String.length address = 42
      /\ ethcommon.HexToAddress address
         = last_bytes 20 (crypto.Keccak256 (drop 1 PublicKey))
      /\ (forall (c' : ethereum.ChainAdaptor) (req' : account.ConvertAddressRequest),
            account.ConvertAddressRequest.PublicKey (account.Params req') <> [] ->
            drop 1 (account.ConvertAddressRequest.PublicKey (account.Params req'))
            = drop 1 PublicKey ->
            ethereum.ConvertAddress c' req' lg = ethereum.ConvertAddress c req lg).
Proof.
  intros c req lg PublicKey Hne.
  exists (ethcommon.Address_String
            (ethcommon.BytesToAddress (drop 12 (crypto.Keccak256 (drop 1 PublicKey))))).
  assert (Hrun : forall c0 (req0 : account.ConvertAddressRequest),
    account.ConvertAddressRequest.PublicKey (account.Params req0) <> [] ->
    ethereum.ConvertAddress c0 req0 lg
    = (Ret (Some {| account.Code := common.ReturnCode_SUCCESS;
                    account.Msg := "convert address successs";
                    account.Payload :=
                      {| account.ConvertAddressResponse.Address :=
                           ethcommon.Address_String
                             (ethcommon.BytesToAddress
                                (drop 12 (crypto.Keccak256
                                   (drop 1 (account.ConvertAddressRequest.PublicKey
                                              (account.Params req0)))))) |} |},
             None), lg)).
  { intros c0 req0 H0. unfold ethereum.ConvertAddress.
    destruct (account.ConvertAddressRequest.PublicKey (account.Params req0));
      [ congruence | reflexivity ]. }
  split; [ now apply Hrun | ]. split; [ | split ].
  - unfold ethcommon.Address_String. rewrite checksumHex_length.
    unfold ethcommon.BytesToAddress. now rewrite setBytes_length.
  - rewrite HexToAddress_Address_String
      by (unfold ethcommon.BytesToAddress; apply setBytes_length).
    apply BytesToAddress_of_hash, Keccak256_length.
  - intros c' req' Hne' Htail. rewrite !Hrun by assumption. fold PublicKey.
    now rewrite Htail.
Qed.

Lemma ConvertAddress_any_key_witness :
  [ x02 ] <> ([] : list byte)
  /\ exists address,
       ethereum.ConvertAddress sample.adaptor
         {| account.Chain := "Ethereum";
            account.Params := {| account.ConvertAddressRequest.PublicKey := [ x02 ] |} |} []
       = (Ret (Some {| account.Code := common.ReturnCode_SUCCESS;
                       account.Msg := "convert address successs";
                       account.Payload :=
                         {| account.ConvertAddressResponse.Address := address |} |},
                None), [])
       /\ String.length address = 42.
Proof.
  assert (Hne : [ x02 ] <> ([] : list byte)) by discriminate.
  split; [ exact Hne | ].
  destruct (ConvertAddress_any_key sample.adaptor
              {| account.Chain := "Ethereum";
                 account.Params := {| account.ConvertAddressRequest.PublicKey := [ x02 ] |} |}
              [] Hne) as (address & Hrun & Hlen & _).
  exists address. split; [ exact Hrun | exact Hlen ].
Defined.

(** X12.  On an empty public key [ConvertAddress] panics on the slice
    [PublicKey[1:]] and writes nothing.  Served by the dispatcher under the
    interceptor for a chain registered with the ethereum adaptor, the
    adaptor is invoked once and the caller gets a nil response with an
    Internal error that carries the run-time fault. *)
Theorem ConvertAddress_empty_key :
  forall (info : chaindispatcher.UnaryServerInfo) (c : ethereum.ChainAdaptor)
         (req : account.ConvertAddressRequest) (s : chaindispatcher.State) (lg : log.Log),
    account.ConvertAddressRequest.PublicKey (account.Params req) = [] ->
    chaindispatcher.registry (chaindispatcher.dispatcher s) !! account.Chain req
    = Some (Some (ethereum.as_IChainAdaptor c)) ->
    ethereum.ConvertAddress c req lg
    = (Panicked (PanicRuntime "slice bounds out of range [1:0]"), lg)
    /\ chaindispatcher.handle info service.ConvertAddress req s
       = (Ret (None,
               Some (statusError codes.Internal
                       "Panic err: runtime error: slice bounds out of range [1:0]")),
          with_logs (with_call (entered info (account.Chain req) req s)
                       (call_of service.ConvertAddress req))
            (panic_records (PanicRuntime "slice bounds out of range [1:0]"))).
Proof.
  intros info c req s lg Hpk Hreg.
  assert (Hrun : forall l, ethereum.ConvertAddress c req l
                           = (Panicked (PanicRuntime "slice bounds out of range [1:0]"), l))
    by (intros l; unfold ethereum.ConvertAddress; now rewrite Hpk).
  split; [ apply Hrun | ].
  pose proof (serve_registered service.ConvertAddress req
                (entered info (account.Chain req) req s)
                (ethereum.as_IChainAdaptor c)) as Hserve.
  unfold chaindispatcher.liftLog in Hserve. cbn [chain.method_of chain.ConvertAddress
    ethereum.as_IChainAdaptor] in Hserve. rewrite Hrun in Hserve.
  unfold chaindispatcher.handle.
  exact (Interceptor_Panicked (Rq_type := service.Req_GoType service.ConvertAddress)
          account.Chain req info
           (chaindispatcher.serve service.ConvertAddress) s _ _
           (Hserve ltac:(discriminate) Hreg)).
Qed.

Lemma ConvertAddress_empty_key_witness :
  account.ConvertAddressRequest.PublicKey (account.Params sample2.emptyKeyRequest) = []
  /\ chaindispatcher.registry (chaindispatcher.dispatcher sample.serving)
       !! account.Chain sample2.emptyKeyRequest
     = Some (Some (ethereum.as_IChainAdaptor sample.adaptor))
  /\ fst (chaindispatcher.handle (sample.info service.ConvertAddress) service.ConvertAddress
            sample2.emptyKeyRequest sample.serving)
     = Ret (None,
            Some (statusError codes.Internal
                    "Panic err: runtime error: slice bounds out of range [1:0]")).
Proof.
  split; [ reflexivity | ]. split; [ exact sample_serving_Ethereum | ].
  exact (f_equal fst
           (proj2 (ConvertAddress_empty_key (sample.info service.ConvertAddress)
                     sample.adaptor sample2.emptyKeyRequest sample.serving []
                     eq_refl sample_serving_Ethereum))).
Defined.

(** ** The block-header operations *)

Lemma Hash_String_not_empty h : ethcommon.Hash_String h <> "".
Proof. unfold ethcommon.Hash_String. discriminate. Qed.

(** X13.  [GetBlockHeaderByHash] takes any text as a hash and never
    rejects one: there is a hash of 32 bytes, fixed by the text alone, such
    that what the node answers for this hash decides the result, whatever
    it would answer for another.  It is the zero hash for the empty text,
    and the hash itself for the text of a 32-byte hash as
    [GetBlockByNumber] writes one.  When the node reports an error for it,
    the response is ERROR with a zero-valued payload and a nil error, and
    one error record follows the node's records in the log; when the node
    answers with a header that has its four pointer fields, the response is
    SUCCESS and carries that header. *)
Theorem GetBlockHeaderByHash_hash_asked :
  forall req : account.BlockHeaderHashRequest,
    exists h : ethcommon.Hash,
      length h = 32
      /\ (account.BlockHeaderHashRequest.Hash (account.Params req) = "" ->
          h = replicate 32 x00)
      /\ (forall h', length h' = 32 ->
                     account.BlockHeaderHashRequest.Hash (account.Params req)
                     = ethcommon.Hash_String h' ->
                     h = h')
      /\ (forall (c : ethereum.ChainAdaptor) (client : ethereum.EthClient) (lg : log.Log)
                 blockInfo e w,
            ethereum.ethClient c = Some client ->
            ethereum.BlockHeaderByHash client h = (Ret (blockInfo, Some e), w) ->
            ethereum.GetBlockHeaderByHash c req lg
            = (Ret (Some {| account.Code := common.ReturnCode_ERROR;
                            account.Msg := "get latest block header fail";
                            account.Payload := zero |}, None),
               lg ++ w ++ [ {| log.level := log.LvlError;
                               log.message := log.Text "get latest block header fail";
                               log.ctx := [log.VStr "err"; log.VErr (Some e)] |} ]))
      /\ (forall (c : ethereum.ChainAdaptor) (client : ethereum.EthClient) (lg : log.Log)
                 hd parentBeaconRoot withdrawalsHash blobGasUsed excessBlobGas w,
            ethereum.ethClient c = Some client ->
            ethereum.BlockHeaderByHash client h = (Ret (Some hd, None), w) ->
            types.ParentBeaconRoot hd = Some parentBeaconRoot ->
            types.WithdrawalsHash hd = Some withdrawalsHash ->
            types.BlobGasUsed hd = Some blobGasUsed ->
            types.ExcessBlobGas hd = Some excessBlobGas ->
            ethereum.GetBlockHeaderByHash c req lg
            = (Ret (Some (header_success
                            (header_message hd parentBeaconRoot withdrawalsHash
                               blobGasUsed excessBlobGas)), None),
               lg ++ w)).
Proof.
  intros req.
  exists (header_hash_asked req).
  split; [ | split; [ | split; [ | split ] ] ].
  - unfold header_hash_asked. cbv zeta. destruct (bool_decide _).
    + apply length_replicate.
    + unfold ethcommon.HexToHash, ethcommon.BytesToHash. apply setBytes_length.
  - unfold header_hash_asked. cbv zeta. intros ->. reflexivity.
  - unfold header_hash_asked. cbv zeta. intros h' Hlen ->.
    rewrite bool_decide_eq_false_2 by apply Hash_String_not_empty.
    now apply HexToHash_Hash_String.
  - intros c client lg blockInfo e w Hc Hcall.
    assert (Hnode : call_ext (ethereum.BlockHeaderByHash client (header_hash_asked req)) lg
                    = (Ret (blockInfo, Some e), lg ++ w))
      by (unfold call_ext; now rewrite Hcall).
    unfold ethereum.GetBlockHeaderByHash. cbv zeta. rewrite Hc. cbn [deref].
    rewrite bind_ret_l. erewrite bind_Ret by exact Hnode.
    cbn. unfold ret. now rewrite <- app_assoc.
  - intros c client lg hd pbr wh bgu ebg w Hc Hcall H1 H2 H3 H4.
    assert (Hnode : call_ext (ethereum.BlockHeaderByHash client (header_hash_asked req)) lg
                    = (Ret (Some hd, None), lg ++ w))
      by (unfold call_ext; now rewrite Hcall).
    unfold ethereum.GetBlockHeaderByHash. cbv zeta. rewrite Hc. cbn [deref].
    rewrite bind_ret_l. erewrite bind_Ret by exact Hnode.
    cbn [deref]. rewrite bind_ret_l.
    unfold ethereum.blockHeader_of. rewrite H1, H2, H3, H4. reflexivity.
Qed.

Lemma GetBlockHeaderByHash_hash_asked_witness :
  ethereum.ethClient sample2.pickyAdaptor = Some sample2.pickyNode
  /\ ethereum.BlockHeaderByHash sample2.pickyNode (replicate 32 x01)
     = (Ret (Some sample2.newHeader, None), [])
  /\ ethereum.GetBlockHeaderByHash sample2.pickyAdaptor sample2.emptyHashRequest []
     = (Ret (Some {| account.Code := common.ReturnCode_ERROR;
                     account.Msg := "get latest block header fail";
                     account.Payload := zero |}, None),
        [ {| log.level := log.LvlError;
             log.message := log.Text "get latest block header fail";
             log.ctx := [log.VStr "err"; log.VErr (Some sample.timeout)] |} ]).
Proof.
  split; [ reflexivity | ]. split; [ reflexivity | ].
  destruct (GetBlockHeaderByHash_hash_asked sample2.emptyHashRequest)
    as (h & _ & Hzero & _ & Herror & _).
  apply (Herror sample2.pickyAdaptor sample2.pickyNode [] None sample.timeout []);
    [ reflexivity | ].
  rewrite (Hzero eq_refl). reflexivity.
Defined.

(** X14.  [GetBlockHeaderByNumber] cannot be asked for block 0: at height 0
    it asks the node with a nil number, which stands for the latest block,
    and what the node would answer for block 0 has no part in the result.
    Every other height, negative ones included, is passed to the node as it
    is.  When the node reports an error for the number asked, the response
    is ERROR with a zero-valued payload and a nil error, and one error
    record follows the node's records in the log; when the node answers
    with a header that has its four pointer fields, the response is SUCCESS
    and carries that header. *)
Theorem GetBlockHeaderByNumber_number_asked :
  forall req : account.BlockHeaderNumberRequest,
    exists number : big.Int,
      number <> Some 0%Z
      /\ (account.BlockHeaderNumberRequest.Height (account.Params req) = 0%Z ->
          number = None)
      /\ (account.BlockHeaderNumberRequest.Height (account.Params req) <> 0%Z ->
          number = Some (account.BlockHeaderNumberRequest.Height (account.Params req)))
      /\ (forall (c : ethereum.ChainAdaptor) (client : ethereum.EthClient) (lg : log.Log)
                 blockInfo e w,
            ethereum.ethClient c = Some client ->
            ethereum.BlockHeaderByNumber client number = (Ret (blockInfo, Some e), w) ->
            ethereum.GetBlockHeaderByNumber c req lg
            = (Ret (Some {| account.Code := common.ReturnCode_ERROR;
                            account.Msg := "get lates block number fail";
                            account.Payload := zero |}, None),
               lg ++ w ++ [ {| log.level := log.LvlError;
                               log.message := log.Text "get latest block header fail !";
                               log.ctx := [log.VStr "err:"; log.VErr (Some e)] |} ]))
      /\ (forall (c : ethereum.ChainAdaptor) (client : ethereum.EthClient) (lg : log.Log)
                 hd parentBeaconRoot withdrawalsHash blobGasUsed excessBlobGas w,
            ethereum.ethClient c = Some client ->
            ethereum.BlockHeaderByNumber client number = (Ret (Some hd, None), w) ->
            types.ParentBeaconRoot hd = Some parentBeaconRoot ->
            types.WithdrawalsHash hd = Some withdrawalsHash ->
            types.BlobGasUsed hd = Some blobGasUsed ->
            types.ExcessBlobGas hd = Some excessBlobGas ->
            ethereum.GetBlockHeaderByNumber c req lg
            = (Ret (Some (header_success
                            (header_message hd parentBeaconRoot withdrawalsHash
                               blobGasUsed excessBlobGas)), None),
               lg ++ w)).
Proof.
  intros req.
  exists (header_number_asked req).
  split; [ | split; [ | split; [ | split ] ] ].
  - unfold header_number_asked. cbv zeta.
    destruct (Z.eqb_spec (account.BlockHeaderNumberRequest.Height (account.Params req)) 0);
      [ discriminate | unfold big.NewInt; congruence ].
  - unfold header_number_asked. cbv zeta. intros ->. reflexivity.
  - unfold header_number_asked. cbv zeta. intros Hne.
    now rewrite (proj2 (Z.eqb_neq _ _) Hne).
  - intros c client lg blockInfo e w Hc Hcall.
    assert (Hnode : call_ext (ethereum.BlockHeaderByNumber client (header_number_asked req)) lg
                    = (Ret (blockInfo, Some e), lg ++ w))
      by (unfold call_ext; now rewrite Hcall).
    unfold ethereum.GetBlockHeaderByNumber. cbv zeta. rewrite Hc. cbn [deref].
    rewrite bind_ret_l. erewrite bind_Ret by exact Hnode.
    cbn. unfold ret. now rewrite <- app_assoc.
  - intros c client lg hd pbr wh bgu ebg w Hc Hcall H1 H2 H3 H4.
    assert (Hnode : call_ext (ethereum.BlockHeaderByNumber client (header_number_asked req)) lg
                    = (Ret (Some hd, None), lg ++ w))
      by (unfold call_ext; now rewrite Hcall).
    unfold ethereum.GetBlockHeaderByNumber. cbv zeta. rewrite Hc. cbn [deref].
    rewrite bind_ret_l. erewrite bind_Ret by exact Hnode.
    cbn [deref]. rewrite bind_ret_l.
    unfold ethereum.blockHeader_of. rewrite H1, H2, H3, H4. reflexivity.
Qed.

Lemma GetBlockHeaderByNumber_number_asked_witness :
  ethereum.ethClient sample2.pickyAdaptor = Some sample2.pickyNode
  /\ ethereum.BlockHeaderByNumber sample2.pickyNode (Some 0%Z)
     = (Ret (Some sample2.newHeader, None), [])
  /\ ethereum.GetBlockHeaderByNumber sample2.pickyAdaptor sample2.latestRequest []
     = (Ret (Some {| account.Code := common.ReturnCode_ERROR;
                     account.Msg := "get lates block number fail";
                     account.Payload := zero |}, None),
        [ {| log.level := log.LvlError;
             log.message := log.Text "get latest block header fail !";
             log.ctx := [log.VStr "err:"; log.VErr (Some sample.timeout)] |} ]).
Proof.
  split; [ reflexivity | ]. split; [ reflexivity | ].
  destruct (GetBlockHeaderByNumber_number_asked sample2.latestRequest)
    as (number & _ & Hlatest & _ & Herror & _).
  apply (Herror sample2.pickyAdaptor sample2.pickyNode [] None sample.timeout []);
    [ reflexivity | ].
  rewrite (Hlatest eq_refl). reflexivity.
Defined.

Lemma blockHeader_of_cases h lg :
  (has_pointer_fields h = true ->
   exists hdr, ethereum.blockHeader_of h lg = (Ret hdr, lg)
     /\ Some (account.BlockHeader.BlobGasUsed hdr) = types.BlobGasUsed h
     /\ Some (account.BlockHeader.ExcessBlobGas hdr) = types.ExcessBlobGas h
     /\ account.BlockHeader.Number hdr = big.String (types.Number h)
     /\ account.BlockHeader.ParentHash hdr = ethcommon.Hash_String (types.ParentHash h))
  /\ (has_pointer_fields h = false ->
      ethereum.blockHeader_of h lg = (Panicked nil_dereference, lg)).
Proof.
  unfold has_pointer_fields, ethereum.blockHeader_of.
  destruct (types.ParentBeaconRoot h), (types.WithdrawalsHash h),
    (types.BlobGasUsed h), (types.ExcessBlobGas h);
    (split; [ intros H; try discriminate | intros H; try discriminate; reflexivity ]).
  eexists. split; [ reflexivity | ]. repeat split.
Qed.

(** X15.  When the node answers a header operation with a header and no
    error, the operation returns a response only if the header has all
    four fields that are read through a pointer (the parent beacon root,
    the withdrawals hash, the blob gas used and the excess blob gas); the
    response is then SUCCESS and carries the header.  For a header that
    lacks one of them, as those of older blocks do, the operation panics
    with a nil dereference.  In both cases only the node's records are
    added to the log. *)
Theorem header_operations_need_pointer_fields :
  forall (c : ethereum.ChainAdaptor) (client : ethereum.EthClient) (h : types.Header)
         (w : log.Log) (lg : log.Log),
    ethereum.ethClient c = Some client ->
    (forall req : account.BlockHeaderNumberRequest,
        ethereum.BlockHeaderByNumber client (header_number_asked req)
        = (Ret (Some h, None), w) ->
        (has_pointer_fields h = true ->
         exists hdr,
           ethereum.GetBlockHeaderByNumber c req lg
           = (Ret (Some (header_success hdr), None), lg ++ w)
           /\ ethereum.blockHeader_of h (lg ++ w) = (Ret hdr, lg ++ w))
        /\ (has_pointer_fields h = false ->
            ethereum.GetBlockHeaderByNumber c req lg
            = (Panicked nil_dereference, lg ++ w)))
    /\ (forall req : account.BlockHeaderHashRequest,
           ethereum.BlockHeaderByHash client (header_hash_asked req)
           = (Ret (Some h, None), w) ->
           (has_pointer_fields h = true ->
            exists hdr,
              ethereum.GetBlockHeaderByHash c req lg
              = (Ret (Some (header_success hdr), None), lg ++ w)
              /\ ethereum.blockHeader_of h (lg ++ w) = (Ret hdr, lg ++ w))
           /\ (has_pointer_fields h = false ->
               ethereum.GetBlockHeaderByHash c req lg
               = (Panicked nil_dereference, lg ++ w))).
Proof.
  intros c client h w lg Hc. split; intros req Hcall.
  - unfold header_number_asked in Hcall. cbv zeta in Hcall.
    assert (Hnode : call_ext (ethereum.BlockHeaderByNumber client _) lg
                    = (Ret (Some h, None), lg ++ w))
      by (unfold call_ext; now rewrite Hcall).
    unfold ethereum.GetBlockHeaderByNumber. cbv zeta. rewrite Hc. cbn [deref].
    rewrite bind_ret_l. erewrite bind_Ret by exact Hnode.
    cbn [deref]. rewrite bind_ret_l.
    destruct (blockHeader_of_cases h (lg ++ w)) as [Hyes Hno]. split.
    + intros Hp. destruct (Hyes Hp) as (hdr & Hhdr & _). exists hdr.
      split; [ | exact Hhdr ]. now erewrite bind_Ret by exact Hhdr.
    + intros Hp. now erewrite bind_Panicked by exact (Hno Hp).
  - unfold header_hash_asked in Hcall. cbv zeta in Hcall.
    assert (Hnode : call_ext (ethereum.BlockHeaderByHash client _) lg
                    = (Ret (Some h, None), lg ++ w))
      by (unfold call_ext; now rewrite Hcall).
    unfold ethereum.GetBlockHeaderByHash. cbv zeta. rewrite Hc. cbn [deref].
    rewrite bind_ret_l. erewrite bind_Ret by exact Hnode.
    cbn [deref]. rewrite bind_ret_l.
    destruct (blockHeader_of_cases h (lg ++ w)) as [Hyes Hno]. split.
    + intros Hp. destruct (Hyes Hp) as (hdr & Hhdr & _). exists hdr.
      split; [ | exact Hhdr ]. now erewrite bind_Ret by exact Hhdr.
    + intros Hp. now erewrite bind_Panicked by exact (Hno Hp).
Qed.

Lemma header_operations_need_pointer_fields_witness :
  ethereum.ethClient sample2.oldAdaptor = Some sample2.oldNode
  /\ has_pointer_fields sample2.oldHeader = false
  /\ ethereum.GetBlockHeaderByNumber sample2.oldAdaptor sample2.headerRequest []
     = (Panicked nil_dereference, []).
Proof.
  split; [ reflexivity | ]. split; [ reflexivity | ].
  exact (proj2 (proj1 (header_operations_need_pointer_fields sample2.oldAdaptor
                         sample2.oldNode sample2.oldHeader [] [] eq_refl)
                  sample2.headerRequest eq_refl) eq_refl).
Defined.

(** ** [GetAccount] when the nonce cannot be read *)

(** X16.  When the node reports an error for the nonce, [GetAccount]
    returns at once: the response is ERROR with a zero-valued payload and a
    nil error, one error record follows the node's records in the log, and
    the data API is never asked for the balance, so the result is the same
    whatever the data-API client is, a nil one included. *)
Theorem GetAccount_nonce_failure :
  forall (c : ethereum.ChainAdaptor) (client : ethereum.EthClient)
         (req : account.AccountRequest) (lg w : log.Log) (nonce : N) (e : error),
    ethereum.ethClient c = Some client ->
    ethereum.TxCountByAddress client
      (ethcommon.HexToAddress (account.AccountRequest.Address (account.Params req)))
    = (Ret (nonce, Some e), w) ->
    ethereum.GetAccount c req lg
    = (Ret (Some {| account.Code := common.ReturnCode_ERROR;
                    account.Msg := "get nonce by address fail";
                    account.Payload := zero |}, None),
       lg ++ w ++ [nonce_failure_record e])
    /\ (forall data,
          ethereum.GetAccount
            {| ethereum.ethClient := Some client; ethereum.ethDataClient := data |} req lg
          = ethereum.GetAccount c req lg).
Proof.
  intros c client req lg w nonce e Hc Hcall.
  assert (Hnode : call_ext (ethereum.TxCountByAddress client
                              (ethcommon.HexToAddress
                                 (account.AccountRequest.Address (account.Params req)))) lg
                  = (Ret (nonce, Some e), lg ++ w))
    by (unfold call_ext; now rewrite Hcall).
  assert (Hrun : forall c0, ethereum.ethClient c0 = Some client ->
    ethereum.GetAccount c0 req lg
    = (Ret (Some {| account.Code := common.ReturnCode_ERROR;
                    account.Msg := "get nonce by address fail";
                    account.Payload := zero |}, None),
       lg ++ w ++ [nonce_failure_record e])).
  { intros c0 Hc0. unfold ethereum.GetAccount. cbv zeta. rewrite Hc0. cbn [deref].
    rewrite bind_ret_l. erewrite bind_Ret by exact Hnode.
    cbn. unfold ret. now rewrite <- app_assoc. }
  split; [ now apply Hrun | ].
  intros data. now rewrite !Hrun.
Qed.

Lemma GetAccount_nonce_failure_witness :
  ethereum.ethClient sample2.oldAdaptor = Some sample2.oldNode
  /\ ethereum.GetAccount sample2.oldAdaptor sample.accountRequest []
     = (Ret (Some {| account.Code := common.ReturnCode_ERROR;
                     account.Msg := "get nonce by address fail";
                     account.Payload := zero |}, None),
        [nonce_failure_record sample.timeout]).
Proof.
  split; [ reflexivity | ].
  exact (proj1 (GetAccount_nonce_failure sample2.oldAdaptor sample2.oldNode
                  sample.accountRequest [] [] 0%N sample.timeout eq_refl eq_refl)).
Defined.

(** ** The method name the interceptor logs *)

Lemma lastIndexByte_from_absent sep s : forall i found,
  sep ∉ list_ascii_of_string s ->
  strings.lastIndexByte_from sep s i found = found.
Proof.
  induction s as [ | a s IH ]; intros i found Hs; [ reflexivity | ].
  cbn [list_ascii_of_string] in Hs. apply not_elem_of_cons in Hs as [Hne Hs].
  cbn [strings.lastIndexByte_from].
  rewrite (proj2 (Ascii.eqb_neq a sep)) by congruence. now apply IH.
Qed.

Lemma lastIndexByte_from_last sep name p : forall i found,
  sep ∉ list_ascii_of_string name ->
  strings.lastIndexByte_from sep (p +:+ String sep name) i found
  = (i + Z.of_nat (String.length p))%Z.
Proof.
  induction p as [ | a p IH ]; intros i found Hname.
  - change ("" +:+ String sep name) with (String sep name).
    cbn [strings.lastIndexByte_from String.length]. rewrite Ascii.eqb_refl.
    rewrite lastIndexByte_from_absent by exact Hname. lia.
  - change (String a p +:+ String sep name) with (String a (p +:+ String sep name)).
    cbn [strings.lastIndexByte_from String.length]. rewrite IH by exact Hname. lia.
Qed.

Lemma substring_skip p t : forall m,
  String.substring (String.length p) m (p +:+ t) = String.substring 0 m t.
Proof.
  induction p as [ | a p IH ]; intros m; [ reflexivity | ].
  change (String.substring (String.length p) m (p +:+ t) = String.substring 0 m t).
  apply IH.
Qed.

Lemma slice_after_separator sep name p :
  strings.slice_from (p +:+ String sep name) (Z.of_nat (String.length p) + 1) = name.
Proof.
  unfold strings.slice_from.
  replace (Z.to_nat (Z.of_nat (String.length p) + 1)) with (String.length (p +:+ String sep ""))
    by (rewrite append_length; cbn [String.length]; lia).
  replace (p +:+ String sep name) with ((p +:+ String sep "") +:+ name) at 2.
  - rewrite substring_skip, !append_length. cbn [String.length].
    replace (String.length p + S (String.length name) - (String.length p + 1))
      with (String.length name) by lia.
    apply substring_all.
  - clear. induction p as [ | a p IH ]; [ reflexivity | ].
    change (String a ((p +:+ String sep "") +:+ name) = String a (p +:+ String sep name)).
    now rewrite IH.
Qed.

Lemma entry_record_message {Rq} (info : chaindispatcher.UnaryServerInfo) chainName
    (req : Rq) path name :
  "/"%char ∉ list_ascii_of_string name ->
  chaindispatcher.FullMethod info = path +:+ String "/" name
  \/ chaindispatcher.FullMethod info = name ->
  entry_record info chainName req
  = {| log.level := log.LvlInfo;
       log.message := log.Text name;
       log.ctx := [log.VStr "chain"; log.VStr chainName;
                   log.VStr "req"; log.VDyn Rq req] |}.
Proof.
  intros Hname Hfull. unfold entry_record. f_equal. f_equal.
  destruct Hfull as [-> | ->].
  - unfold strings.LastIndex. rewrite lastIndexByte_from_last by exact Hname.
    rewrite Z.add_0_l. apply slice_after_separator.
  - unfold strings.LastIndex. rewrite lastIndexByte_from_absent by exact Hname.
    unfold strings.slice_from. cbn [Z.add Z.opp Z.to_nat Z.pos_sub].
    rewrite Nat.sub_0_r. apply substring_all.
Qed.

(** X17.  The interceptor starts the handler with exactly one record added
    to the log, of level Info, whose message is the part of the full method
    name after its last "/": the method name for a path of the form
    "/service/method", and the whole text when it has no "/" at all.  The
    record carries the chain name and the request.  How the handler ends
    from there decides what the interceptor returns. *)
Theorem logged_method_name :
  forall (Rq Rs : Type) {Rq_type : GoType Rq} (GetChain : Rq -> string) (req : Rq)
         (info : chaindispatcher.UnaryServerInfo)
         (handler : Rq -> M chaindispatcher.State (Reply Rs))
         (s s1 : chaindispatcher.State) (o : outcome (Reply Rs)) (path name : string),
    "/"%char ∉ list_ascii_of_string name ->
    chaindispatcher.FullMethod info = path +:+ String "/" name
    \/ chaindispatcher.FullMethod info = name ->
    handler req
      {| chaindispatcher.dispatcher := chaindispatcher.dispatcher s;
         chaindispatcher.calls := chaindispatcher.calls s;
         chaindispatcher.logs :=
           chaindispatcher.logs s
           ++ [ {| log.level := log.LvlInfo;
                   log.message := log.Text name;
                   log.ctx := [log.VStr "chain"; log.VStr (GetChain req);
                               log.VStr "req"; log.VDyn Rq req] |} ] |}
    = (o, s1) ->
    chaindispatcher.Interceptor (Some GetChain) req info handler s
    = match o with
      | Ret r => (Ret r, with_logs s1 [finish_record r])
      | Panicked e => (Ret (None, Some (panic_error e)), with_logs s1 (panic_records e))
      | Exited n => (Exited n, s1)
      end.
Proof.
  intros Rq Rs Rq_type GetChain req info handler s s1 o path name Hname Hfull Hrun.
  rewrite <- (entry_record_message info (GetChain req) req path name Hname Hfull) in Hrun.
  change (handler req (entered info (GetChain req) req s) = (o, s1)) in Hrun.
  destruct o as [r | e | n].
  - now apply Interceptor_Ret_state.
  - now apply Interceptor_Panicked.
  - now apply Interceptor_Exited.
Qed.

Lemma logged_method_name_witness :
  ("/"%char ∉ list_ascii_of_string "GetFee")
  /\ chaindispatcher.FullMethod (sample.info service.GetFee)
     = "/account.WalletAccountService" +:+ String "/" "GetFee"
  /\ chaindispatcher.Interceptor (Rq_type := service.Req_GoType service.GetFee)
       (Some account.Chain) (sample.rawRequest "Bitcoin")
       (sample.info service.GetFee) (chaindispatcher.serve service.GetFee)
       sample.serving
     = (Ret (Some {| account.Code := common.ReturnCode_ERROR;
                     account.Msg := "get fee fail at pre handle";
                     account.Payload := [] |}, None),
        {| chaindispatcher.dispatcher := chaindispatcher.dispatcher sample.serving;
           chaindispatcher.calls := [];
           chaindispatcher.logs :=
             [ {| log.level := log.LvlInfo;
                  log.message := log.Text "GetFee";
                  log.ctx := [log.VStr "chain"; log.VStr "Bitcoin"; log.VStr "req";
                              log.VDyn (account.Request account.RawFields)
                                (sample.rawRequest "Bitcoin")] |};
               finish_record
                 (Some {| account.Code := common.ReturnCode_ERROR;
                          account.Msg := "get fee fail at pre handle";
                          account.Payload := ([] : account.RawFields) |},
                  @None error) ] |}).
Proof.
  assert (H : "/"%char ∉ list_ascii_of_string "GetFee").
  { cbn. repeat (apply not_elem_of_cons; split; [ discriminate | ]). apply not_elem_of_nil. }
  split; [ exact H | ]. split; [ reflexivity | ].
  exact (logged_method_name _ _ (Rq_type := service.Req_GoType service.GetFee)
           account.Chain (sample.rawRequest "Bitcoin")
           (sample.info service.GetFee) (chaindispatcher.serve service.GetFee)
           sample.serving _ _ "/account.WalletAccountService" "GetFee"
           H (or_introl eq_refl) eq_refl).
Defined.

(** ** The second copy of the adaptor *)

(** The second copy of the ethereum adaptor panics with "implement
    me" in fourteen of its operations: those the first copy leaves
    unimplemented, and the two block-header operations and [GetAccount].
    In the four others ([GetSupportChains], [ConvertAddress],
    [ValidAddress], [GetBlockByNumber]) the two copies do the same. *)
Lemma ethereum_alt_against_ethereum :
  forall (c : ethereum.ChainAdaptor) (m : service.Method) (req : service.Req m)
         (lg : log.Log),
    chain.method_of (ethereum_alt.as_IChainAdaptor c) m req lg
    = if ethereum_alt_unimplemented m
      then (Panicked (PanicString "implement me"), lg)
      else chain.method_of (ethereum.as_IChainAdaptor c) m req lg.
Proof. intros c m req lg. destruct m; reflexivity. Qed.

(** ** A request without a chain name *)

(** X18.  When the request is of a type without the method [GetChain], the
    assertion in the interceptor panics before the handler is called: the
    handler has no part in the result, nothing is invoked, and the caller
    gets a nil response with an Internal error whose text names the type of
    the request. *)
Theorem Interceptor_without_GetChain :
  forall (Rq Rs : Type) (concrete : string) (req : Rq)
         (info : chaindispatcher.UnaryServerInfo)
         (handler handler' : Rq -> M chaindispatcher.State (Reply Rs))
         (s : chaindispatcher.State),
    chaindispatcher.Interceptor (Rq_type := concrete) None req info handler s
    = (Ret (None,
            Some (statusError codes.Internal
                    ("Panic err: interface conversion: " +:+ concrete
                     +:+ " is not chaindispatcher.CommonRequest: missing method GetChain"))),
       with_logs s
         [ {| log.level := log.LvlError; log.message := log.Text "panic error";
              log.ctx := [log.VStr "msg";
                          log.VPanic (PanicTypeAssertion concrete
                                        "chaindispatcher.CommonRequest" "GetChain")] |};
           {| log.level := log.LvlDebug; log.message := log.StackTrace;
              log.ctx := [] |} ])
    /\ chaindispatcher.Interceptor (Rq_type := concrete) None req info handler' s
       = chaindispatcher.Interceptor (Rq_type := concrete) None req info handler s.
Proof.
  intros Rq Rs concrete req info handler handler' s.
  split; [ apply (Interceptor_no_GetChain (Rq_type := concrete)) | ].
  now rewrite !(Interceptor_no_GetChain (Rq_type := concrete)).
Qed.
